(** * Compliance-evidence harness for a Kong gateway: model and properties

    A shallow embedding of the Python harness: the evidence schema and
    the [run] wrapper of [tests/base.py], the gateway clients of
    [clients/kong.py], the sink of [clients/drata.py], the runtime and
    configuration checks of [tests/runtime.py] and
    [tests/configuration.py], and the orchestration of [main.py].

    Conventions.
    - A parsed JSON document, and every Python value the checks put in
      their details, is a [json] tree.  Python ints are [Z], a [dict] is
      an association list read by its first binding, [None] is [JNull].
      JSON numbers with a fraction are outside the model.
    - The two readings of [time.time()] taken by [run] are rationals (in
      seconds), and [int(...)] truncates toward zero.
    - A computation that talks to the network is a function from the
      environment to an outcome and the next environment; the outcome is
      a value or a raised exception, and the environment keeps what was
      done before the exception.
    - Console output is not modelled. *)

From Stdlib Require Import ZArith QArith List String Ascii Bool Lia DecimalString.
Set Warnings "-register-all".
Import ListNotations.
Open Scope string_scope.
Open Scope Z_scope.

(** ** Python values *)

Inductive json : Type :=
| JNull
| JBool (b : bool)
| JInt (z : Z)
| JStr (s : string)
| JList (l : list json)
| JDict (d : list (string * json)).

(** The one float the checks compute, [round(covered / total * 100, 1)],
    is kept as the expression that computes it. *)
Inductive pyfloat : Type :=
| round1_percent (covered total : nat).

(** Values found in evidence details and in sink payloads. *)
Inductive pyval : Type :=
| PJson (j : json)
| PFloat (f : pyfloat)
| PDict (d : list (string * pyval)).

Coercion PJson : json >-> pyval.

Definition pydict (V : Type) := list (string * V).

Fixpoint lookup {V : Type} (k : string) (d : pydict V) : option V :=
  match d with
  | [] => None
  | (k', v) :: d' => if String.eqb k k' then Some v else lookup k d'
  end.

(** [d[k] = v]: overwrite the binding in place, or append a new one. *)
Fixpoint dict_set {V : Type} (k : string) (v : V) (d : pydict V) : pydict V :=
  match d with
  | [] => [(k, v)]
  | (k', v') :: d' =>
      if String.eqb k k' then (k', v) :: d' else (k', v') :: dict_set k v d'
  end.

(** Python truth value. *)
Definition truthy (j : json) : bool :=
  match j with
  | JNull => false
  | JBool b => b
  | JInt z => negb (z =? 0)
  | JStr s => negb (String.eqb s "")
  | JList l => match l with [] => false | _ => true end
  | JDict d => match d with [] => false | _ => true end
  end.

Definition type_name (j : json) : string :=
  match j with
  | JNull => "NoneType"
  | JBool _ => "bool"
  | JInt _ => "int"
  | JStr _ => "str"
  | JList _ => "list"
  | JDict _ => "dict"
  end.

(** [x == s] for a [str] [s]: only an equal [str] compares equal. *)
Definition eq_str (x : json) (s : string) : bool :=
  match x with
  | JStr s' => String.eqb s' s
  | _ => false
  end.

Definition hashable (j : json) : bool :=
  match j with
  | JList _ | JDict _ => false
  | _ => true
  end.

(** [==] on hashable values: [True == 1] and [False == 0] as in Python. *)
Definition scalar_eq (a b : json) : bool :=
  match a, b with
  | JNull, JNull => true
  | JBool x, JBool y => Bool.eqb x y
  | JBool x, JInt y | JInt y, JBool x => (if x then 1 else 0) =? y
  | JInt x, JInt y => x =? y
  | JStr x, JStr y => String.eqb x y
  | _, _ => false
  end.

(** ** Exceptions and outcomes *)

(** An instance of [Exception]: its class and the text [str(e)] gives. *)
Record exn : Type := Exn { exn_class : string; str : string }.

Inductive outcome (A : Type) : Type :=
| Ok (a : A)
| Raise (e : exn).
Arguments Ok {A} a.
Arguments Raise {A} e.

Definition quote (s : string) : string := "'" ++ s ++ "'".

Definition KeyError (k : string) : exn := Exn "KeyError" (quote k).

Definition AttributeError (j : json) (attr : string) : exn :=
  Exn "AttributeError"
      (quote (type_name j) ++ " object has no attribute " ++ quote attr).

Definition TypeError (msg : string) : exn := Exn "TypeError" msg.

(** [j.get(k, default)] *)
Definition py_get (j : json) (k : string) (default : json) : outcome json :=
  match j with
  | JDict d => Ok (match lookup k d with Some v => v | None => default end)
  | _ => Raise (AttributeError j "get")
  end.

(** [j[k]] for a [str] key [k] *)
Definition py_getitem (j : json) (k : string) : outcome json :=
  match j with
  | JDict d => match lookup k d with Some v => Ok v | None => Raise (KeyError k) end
  | JStr _ => Raise (TypeError "string indices must be integers, not 'str'")
  | JList _ => Raise (TypeError "list indices must be integers or slices, not str")
  | _ => Raise (TypeError (quote (type_name j) ++ " object is not subscriptable"))
  end.

Fixpoint chars (s : string) : list json :=
  match s with
  | EmptyString => []
  | String c s' => JStr (String c EmptyString) :: chars s'
  end.

(** [for item in j]: the elements of a list, the keys of a dict, the
    characters of a string. *)
Definition py_iter (j : json) : outcome (list json) :=
  match j with
  | JList l => Ok l
  | JDict d => Ok (map (fun kv => JStr (fst kv)) d)
  | JStr s => Ok (chars s)
  | _ => Raise (TypeError (quote (type_name j) ++ " object is not iterable"))
  end.

(** [x in s] for a set [s], kept as the list of its elements. *)
Definition set_mem (x : json) (s : list json) : outcome bool :=
  if hashable x then Ok (existsb (scalar_eq x) s)
  else Raise (TypeError ("unhashable type: " ++ quote (type_name x))).

(** [int(q)] for a float [q] *)
Definition py_int (q : Q) : Z := Z.quot (Qnum q) (Z.pos (Qden q)).

Definition lower_ascii (c : ascii) : ascii :=
  let n := nat_of_ascii c in
  if (Nat.leb 65 n && Nat.leb n 90)%bool then ascii_of_nat (n + 32) else c.

(** [s.lower()] on ASCII text *)
Fixpoint lower (s : string) : string :=
  match s with
  | EmptyString => EmptyString
  | String c s' => String (lower_ascii c) (lower s')
  end.

(** ** HTTP *)

Record Request : Type := mkRequest {
  req_method : string;
  req_url : string;
  req_headers : pydict string;
  req_json : option pyval;
  req_timeout : option Z
}.

(** What the harness reads of a [requests.Response]: [response.json()]
    may raise; [status_error] is the text of the [HTTPError] that
    [raise_for_status] builds. *)
Record Response : Type := mkResponse {
  status_code : Z;
  headers : pydict string;
  json_body : outcome json;
  status_error : string
}.

(** The network as the harness meets it: [requests.Session.request]
    answers or raises, and the world moves on. *)
Class Network : Type := {
  World : Type;
  session_request : Request -> World -> outcome Response * World
}.

(** ** tests/base.py : the evidence schema *)

Inductive TestResult : Type := PASS | FAIL | ERROR | SKIP.

Definition value (r : TestResult) : string :=
  match r with
  | PASS => "PASS"
  | FAIL => "FAIL"
  | ERROR => "ERROR"
  | SKIP => "SKIP"
  end.

Record EvidenceArtifact : Type := mkArtifact {
  type : string;
  description : string;
  data : json
}.

(** [dataclasses.asdict] of an artifact *)
Definition asdict (a : EvidenceArtifact) : json :=
  JDict [("type", JStr (type a));
         ("description", JStr (description a));
         ("data", data a)].

Module Evidence.
Record t : Type := mk {
  test_id : string;
  test_name : string;
  timestamp : string;
  result : string;
  control_mapping : list string;
  duration_ms : Z;
  details : pydict pyval;
  artifacts : list json;
  error_message : option string
}.
End Evidence.

(** The readings [run] takes: [datetime.now(timezone.utc).isoformat()],
    [time.time()] before [execute], and [time.time()] after it. *)
Record Clock : Type := mkClock {
  now_iso : string;
  time_before : Q;
  time_after : Q
}.

Section Harness.
Context `{Net : Network}.

(** ** The environment and its monad *)

Record Env : Type := mkEnv {
  world : World;
  sent : list Request
}.

Definition M (A : Type) : Type := Env -> outcome A * Env.

Definition ret {A : Type} (a : A) : M A := fun s => (Ok a, s).

Definition raise {A : Type} (e : exn) : M A := fun s => (Raise e, s).

Definition bind {A B : Type} (m : M A) (k : A -> M B) : M B :=
  fun s =>
    match m s with
    | (Ok a, s') => k a s'
    | (Raise e, s') => (Raise e, s')
    end.

(** [try: m  except Exception as e: h e] *)
Definition try_except {A : Type} (m : M A) (h : exn -> M A) : M A :=
  fun s =>
    match m s with
    | (Ok a, s') => (Ok a, s')
    | (Raise e, s') => h e s'
    end.

Definition lift {A : Type} (o : outcome A) : M A := fun s => (o, s).

(** One call of [requests.Session.request], logged. *)
Definition http (rq : Request) : M Response :=
  fun s =>
    let (r, w) := session_request rq (world s) in
    (r, {| world := w; sent := sent s ++ [rq] |}).

Definition raise_for_status (r : Response) : M unit :=
  if (400 <=? status_code r) && (status_code r <? 600)
  then raise (Exn "HTTPError" (status_error r))
  else ret tt.

End Harness.

Declare Scope py_scope.
Delimit Scope py_scope with py.
Notation "x <- m ;; k" := (bind m (fun x => k))
  (at level 61, m at next level, right associativity) : py_scope.
Notation "' pat <- m ;; k" := (bind m (fun x => match x with pat => k end))
  (at level 61, pat pattern, m at next level, right associativity) : py_scope.
Notation "m ;;; k" := (bind m (fun _ => k))
  (at level 61, right associativity) : py_scope.

(** The same sequencing for code that raises but does not touch the
    network. *)
Definition and_then {A B : Type} (o : outcome A) (k : A -> outcome B) : outcome B :=
  match o with
  | Ok a => k a
  | Raise e => Raise e
  end.

Declare Scope outcome_scope.
Delimit Scope outcome_scope with out.
Notation "x <- m ;; k" := (and_then m (fun x => k))
  (at level 61, m at next level, right associativity) : outcome_scope.

(** [[f(x) for x in l]], stopping at the first [x] on which [f] raises *)
Fixpoint map_outcome {A B : Type} (f : A -> outcome B) (l : list A) : outcome (list B) :=
  match l with
  | [] => Ok []
  | x :: l' => (y <- f x ;; ys <- map_outcome f l' ;; Ok (y :: ys))%out
  end.

(** ** tests/base.py : the check abstraction *)

Section Base.
Context `{Net : Network}.
Local Open Scope py_scope.

Definition execution : Type := TestResult * pydict pyval * list EvidenceArtifact.

Record BaseTest : Type := mkTest {
  test_id : string;
  test_name : string;
  control_mapping : list string;
  execute : M execution
}.

Definition run (self : BaseTest) (clock : Clock) : M Evidence.t :=
  let timestamp := now_iso clock in
  let start_time := time_before clock in
  try_except
    (' (result, details, artifacts) <- execute self ;;
     let duration_ms := py_int ((time_after clock - start_time) * (1000 # 1)) in
     ret (Evidence.mk (test_id self) (test_name self) timestamp (value result)
            (control_mapping self) duration_ms details (map asdict artifacts)
            None))
    (fun e =>
     let duration_ms := py_int ((time_after clock - start_time) * (1000 # 1)) in
     ret (Evidence.mk (test_id self) (test_name self) timestamp (value ERROR)
            (control_mapping self) duration_ms [] [] (Some (str e)))).

End Base.

(** ** clients/kong.py *)

Module KongConsumer.
Record t : Type := mk {
  id : json;
  username : json;
  custom_id : json;
  created_at : json
}.
End KongConsumer.

Module KongPlugin.
Record t : Type := mk {
  id : json;
  name : json;
  enabled : json;
  config : json;
  consumer_id : json;
  service_id : json;
  route_id : json
}.
End KongPlugin.

(** One element of the ["data"] list of [/consumers] *)
Definition consumer_of_item (item : json) : outcome KongConsumer.t :=
  (id <- py_getitem item "id" ;;
   username <- py_get item "username" (JStr "") ;;
   custom_id <- py_get item "custom_id" JNull ;;
   created_at <- py_get item "created_at" (JInt 0) ;;
   Ok (KongConsumer.mk id username custom_id created_at))%out.

(** [item.get(k, {}).get("id") if item.get(k) else None] *)
Definition entity_id (item : json) (k : string) : outcome json :=
  (cond <- py_get item k JNull ;;
   if truthy cond
   then (e <- py_get item k (JDict []) ;; py_get e "id" JNull)
   else Ok JNull)%out.

Definition plugin_of_item (item : json) : outcome KongPlugin.t :=
  (id <- py_getitem item "id" ;;
   name <- py_getitem item "name" ;;
   enabled <- py_get item "enabled" (JBool true) ;;
   config <- py_get item "config" (JDict []) ;;
   consumer_id <- entity_id item "consumer" ;;
   service_id <- entity_id item "service" ;;
   route_id <- entity_id item "route" ;;
   Ok (KongPlugin.mk id name enabled config consumer_id service_id route_id))%out.

(** The loop of [get_plugins] over the ["data"] items *)
Fixpoint plugins_of_items (plugin_name : option string) (items : list json)
  : outcome (list KongPlugin.t) :=
  match items with
  | [] => Ok []
  | item :: items' =>
      (skip <- match plugin_name with
               | Some (String c n) =>
                   (name <- py_get item "name" JNull ;;
                    Ok (negb (eq_str name (String c n))))
               | _ => Ok false
               end ;;
       if (skip : bool) then plugins_of_items plugin_name items'
       else (p <- plugin_of_item item ;;
             ps <- plugins_of_items plugin_name items' ;;
             Ok (p :: ps)))%out
  end.

Section Kong.
Context `{Net : Network}.
Local Open Scope py_scope.

(** The admin client.  [_admin_url] stands for the method of that name:
    it resolves the control plane, with a request of its own the first
    time, and may raise. *)
Record KonnectClient : Type := mkKonnect {
  token : string;
  _admin_url : string -> M string
}.

Definition konnect_session_get (self : KonnectClient) (url : string) : M Response :=
  http (mkRequest "GET" url
          [("Authorization", "Bearer " ++ token self);
           ("Content-Type", "application/json")]
          None None).

Definition get_consumers (self : KonnectClient) : M (list KongConsumer.t) :=
  url <- _admin_url self "/consumers" ;;
  response <- konnect_session_get self url ;;
  raise_for_status response ;;;
  lift (body <- json_body response ;;
        data <- py_get body "data" (JList []) ;;
        items <- py_iter data ;;
        map_outcome consumer_of_item items)%out.

Definition get_plugins (self : KonnectClient) (plugin_name : option string)
  : M (list KongPlugin.t) :=
  url <- _admin_url self "/plugins" ;;
  response <- konnect_session_get self url ;;
  raise_for_status response ;;;
  lift (body <- json_body response ;;
        data <- py_get body "data" (JList []) ;;
        items <- py_iter data ;;
        plugins_of_items plugin_name items)%out.

(** The data-plane client, after [__init__]. *)
Record DataplaneClient : Type := mkDataplane {
  base_url : string;
  timeout : Z
}.

Definition request (self : DataplaneClient) (method path : string)
    (api_key : option string) (headers : option (pydict string)) : M Response :=
  let url := base_url self ++ path in
  let req_headers := match headers with
                     | Some (h :: hs) => h :: hs
                     | _ => []
                     end in
  let req_headers := match api_key with
                     | Some (String c k) => dict_set "X-API-Key" (String c k) req_headers
                     | _ => req_headers
                     end in
  http (mkRequest method url req_headers None (Some (timeout self))).

Definition get (self : DataplaneClient) (path : string) (api_key : option string)
  : M Response :=
  request self "GET" path api_key None.

(** [try: json_data = response.json()  except: json_data = {}] *)
Definition json_or_empty (response : Response) : json :=
  match json_body response with
  | Ok j => j
  | Raise _ => JDict []
  end.

Definition health_check (self : DataplaneClient) (api_key : string)
  : M (bool * Z * json) :=
  try_except
    (response <- get self "/api/health" (Some api_key) ;;
     let json_data := json_or_empty response in
     ret (status_code response =? 200, status_code response, json_data))
    (fun e => ret (false, 0, JDict [("error", JStr (str e))])).

Fixpoint test_rate_limit (self : DataplaneClient) (api_key path : string)
    (num_requests : nat) : M (list Z) :=
  match num_requests with
  | O => ret []
  | S n =>
      r <- try_except
             (response <- get self path (Some api_key) ;;
              ret (status_code response))
             (fun _ => ret 0) ;;
      results <- test_rate_limit self api_key path n ;;
      ret (r :: results)
  end.

Definition get_whoami (self : DataplaneClient) (api_key : string) : M (Z * json) :=
  try_except
    (response <- get self "/api/whoami" (Some api_key) ;;
     let json_data := json_or_empty response in
     ret (status_code response, json_data))
    (fun e => ret (0, JDict [("error", JStr (str e))])).

End Kong.

(** ** clients/drata.py *)

Module DrataEvidencePayload.
Record t : Type := mk {
  test_id : string;
  test_name : string;
  result : string;
  timestamp : string;
  control_ids : list string;
  details : pydict pyval;
  artifacts : list json
}.

Definition to_dict (self : t) : pydict pyval :=
  [("externalId", PJson (JStr (test_id self)));
   ("name", PJson (JStr (test_name self)));
   ("status", PJson (JStr (if String.eqb (result self) "PASS"
                           then "PASSING" else "FAILING")));
   ("lastTestedAt", PJson (JStr (timestamp self)));
   ("controlIds", PJson (JList (map JStr (control_ids self))));
   ("evidence", PDict [("details", PDict (details self));
                       ("artifacts", PJson (JList (artifacts self)))])].
End DrataEvidencePayload.

(** The dry-run sink: its one mutable attribute is the list of recorded
    submissions. *)
Record DrataMockClient : Type := mkMock {
  verbose : bool;
  submitted_evidence : list (pydict pyval)
}.

Definition decimal (n : nat) : string :=
  DecimalString.NilEmpty.string_of_uint (Nat.to_uint n).

Section Drata.
Context `{Net : Network}.
Local Open Scope py_scope.

(** The live sink, after [__init__]. *)
Record DrataClient : Type := mkDrata {
  api_key : string;
  api_base : string
}.

Definition _request (self : DrataClient) (method path : string)
    (data : option pyval) : M Response :=
  let url := api_base self ++ path in
  http (mkRequest method url
          [("Authorization", "Bearer " ++ api_key self);
           ("Content-Type", "application/json")]
          data (Some 30)).

Definition submit_external_evidence (self : DrataClient) (monitor_id : string)
    (evidence : DrataEvidencePayload.t) : M json :=
  let payload := DrataEvidencePayload.to_dict evidence in
  response <- _request self "POST"
                ("/public/monitors/" ++ monitor_id ++ "/evidence")
                (Some (PDict payload)) ;;
  raise_for_status response ;;;
  lift (json_body response).

(** [DrataMockClient.submit_external_evidence]: the returned pair is the
    method's result and the client after the append. *)
Definition mock_submit_external_evidence (self : DrataMockClient)
    (monitor_id : string) (evidence : DrataEvidencePayload.t)
  : M (json * DrataMockClient) :=
  let payload := DrataEvidencePayload.to_dict evidence in
  let self' := mkMock (verbose self)
                 (submitted_evidence self ++
                  [[("monitor_id", PJson (JStr monitor_id));
                    ("payload", PDict payload)]]) in
  ret (JDict [("status", JStr "mock");
              ("id", JStr ("mock-" ++ decimal (List.length (submitted_evidence self'))))],
       self').

End Drata.

(** ** tests/runtime.py *)

(** [sum(1 for r in results if r == code)] *)
Definition count_status (code : Z) (results : list Z) : Z :=
  Z.of_nat (List.length (filter (Z.eqb code) results)).

(** [[{"request": i+1, "status": r} for i, r in enumerate(results)]],
    from index [i] on *)
Fixpoint numbered (i : Z) (results : list Z) : list json :=
  match results with
  | [] => []
  | r :: rs => JDict [("request", JInt (i + 1)); ("status", JInt r)] :: numbered (i + 1) rs
  end.

Definition verdict (passed : bool) : TestResult := if passed then PASS else FAIL.

Definition headers_dict (h : pydict string) : json :=
  JDict (map (fun kv => (fst kv, JStr (snd kv))) h).

Section Runtime.
Context `{Net : Network}.
Local Open Scope py_scope.

Definition RT001_execute (dataplane : DataplaneClient) (api_key : string) : M execution :=
  let num_requests := 8%nat in
  let expected_limit := 5 in
  results <- test_rate_limit dataplane api_key "/api/hello" num_requests ;;
  let success_count := count_status 200 results in
  let rate_limited_count := count_status 429 results in
  let passed := (0 <? rate_limited_count) && (success_count <=? expected_limit) in
  let details : pydict pyval :=
    [("api_key", PJson (JStr api_key));
     ("tier", PJson (JStr "free_trial"));
     ("expected_limit", PJson (JInt expected_limit));
     ("requests_sent", PJson (JInt (Z.of_nat num_requests)));
     ("success_count", PJson (JInt success_count));
     ("rate_limited_count", PJson (JInt rate_limited_count));
     ("results", PJson (JList (numbered 0 results)));
     ("rate_limit_triggered", PJson (JBool (0 <? rate_limited_count)))] in
  let artifacts :=
    [mkArtifact "test_results" "HTTP status codes for rate limit test"
       (JList (map JInt results))] in
  ret (verdict passed, details, artifacts).

Definition RT001_RateLimitFreeTier (dataplane : DataplaneClient) (api_key : string)
  : BaseTest :=
  mkTest "RT-001" "Rate limiting enforces free tier (5 req/min)"
    ["CC6.1"; "CC6.3"; "CC7.2"] (RT001_execute dataplane api_key).

Definition RT002_execute (dataplane : DataplaneClient) (api_key : string) : M execution :=
  let num_requests := 10%nat in
  results <- test_rate_limit dataplane api_key "/api/hello" num_requests ;;
  let success_count := count_status 200 results in
  let rate_limited_count := count_status 429 results in
  let passed := success_count =? Z.of_nat num_requests in
  let details : pydict pyval :=
    [("api_key", PJson (JStr api_key));
     ("tier", PJson (JStr "pro"));
     ("expected_limit", PJson (JInt 60));
     ("requests_sent", PJson (JInt (Z.of_nat num_requests)));
     ("success_count", PJson (JInt success_count));
     ("rate_limited_count", PJson (JInt rate_limited_count));
     ("results", PJson (JList (numbered 0 results)));
     ("all_passed", PJson (JBool passed))] in
  let artifacts :=
    [mkArtifact "test_results" "HTTP status codes for pro tier test"
       (JList (map JInt results))] in
  ret (verdict passed, details, artifacts).

Definition RT002_RateLimitProTier (dataplane : DataplaneClient) (api_key : string)
  : BaseTest :=
  mkTest "RT-002" "Rate limiting enforces pro tier (60 req/min)"
    ["CC6.1"; "CC6.3"; "CC7.2"] (RT002_execute dataplane api_key).

Definition RT003_execute (dataplane : DataplaneClient) : M execution :=
  response <- get dataplane "/api/hello" (Some "invalid-key-12345") ;;
  let passed := status_code response =? 401 in
  let details : pydict pyval :=
    [("api_key_used", PJson (JStr "invalid-key-12345"));
     ("expected_status", PJson (JInt 401));
     ("actual_status", PJson (JInt (status_code response)));
     ("rejected", PJson (JBool passed))] in
  let artifacts :=
    [mkArtifact "http_response" "Response from invalid key request"
       (JDict [("status_code", JInt (status_code response));
               ("headers", headers_dict (headers response))])] in
  ret (verdict passed, details, artifacts).

Definition RT003_InvalidKeyRejected (dataplane : DataplaneClient) : BaseTest :=
  mkTest "RT-003" "Invalid API key rejected (401)" ["CC6.1"; "CC6.6"]
    (RT003_execute dataplane).

Definition RT004_execute (dataplane : DataplaneClient) : M execution :=
  response <- get dataplane "/api/hello" None ;;
  let passed := status_code response =? 401 in
  let details : pydict pyval :=
    [("api_key_used", PJson JNull);
     ("expected_status", PJson (JInt 401));
     ("actual_status", PJson (JInt (status_code response)));
     ("rejected", PJson (JBool passed))] in
  let artifacts :=
    [mkArtifact "http_response" "Response from request without API key"
       (JDict [("status_code", JInt (status_code response));
               ("headers", headers_dict (headers response))])] in
  ret (verdict passed, details, artifacts).

Definition RT004_MissingKeyRejected (dataplane : DataplaneClient) : BaseTest :=
  mkTest "RT-004" "Missing API key rejected (401)" ["CC6.1"; "CC6.6"]
    (RT004_execute dataplane).

Definition RT005_execute (dataplane : DataplaneClient) (api_key : string) : M execution :=
  ' (is_healthy, status_code, response_data) <- health_check dataplane api_key ;;
  let passed := status_code =? 200 in
  let details : pydict pyval :=
    [("api_key_used", PJson (JStr api_key));
     ("expected_status", PJson (JInt 200));
     ("actual_status", PJson (JInt status_code));
     ("accepted", PJson (JBool passed));
     ("health_response", PJson response_data)] in
  let artifacts :=
    [mkArtifact "http_response" "Health check response with valid key" response_data] in
  ret (verdict passed, details, artifacts).

Definition RT005_ValidKeyAccepted (dataplane : DataplaneClient) (api_key : string)
  : BaseTest :=
  mkTest "RT-005" "Valid API key accepted (200)" ["CC6.1"]
    (RT005_execute dataplane api_key).

Definition RT006_execute (dataplane : DataplaneClient) (api_key : string)
    (expected_custom_id : string) : M execution :=
  ' (status_code, response_data) <- get_whoami dataplane api_key ;;
  consumer_info <- lift (py_get response_data "consumer" (JDict [])) ;;
  actual_custom_id <- lift (py_get consumer_info "custom_id" (JStr "")) ;;
  let passed := (status_code =? 200) && eq_str actual_custom_id expected_custom_id in
  let details : pydict pyval :=
    [("api_key_used", PJson (JStr api_key));
     ("expected_custom_id", PJson (JStr expected_custom_id));
     ("actual_custom_id", PJson actual_custom_id);
     ("consumer_info", PJson consumer_info);
     ("identity_correct", PJson (JBool passed))] in
  let artifacts :=
    [mkArtifact "http_response" "Whoami response showing consumer identity"
       response_data] in
  ret (verdict passed, details, artifacts).

Definition RT006_ConsumerIdentityInjected (dataplane : DataplaneClient)
    (api_key : string) (expected_custom_id : string) : BaseTest :=
  mkTest "RT-006" "Consumer identity injected correctly" ["CC6.1"; "CC6.3"]
    (RT006_execute dataplane api_key expected_custom_id).

End Runtime.

(** ** tests/configuration.py *)

(** [{p.consumer_id for p in plugins if p.consumer_id and p.enabled}],
    kept as the list of its elements; an unhashable element raises. *)
Fixpoint consumers_with_limits (plugins : list KongPlugin.t) : outcome (list json) :=
  match plugins with
  | [] => Ok []
  | p :: ps =>
      if truthy (KongPlugin.consumer_id p) && truthy (KongPlugin.enabled p)
      then if hashable (KongPlugin.consumer_id p)
           then (s <- consumers_with_limits ps ;; Ok (KongPlugin.consumer_id p :: s))%out
           else Raise (TypeError ("unhashable type: "
                                  ++ quote (type_name (KongPlugin.consumer_id p))))
      else consumers_with_limits ps
  end.

(** The loop of CF-003 over the consumers: the coverage rows and the
    usernames without a limit. *)
Fixpoint coverage (limits : list json) (consumers : list KongConsumer.t)
  : outcome (list json * list json) :=
  match consumers with
  | [] => Ok ([], [])
  | consumer :: cs =>
      (has_limit <- set_mem (KongConsumer.id consumer) limits ;;
       rest <- coverage limits cs ;;
       let row := JDict [("id", KongConsumer.id consumer);
                         ("username", KongConsumer.username consumer);
                         ("custom_id", KongConsumer.custom_id consumer);
                         ("has_rate_limit", JBool has_limit)] in
       Ok (row :: fst rest,
           if (has_limit : bool) then snd rest
           else KongConsumer.username consumer :: snd rest))%out
  end.

Definition has_rate_limit (row : json) : bool :=
  match py_getitem row "has_rate_limit" with
  | Ok v => truthy v
  | Raise _ => false
  end.

Definition CF001_body (plugins : list KongPlugin.t) : execution :=
  let enabled_plugins := filter (fun p => truthy (KongPlugin.enabled p)) plugins in
  let passed := (0 <? Z.of_nat (List.length enabled_plugins)) in
  let plugin_configs :=
    JList (map (fun p => JDict [("id", KongPlugin.id p);
                                ("enabled", KongPlugin.enabled p);
                                ("service_id", KongPlugin.service_id p);
                                ("route_id", KongPlugin.route_id p)])
               plugins) in
  let details : pydict pyval :=
    [("plugin_name", PJson (JStr "key-auth"));
     ("total_found", PJson (JInt (Z.of_nat (List.length plugins))));
     ("enabled_count", PJson (JInt (Z.of_nat (List.length enabled_plugins))));
     ("plugin_configs", PJson plugin_configs);
     ("auth_enforced", PJson (JBool passed))] in
  let artifacts :=
    [mkArtifact "config_snapshot" "Key-auth plugin configuration" plugin_configs] in
  (verdict passed, details, artifacts).

Definition CF002_plugin_config (p : KongPlugin.t) : outcome json :=
  (minute <- py_get (KongPlugin.config p) "minute" JNull ;;
   hour <- py_get (KongPlugin.config p) "hour" JNull ;;
   policy <- py_get (KongPlugin.config p) "policy" JNull ;;
   Ok (JDict [("id", KongPlugin.id p);
              ("enabled", KongPlugin.enabled p);
              ("consumer_id", KongPlugin.consumer_id p);
              ("config", JDict [("minute", minute); ("hour", hour);
                                ("policy", policy)])]))%out.

Definition CF002_body (plugins : list KongPlugin.t) : outcome execution :=
  let consumer_plugins :=
    filter (fun p => truthy (KongPlugin.consumer_id p) && truthy (KongPlugin.enabled p))
           plugins in
  let passed := (0 <? Z.of_nat (List.length consumer_plugins)) in
  (configs <- map_outcome CF002_plugin_config plugins ;;
   let plugin_configs := JList configs in
   let details : pydict pyval :=
     [("plugin_name", PJson (JStr "rate-limiting"));
      ("total_found", PJson (JInt (Z.of_nat (List.length plugins))));
      ("consumer_scoped_count", PJson (JInt (Z.of_nat (List.length consumer_plugins))));
      ("plugin_configs", PJson plugin_configs);
      ("rate_limiting_configured", PJson (JBool passed))] in
   let artifacts :=
     [mkArtifact "config_snapshot" "Rate limiting plugin configuration" plugin_configs] in
   Ok (verdict passed, details, artifacts))%out.

Definition CF003_body (consumers : list KongConsumer.t)
    (rate_limit_plugins : list KongPlugin.t) : outcome execution :=
  (limits <- consumers_with_limits rate_limit_plugins ;;
   rows <- coverage limits consumers ;;
   let consumer_coverage := fst rows in
   let missing_limits := snd rows in
   let total_consumers := List.length consumers in
   let covered_consumers := List.length (filter has_rate_limit consumer_coverage) in
   let coverage_percent : pyval :=
     if (0 <? Z.of_nat total_consumers)
     then PFloat (round1_percent covered_consumers total_consumers)
     else PJson (JInt 0) in
   let passed := (Z.of_nat (List.length missing_limits) =? 0)
                 && (0 <? Z.of_nat total_consumers) in
   let details : pydict pyval :=
     [("total_consumers", PJson (JInt (Z.of_nat total_consumers)));
      ("consumers_with_limits", PJson (JInt (Z.of_nat covered_consumers)));
      ("coverage_percent", coverage_percent);
      ("missing_limits", PJson (JList missing_limits));
      ("consumer_coverage", PJson (JList consumer_coverage));
      ("full_coverage", PJson (JBool passed))] in
   let artifacts :=
     [mkArtifact "config_snapshot" "Consumer rate limit coverage"
        (JList consumer_coverage)] in
   Ok (verdict passed, details, artifacts))%out.

Section Configuration.
Context `{Net : Network}.
Local Open Scope py_scope.

Definition CF001_execute (konnect : KonnectClient) : M execution :=
  plugins <- get_plugins konnect (Some "key-auth") ;;
  ret (CF001_body plugins).

Definition CF001_AuthPluginEnabled (konnect : KonnectClient) : BaseTest :=
  mkTest "CF-001" "Key authentication plugin enabled" ["CC6.1"; "CC8.1"]
    (CF001_execute konnect).

Definition CF002_execute (konnect : KonnectClient) : M execution :=
  plugins <- get_plugins konnect (Some "rate-limiting") ;;
  lift (CF002_body plugins).

Definition CF002_RateLimitPluginEnabled (konnect : KonnectClient) : BaseTest :=
  mkTest "CF-002" "Rate limiting plugin enabled per consumer"
    ["CC6.1"; "CC6.3"; "CC8.1"] (CF002_execute konnect).

Definition CF003_execute (konnect : KonnectClient) : M execution :=
  consumers <- get_consumers konnect ;;
  rate_limit_plugins <- get_plugins konnect (Some "rate-limiting") ;;
  lift (CF003_body consumers rate_limit_plugins).

Definition CF003_AllConsumersHaveLimits (konnect : KonnectClient) : BaseTest :=
  mkTest "CF-003" "All consumers have rate limits configured" ["CC6.2"; "CC6.3"]
    (CF003_execute konnect).

End Configuration.

(** ** main.py *)

(** The keys [create_tests] reads from [config.kong]. *)
Record KongConfig : Type := mkKongConfig {
  free_trial_key : string;
  pro_key : string
}.

(** [sum(1 for r in results if r.result == s)] *)
Definition count_result (s : string) (results : list Evidence.t) : nat :=
  List.length (filter (fun r => String.eqb (Evidence.result r) s) results).

(** The summary line of [print_summary]: total, passed, failed, errors. *)
Definition summary_stats (results : list Evidence.t) : nat * nat * nat * nat :=
  (List.length results,
   count_result "PASS" results,
   count_result "FAIL" results,
   count_result "ERROR" results).

(** [sum(1 for r in results if r.result in ["FAIL", "ERROR"])] *)
Definition failed_count (results : list Evidence.t) : nat :=
  List.length
    (filter (fun r => existsb (String.eqb (Evidence.result r)) ["FAIL"; "ERROR"])
            results).

(** The status [main] hands to [sys.exit] once the checks have run. *)
Definition exit_status (results : list Evidence.t) : Z :=
  if (0 <? Z.of_nat (failed_count results)) then 1 else 0.

Definition monitor_id_of (evidence : Evidence.t) : string :=
  "kong-" ++ lower (Evidence.test_id evidence).

Definition payload_of (evidence : Evidence.t) : DrataEvidencePayload.t :=
  DrataEvidencePayload.mk (Evidence.test_id evidence) (Evidence.test_name evidence)
    (Evidence.result evidence) (Evidence.timestamp evidence)
    (Evidence.control_mapping evidence) (Evidence.details evidence)
    (Evidence.artifacts evidence).

Section Main.
Context `{Net : Network}.
Local Open Scope py_scope.

Definition create_tests (kong : KongConfig) (konnect : KonnectClient)
    (dataplane : DataplaneClient) : list BaseTest :=
  [RT001_RateLimitFreeTier dataplane (free_trial_key kong);
   RT002_RateLimitProTier dataplane (pro_key kong);
   RT003_InvalidKeyRejected dataplane;
   RT004_MissingKeyRejected dataplane;
   RT005_ValidKeyAccepted dataplane (pro_key kong);
   RT006_ConsumerIdentityInjected dataplane (pro_key kong) "tier_pro";
   CF001_AuthPluginEnabled konnect;
   CF002_RateLimitPluginEnabled konnect;
   CF003_AllConsumersHaveLimits konnect].

(** Each check comes with the clock readings its [run] will take. *)
Fixpoint run_tests (tests : list (BaseTest * Clock)) : M (list Evidence.t) :=
  match tests with
  | [] => ret []
  | (test, clock) :: tests' =>
      evidence <- run test clock ;;
      results <- run_tests tests' ;;
      ret (evidence :: results)
  end.

(** The object [main] passes as [drata_client]. *)
Inductive drata_client : Type :=
| Live (c : DrataClient)
| Mock (m : DrataMockClient).

(** [drata_client.submit_external_evidence(monitor_id, payload)]; the
    client comes back as the call leaves it. *)
Definition client_submit (client : drata_client) (monitor_id : string)
    (payload : DrataEvidencePayload.t) : M drata_client :=
  match client with
  | Live c => submit_external_evidence c monitor_id payload ;;; ret (Live c)
  | Mock m =>
      r <- mock_submit_external_evidence m monitor_id payload ;;
      ret (Mock (snd r))
  end.

Fixpoint push_to_drata (results : list Evidence.t) (client : drata_client)
    (dry_run : bool) : M drata_client :=
  match results with
  | [] => ret client
  | evidence :: results' =>
      let payload := payload_of evidence in
      client' <- try_except
                   (let monitor_id := monitor_id_of evidence in
                    if dry_run then ret client
                    else client_submit client monitor_id payload)
                   (fun _ => ret client) ;;
      push_to_drata results' client' dry_run
  end.

End Main.

(** What [main] reads of the loaded configuration from the creation of
    the sink on. *)
Record Config : Type := mkConfig {
  kong : KongConfig;
  drata_api_key : string;
  drata_api_base : string;
  dry_run : bool;
  config_verbose : bool
}.

(** [s.rstrip("/")] *)
Fixpoint rstrip_slash (s : string) : string :=
  match s with
  | EmptyString => EmptyString
  | String c s' =>
      match rstrip_slash s' with
      | EmptyString => if Ascii.eqb c "/" then EmptyString else String c EmptyString
      | r => String c r
      end
  end.

Section MainRun.
Context `{Net : Network}.
Local Open Scope py_scope.

Definition main_sink (config : Config) : drata_client :=
  if dry_run config
  then Mock (mkMock (config_verbose config) [])
  else Live (mkDrata (drata_api_key config) (rstrip_slash (drata_api_base config))).

(** [main] from the creation of the sink to the push (main.py, lines 202
    to 218): the evidence, the sink as the push leaves it, and the status
    line 231 computes for [sys.exit].  The [--output] export of lines 221
    to 228 comes between the push and [sys.exit]; it is in
    [main_process], below. *)
Definition main_run (config : Config) (konnect : KonnectClient)
    (dataplane : DataplaneClient) (clocks : nat -> Clock)
  : M (list Evidence.t * drata_client * Z) :=
  let drata := main_sink config in
  let tests := create_tests (kong config) konnect dataplane in
  results <- run_tests (combine tests (map clocks (seq 0 (List.length tests)))) ;;
  drata' <- push_to_drata results drata (dry_run config) ;;
  ret (results, drata', exit_status results).

End MainRun.

(** ** A scripted network, for concrete runs

    The world is the list of answers still to come; a request takes the
    next one, and the connection fails once the list is used up. *)

Definition ConnectionError : exn := Exn "ConnectionError" "connection refused".

Definition scripted : Network :=
  {| World := list (outcome Response);
     session_request := fun _ w =>
       match w with
       | [] => (Raise ConnectionError, [])
       | r :: w' => (r, w')
       end |}.

Definition script (answers : list (outcome Response)) : @Env scripted :=
  @mkEnv scripted answers [].

Definition answer (status : Z) (body : json) : outcome Response :=
  Ok (mkResponse status [] (Ok body) "").

Definition gateway : DataplaneClient := mkDataplane "http://gateway" 30.

Definition admin : @KonnectClient scripted :=
  @mkKonnect scripted "token"
    (fun path => @ret scripted _ ("http://admin/core-entities" ++ path)).

(** A check whose [execute] returns the outcome [r] with nothing else. *)
Definition returning (r : TestResult) : @BaseTest scripted :=
  @mkTest scripted "T-000" "returns its outcome" ["CC0.0"]
    (@ret scripted _ (r, [], [])).

Definition raising (e : exn) : @BaseTest scripted :=
  @mkTest scripted "T-001" "raises" ["CC0.0"] (@raise scripted _ e).

Definition noon : Clock := mkClock "2024-01-01T12:00:00+00:00" (10 # 1) (21 # 2).

(** The system clock is set back five seconds while the check runs. *)
Definition clock_set_back : Clock :=
  mkClock "2024-01-01T12:00:00+00:00" (10 # 1) (5 # 1).

Definition sample_evidence (id : string) (r : TestResult) : Evidence.t :=
  Evidence.mk id "sample" "2024-01-01T12:00:00+00:00" (value r) ["CC6.1"] 12
    [("k", PJson (JInt 1))] [] None.

(** ** Notions used in the statements *)

(** The request [DataplaneClient.get] hands to the session. *)
Definition get_request (dp : DataplaneClient) (path : string)
    (api_key : option string) : Request :=
  mkRequest "GET" (base_url dp ++ path)
    match api_key with
    | Some (String c k) => [("X-API-Key", String c k)]
    | _ => []
    end
    None (Some (timeout dp)).

(** The gateway cannot be reached from world [w]: whatever request is
    sent next fails in transport (timeout, refused connection). *)
Definition unreachable `{Net : Network} (w : World) : Prop :=
  forall rq, exists err w', session_request rq w = (Raise err, w').

(** The entry [DrataMockClient.submit_external_evidence] appends when
    [push_to_drata] submits this record. *)
Definition recorded (evidence : Evidence.t) : pydict pyval :=
  [("monitor_id", PJson (JStr ("kong-" ++ lower (Evidence.test_id evidence))));
   ("payload", PDict (DrataEvidencePayload.to_dict (payload_of evidence)))].

(** Results with outcome SKIP; [print_summary] prints no such count. *)
Definition skipped_count (results : list Evidence.t) : nat :=
  count_result "SKIP" results.

(** A scripted data plane that meets the next requests with the given
    status codes; code 0 stands for a request that fails in transport. *)
Definition burst_answer (code : Z) : outcome Response :=
  if code =? 0 then Raise ConnectionError else answer code JNull.

Definition answering (codes : list Z) : @Env scripted :=
  script (map burst_answer codes).

(** The field [consumer.custom_id] as the identity check reads it:
    [response_data.get("consumer", {}).get("custom_id", "")]. *)
Definition nested_custom_id (body : json) : outcome json :=
  (consumer_info <- py_get body "consumer" (JDict []) ;;
   py_get consumer_info "custom_id" (JStr ""))%out.

(** A consumer whose id is not in the set of ids with a limit. *)
Definition uncovered (limits : list json) (c : KongConsumer.t) : bool :=
  negb (existsb (scalar_eq (KongConsumer.id c)) limits).

(** Admin listings for concrete runs.  No plugin object declares
    ["enabled"]. *)
Definition consumers_listing : json :=
  JDict [("data", JList
    [JDict [("id", JStr "c1"); ("username", JStr "free-user");
            ("custom_id", JStr "tier_free"); ("created_at", JInt 1700000000)];
     JDict [("id", JStr "c2"); ("username", JStr "pro-user");
            ("custom_id", JStr "tier_pro"); ("created_at", JInt 1700000001)]])].

Definition plugins_listing : json :=
  JDict [("data", JList
    [JDict [("id", JStr "p1"); ("name", JStr "key-auth");
            ("service", JDict [("id", JStr "s1")])];
     JDict [("id", JStr "p2"); ("name", JStr "rate-limiting");
            ("config", JDict [("minute", JInt 5); ("policy", JStr "local")]);
            ("consumer", JDict [("id", JStr "c1")])]])].

Definition free_user : KongConsumer.t :=
  KongConsumer.mk (JStr "c1") (JStr "free-user") (JStr "tier_free") (JInt 1700000000).

Definition pro_user : KongConsumer.t :=
  KongConsumer.mk (JStr "c2") (JStr "pro-user") (JStr "tier_pro") (JInt 1700000001).

Definition free_limit : KongPlugin.t :=
  KongPlugin.mk (JStr "p2") (JStr "rate-limiting") (JBool true)
    (JDict [("minute", JInt 5); ("policy", JStr "local")]) (JStr "c1") JNull JNull.

(** ** The rest of the harness *)

(** *** tests/base.py : [Evidence.to_dict] *)

Definition optional_str (o : option string) : json :=
  match o with
  | Some s => JStr s
  | None => JNull
  end.

(** [dataclasses.asdict(self)]: one entry per field, in declaration
    order. *)
Definition Evidence_to_dict (self : Evidence.t) : pydict pyval :=
  [("test_id", PJson (JStr (Evidence.test_id self)));
   ("test_name", PJson (JStr (Evidence.test_name self)));
   ("timestamp", PJson (JStr (Evidence.timestamp self)));
   ("result", PJson (JStr (Evidence.result self)));
   ("control_mapping", PJson (JList (map JStr (Evidence.control_mapping self))));
   ("duration_ms", PJson (JInt (Evidence.duration_ms self)));
   ("details", PDict (Evidence.details self));
   ("artifacts", PJson (JList (Evidence.artifacts self)));
   ("error_message", PJson (optional_str (Evidence.error_message self)))].

(** *** config.py *)

(** [os.environ[k]] *)
Definition environ_item (environ : pydict string) (k : string) : outcome string :=
  match lookup k environ with
  | Some v => Ok v
  | None => Raise (KeyError k)
  end.

(** [os.getenv(k, default)] *)
Definition getenv (environ : pydict string) (k default : string) : string :=
  match lookup k environ with
  | Some v => v
  | None => default
  end.

Module config.

Record KongConfig : Type := mkKong {
  konnect_token : string;
  konnect_region : string;
  control_plane_name : string;
  dataplane_url : string;
  free_trial_key : string;
  pro_key : string
}.

Definition KongConfig_from_env (environ : pydict string) : outcome KongConfig :=
  (konnect_token <- environ_item environ "KONNECT_TOKEN" ;;
   let konnect_region := getenv environ "KONNECT_REGION" "us" in
   let control_plane_name :=
     getenv environ "CONTROL_PLANE_NAME" "kong-hybrid-rate-limit-demo" in
   dataplane_url <- environ_item environ "DATAPLANE_URL" ;;
   let free_trial_key := getenv environ "FREE_TRIAL_KEY" "free-trial-key" in
   let pro_key := getenv environ "PRO_KEY" "pro-key" in
   Ok (mkKong konnect_token konnect_region control_plane_name dataplane_url
         free_trial_key pro_key))%out.

Definition region_map : pydict string :=
  [("us", "https://us.api.konghq.com");
   ("eu", "https://eu.api.konghq.com");
   ("au", "https://au.api.konghq.com")].

Definition konnect_api_base (self : KongConfig) : string :=
  match lookup (konnect_region self) region_map with
  | Some url => url
  | None => "https://us.api.konghq.com"
  end.

Record DrataConfig : Type := mkDrataConfig {
  api_key : string;
  api_base : string
}.

Definition DrataConfig_from_env (environ : pydict string) : outcome DrataConfig :=
  (api_key <- environ_item environ "DRATA_API_KEY" ;;
   Ok (mkDrataConfig api_key
         (getenv environ "DRATA_API_BASE" "https://public-api.drata.com")))%out.

Record GCPConfig : Type := mkGCP {
  project_id : string;
  region : string
}.

Definition GCPConfig_from_env (environ : pydict string) : GCPConfig :=
  mkGCP (getenv environ "GCP_PROJECT_ID" "drata-kong-tests")
        (getenv environ "GCP_REGION" "us-east1").

Record Config : Type := mk {
  kong : KongConfig;
  drata : DrataConfig;
  gcp : GCPConfig;
  dry_run : bool;
  verbose : bool
}.

Definition Config_from_env (environ : pydict string) : outcome Config :=
  (kong <- KongConfig_from_env environ ;;
   drata <- DrataConfig_from_env environ ;;
   let gcp := GCPConfig_from_env environ in
   Ok (mk kong drata gcp
         (String.eqb (lower (getenv environ "DRY_RUN" "false")) "true")
         (String.eqb (lower (getenv environ "VERBOSE" "false")) "true")))%out.

Definition load_config (environ : pydict string) : outcome Config :=
  Config_from_env environ.

End config.

(** *** clients/kong.py : the control plane lookup and the raw listings *)

(** The attributes of a [KonnectClient] that [_get_control_plane_id]
    reads and writes; [control_plane_id] is [None] after [__init__]. *)
Module Konnect.
Record t : Type := mk {
  token : string;
  api_base : string;
  control_plane_name : string;
  control_plane_id : json
}.
End Konnect.

Definition ValueError (msg : string) : exn := Exn "ValueError" msg.

(** The loop of [_get_control_plane_id]: the ["id"] of the first control
    plane whose name matches. *)
Fixpoint find_control_plane (name : string) (cps : list json) : outcome (option json) :=
  match cps with
  | [] => Ok None
  | cp :: cps' =>
      (n <- py_get cp "name" JNull ;;
       if eq_str n name
       then (id <- py_getitem cp "id" ;; Ok (Some id))
       else find_control_plane name cps')%out
  end.

Section KonnectLookup.
Context `{Net : Network}.
Local Open Scope py_scope.

Definition control_planes_request (self : Konnect.t) : Request :=
  mkRequest "GET" (Konnect.api_base self ++ "/v2/control-planes")
    [("Authorization", "Bearer " ++ Konnect.token self);
     ("Content-Type", "application/json")]
    None None.

(** The result comes with the client as the call leaves it. *)
Definition _get_control_plane_id (self : Konnect.t) : M (json * Konnect.t) :=
  if truthy (Konnect.control_plane_id self)
  then ret (Konnect.control_plane_id self, self)
  else
    response <- http (control_planes_request self) ;;
    raise_for_status response ;;;
    found <- lift (data <- json_body response ;;
                   listed <- py_get data "data" (JList []) ;;
                   cps <- py_iter listed ;;
                   find_control_plane (Konnect.control_plane_name self) cps)%out ;;
    match found with
    | Some id =>
        ret (id, Konnect.mk (Konnect.token self) (Konnect.api_base self)
                   (Konnect.control_plane_name self) id)
    | None =>
        raise (ValueError ("Control plane " ++ quote (Konnect.control_plane_name self)
                           ++ " not found"))
    end.

Definition get_services (self : KonnectClient) : M json :=
  url <- _admin_url self "/services" ;;
  response <- konnect_session_get self url ;;
  raise_for_status response ;;;
  lift (body <- json_body response ;; py_get body "data" (JList []))%out.

Definition get_routes (self : KonnectClient) : M json :=
  url <- _admin_url self "/routes" ;;
  response <- konnect_session_get self url ;;
  raise_for_status response ;;;
  lift (body <- json_body response ;; py_get body "data" (JList []))%out.

End KonnectLookup.

(** *** clients/drata.py : the other calls of the live client *)

Section DrataCalls.
Context `{Net : Network}.
Local Open Scope py_scope.

Definition DrataClient_health_check (self : DrataClient) : M bool :=
  try_except
    (response <- _request self "GET" "/public/monitors" None ;;
     ret (existsb (Z.eqb (status_code response)) [200; 401; 403]))
    (fun _ => ret false).

Definition get_controls (self : DrataClient) : M json :=
  response <- _request self "GET" "/public/controls" None ;;
  raise_for_status response ;;;
  lift (body <- json_body response ;; py_get body "data" (JList []))%out.

Definition get_monitors (self : DrataClient) : M json :=
  response <- _request self "GET" "/public/monitors" None ;;
  raise_for_status response ;;;
  lift (body <- json_body response ;; py_get body "data" (JList []))%out.

Definition update_monitor_status (self : DrataClient) (monitor_id status : string)
    (evidence_data : option (pydict pyval)) : M json :=
  let payload : pydict pyval := [("status", PJson (JStr status))] in
  let payload := match evidence_data with
                 | Some (kv :: d) => dict_set "evidence" (PDict (kv :: d)) payload
                 | _ => payload
                 end in
  response <- _request self "PATCH" ("/public/monitors/" ++ monitor_id)
                (Some (PDict payload)) ;;
  raise_for_status response ;;;
  lift (json_body response).

End DrataCalls.

(** *** main.py : the summary table and the entry point *)

(** [str(z)] for an [int] *)
Definition str_int (z : Z) : string :=
  DecimalString.NilZero.string_of_int (Z.to_int z).

Definition result_style (result : string) : string :=
  match lookup result [("PASS", "green"); ("FAIL", "red");
                       ("ERROR", "yellow"); ("SKIP", "dim")] with
  | Some style => style
  | None => "white"
  end.

(** The name cell: [name[:40] + "..." if len(name) > 40 else name], on
    ASCII text. *)
Definition name_cell (test_name : string) : string :=
  if Nat.ltb 40 (String.length test_name)
  then substring 0 40 test_name ++ "..."
  else test_name.

(** The five cells [print_summary] adds to the table for one record. *)
Definition summary_row (evidence : Evidence.t) : list string :=
  let style := result_style (Evidence.result evidence) in
  [Evidence.test_id evidence;
   name_cell (Evidence.test_name evidence);
   "[" ++ style ++ "]" ++ Evidence.result evidence ++ "[/" ++ style ++ "]";
   str_int (Evidence.duration_ms evidence) ++ "ms";
   String.concat ", " (firstn 3 (Evidence.control_mapping evidence))].

(** The flags [main] reads from the command line. *)
Record Args : Type := mkArgs {
  args_dry_run : bool;
  args_verbose : bool
}.

(** "Override with CLI flags" *)
Definition cli_override (args : Args) (c : config.Config) : config.Config :=
  if args_dry_run args
  then config.mk (config.kong c) (config.drata c) (config.gcp c) true
         (args_verbose args || config.verbose c)
  else c.

(** What [main_run] reads of the configuration. *)
Definition run_config (c : config.Config) : Config :=
  mkConfig
    (mkKongConfig (config.free_trial_key (config.kong c)) (config.pro_key (config.kong c)))
    (config.api_key (config.drata c)) (config.api_base (config.drata c))
    (config.dry_run c) (config.verbose c).

Section EntryPoint.
Context `{Net : Network}.
Local Open Scope py_scope.

(** [main] without [--output]: the status it exits with.  The admin
    client's [_admin_url] is given. *)
Definition main (args : Args) (environ : pydict string)
    (admin_url : string -> M string) (clocks : nat -> Clock) : M Z :=
  match config.load_config environ with
  | Raise _ => ret 1
  | Ok loaded =>
      let c := cli_override args loaded in
      let konnect := mkKonnect (config.konnect_token (config.kong c)) admin_url in
      let dataplane :=
        mkDataplane (rstrip_slash (config.dataplane_url (config.kong c))) 30 in
      r <- main_run (run_config c) konnect dataplane clocks ;;
      ret (snd r)
  end.

End EntryPoint.

(** *** Notions used in the further statements *)

(** The request [KonnectClient.session.get(url)] sends. *)
Definition admin_request `{Net : Network} (konnect : KonnectClient) (url : string)
  : Request :=
  mkRequest "GET" url
    [("Authorization", "Bearer " ++ token konnect);
     ("Content-Type", "application/json")]
    None None.

(** [item.get("name") == plugin_name], false when the lookup raises. *)
Definition named (plugin_name : string) (item : json) : bool :=
  match py_get item "name" JNull with
  | Ok v => eq_str v plugin_name
  | Raise _ => false
  end.

(** A plugin that counts for CF-002 and CF-003: consumer-scoped and
    enabled. *)
Definition consumer_scoped (p : KongPlugin.t) : bool :=
  truthy (KongPlugin.consumer_id p) && truthy (KongPlugin.enabled p).

Definition is_dict (j : json) : bool :=
  match j with
  | JDict _ => true
  | _ => false
  end.

(** The POST the live sink sends for one evidence record. *)
Definition submit_request (c : DrataClient) (evidence : Evidence.t) : Request :=
  mkRequest "POST"
    (api_base c ++ "/public/monitors/" ++ monitor_id_of evidence ++ "/evidence")
    [("Authorization", "Bearer " ++ api_key c); ("Content-Type", "application/json")]
    (Some (PDict (DrataEvidencePayload.to_dict (payload_of evidence)))) (Some 30).


(** The admin API answers every listing with a 4xx or 5xx status whose
    [HTTPError] text is [msg], when asked from environment [s]. *)
Definition admin_rejects `{Net : Network} (konnect : KonnectClient) (s : Env)
    (msg : string) : Prop :=
  forall path, exists url s1 r w,
    _admin_url konnect path s = (Ok url, s1)
    /\ session_request (admin_request konnect url) (world s1) = (Ok r, w)
    /\ 400 <= status_code r < 600
    /\ status_error r = msg.

(** An answer with an error status. *)
Definition error_answer (status : Z) (msg : string) : outcome Response :=
  Ok (mkResponse status [] (Ok (JDict [("message", JStr msg)])) msg).

(** [k] slashes. *)
Fixpoint slashes (k : nat) : string :=
  match k with
  | O => ""
  | S k' => String "/" (slashes k')
  end.

(** The three variables [load_config] cannot do without, in the order
    it reads them. *)
Definition required_variables : list string :=
  ["KONNECT_TOKEN"; "DATAPLANE_URL"; "DRATA_API_KEY"].

(** [os.getenv(k, "false").lower() == "true"] *)
Definition env_flag (environ : pydict string) (k : string) : bool :=
  String.eqb (lower (getenv environ k "false")) "true".

(** A scripted control-plane listing. *)
Definition control_planes_listing : json :=
  JDict [("data", JList
    [JDict [("id", JStr "cp-1"); ("name", JStr "staging")];
     JDict [("id", JStr "cp-2"); ("name", JStr "kong-hybrid-rate-limit-demo")];
     JDict [("id", JStr "cp-3"); ("name", JStr "kong-hybrid-rate-limit-demo")]])].

Definition fresh_konnect : Konnect.t :=
  Konnect.mk "token" "https://us.api.konghq.com" "kong-hybrid-rate-limit-demo" JNull.

(** The answer is not an error status. *)
Definition status_ok (r : Response) : bool :=
  negb ((400 <=? status_code r) && (status_code r <? 600)).

(** *** main.py : the export and the end of the process *)

(** [output_data]: the timestamp and the exported results, the two
    entries of the dict [main] writes. *)
Definition output_data (now : string) (results : list Evidence.t)
  : string * list (pydict pyval) :=
  (now, map Evidence_to_dict results).

Section Process.
Context `{Net : Network}.
Local Open Scope py_scope.

(** [main] from the creation of the sink to [sys.exit], with the
    [--output] export.  The file system is given: [write_json path data]
    stands for [with open(path, "w") as f: json.dump(data, f, indent=2,
    default=str)], which raises when the file cannot be opened or
    written; [now] is the timestamp read for the export.  Nothing
    catches what the export raises. *)
Definition main_process (config : Config) (konnect : KonnectClient)
    (dataplane : DataplaneClient) (clocks : nat -> Clock)
    (output : option string) (now : string)
    (write_json : string -> string * list (pydict pyval) -> M unit) : M Z :=
  r <- main_run config konnect dataplane clocks ;;
  let results := fst (fst r) in
  match output with
  | Some (String c path) =>
      write_json (String c path) (output_data now results) ;;;
      ret (exit_status results)
  | _ => ret (exit_status results)
  end.

(** The status the process ends with: the argument of [sys.exit], or 1
    when an exception reaches the top level. *)
Definition process_status (m : M Z) (s : Env) : Z :=
  match fst (m s) with
  | Ok status => status
  | Raise _ => 1
  end.

End Process.

(** *** More scripted inputs *)

(** A file system on which the export succeeds, and one where the
    directory of the output file does not exist. *)
Definition write_succeeds (path : string) (data : string * list (pydict pyval))
  : @M scripted unit :=
  @ret scripted _ tt.

Definition write_fails (path : string) (data : string * list (pydict pyval))
  : @M scripted unit :=
  @raise scripted _
    (Exn "FileNotFoundError" ("[Errno 2] No such file or directory: " ++ quote path)).

Definition no_consumers_listing : json := JDict [("data", JList [])].

Definition covered_consumers_listing : json :=
  JDict [("data", JList
    [JDict [("id", JStr "c1"); ("username", JStr "free-user");
            ("custom_id", JStr "tier_free"); ("created_at", JInt 1700000000)]])].

(** Answers on which every one of the nine checks passes, in the order
    the checks ask. *)
Definition passing_answers : list (outcome Response) :=
  (map burst_answer [200; 200; 200; 200; 200; 429; 429; 429]
   ++ map burst_answer (repeat 200 10)
   ++ [answer 401 (JDict [("message", JStr "Unauthorized")]);
       answer 401 (JDict [("message", JStr "No API key found in request")]);
       answer 200 (JDict [("status", JStr "healthy")]);
       answer 200 (JDict [("consumer", JDict [("custom_id", JStr "tier_pro")])]);
       answer 200 plugins_listing;
       answer 200 plugins_listing;
       answer 200 covered_consumers_listing;
       answer 200 plugins_listing])%list.

Definition dry_run_config : Config :=
  mkConfig (mkKongConfig "free-trial-key" "pro-key") "drata-key"
    "https://public-api.drata.com" true false.

(** * Properties *)

Section RunProperties.
Context `{Net : Network}.

(** [run] unfolded on the two ways [execute] can end. *)
Lemma run_cases (t : BaseTest) (clock : Clock) (s : Env) :
  run t clock s =
  let duration := py_int ((time_after clock - time_before clock) * (1000 # 1)) in
  match execute t s with
  | (Ok (r, d, a), s') =>
      (Ok (Evidence.mk (test_id t) (test_name t) (now_iso clock) (value r)
             (control_mapping t) duration d (map asdict a) None), s')
  | (Raise e, s') =>
      (Ok (Evidence.mk (test_id t) (test_name t) (now_iso clock) (value ERROR)
             (control_mapping t) duration [] [] (Some (str e))), s')
  end.
Proof.
  unfold run, try_except, bind, ret.
  destruct (execute t s) as [[[[r d] a] | e] s']; reflexivity.
Qed.

Lemma py_int_elapsed_nonneg (a b : Q) :
  (a <= b)%Q -> 0 <= py_int ((b - a) * (1000 # 1)).
Proof.
  intros H. unfold py_int. apply Z.quot_pos; [| lia].
  unfold Qle in H. destruct a as [an ad], b as [bn bd]. simpl in *. nia.
Qed.

Lemma value_in_outcomes (r : TestResult) :
  In (value r) ["PASS"; "FAIL"; "ERROR"; "SKIP"].
Proof. destruct r; simpl; auto. Qed.

Lemma run_returns (t : BaseTest) (clock : Clock) (s : Env) :
  exists e, run t clock s = (Ok e, snd (execute t s))
            /\ In (Evidence.result e) ["PASS"; "FAIL"; "ERROR"; "SKIP"].
Proof.
  rewrite run_cases. cbv zeta.
  destruct (execute t s) as [[[[r d] a] | e] s']; simpl;
    eexists; split; try reflexivity; simpl.
  - apply value_in_outcomes.
  - auto.
Qed.

End RunProperties.

(** ** The run wrapper *)

Section RunClaims.
Context `{Net : Network}.

(** C1 (as the code has it).  Whatever [execute] does, [run] returns one
    Evidence record and lets no exception through; its result is one of
    PASS, FAIL, ERROR, SKIP; when [execute] raises, the record has result
    ERROR, empty details, empty artifacts and [str(e)] as error message;
    when [execute] returns, the record carries what it returned.  The
    duration is the truncated difference of two readings of the wall
    clock, and it is non-negative as soon as the second reading is not
    earlier than the first. *)
Theorem C1_run_wraps_every_execution (t : BaseTest) (clock : Clock) (s : Env) :
  exists e,
    run t clock s = (Ok e, snd (execute t s))
    /\ In (Evidence.result e) ["PASS"; "FAIL"; "ERROR"; "SKIP"]
    /\ Evidence.duration_ms e
       = py_int ((time_after clock - time_before clock) * (1000 # 1))
    /\ ((time_before clock <= time_after clock)%Q -> 0 <= Evidence.duration_ms e)
    /\ match fst (execute t s) with
       | Raise err =>
           Evidence.result e = "ERROR"
           /\ Evidence.details e = []
           /\ Evidence.artifacts e = []
           /\ Evidence.error_message e = Some (str err)
       | Ok (r, d, a) =>
           Evidence.result e = value r
           /\ Evidence.details e = d
           /\ Evidence.artifacts e = map asdict a
           /\ Evidence.error_message e = None
       end.
Proof.
  pose proof (py_int_elapsed_nonneg (time_before clock) (time_after clock)) as Hd.
  rewrite run_cases. cbv zeta.
  destruct (execute t s) as [[[[r d] a] | err] s']; simpl;
    eexists; (split; [reflexivity |]); simpl; repeat split; auto.
  apply value_in_outcomes.
Qed.

(** C2 (as the code has it).  In the record [run] produces, the error
    message is set exactly when [execute] raised, and then the result is
    ERROR; when [execute] returned, the message is absent and the result
    is the returned outcome, ERROR included.  So a result other than
    ERROR never carries a message. *)
Theorem C2_error_message_iff_execute_raised (t : BaseTest) (clock : Clock) (s : Env) :
  exists e,
    run t clock s = (Ok e, snd (execute t s))
    /\ (Evidence.error_message e <> None <-> exists err, fst (execute t s) = Raise err)
    /\ (Evidence.error_message e <> None -> Evidence.result e = "ERROR")
    /\ (Evidence.result e <> "ERROR" -> Evidence.error_message e = None)
    /\ (forall r d a, fst (execute t s) = Ok (r, d, a) ->
        Evidence.result e = value r /\ Evidence.error_message e = None).
Proof.
  rewrite run_cases. cbv zeta.
  destruct (execute t s) as [[[[r d] a] | err] s']; simpl;
    eexists; (split; [reflexivity |]); simpl.
  - split; [| split; [| split]].
    + split; [intros H; now elim H | intros [err H]; discriminate].
    + intros H; now elim H.
    + reflexivity.
    + intros r' d' a' H. injection H as -> _ _. auto.
  - split; [| split; [| split]].
    + split; [intros _; now exists err | discriminate].
    + reflexivity.
    + intros H; now elim H.
    + discriminate.
Qed.

End RunClaims.

(** C1, at a concrete input: a check that raises [KeyError('id')] while
    the clock advances by half a second. *)
Lemma C1_witness :
  (time_before noon <= time_after noon)%Q
  /\ exists e,
    @run scripted (raising (KeyError "id")) noon (script [])
      = (Ok e, snd (@execute scripted (raising (KeyError "id")) (script [])))
    /\ In (Evidence.result e) ["PASS"; "FAIL"; "ERROR"; "SKIP"]
    /\ Evidence.duration_ms e = 500
    /\ 0 <= Evidence.duration_ms e
    /\ (Evidence.result e = "ERROR"
        /\ Evidence.details e = []
        /\ Evidence.artifacts e = []
        /\ Evidence.error_message e = Some "'id'").
Proof.
  assert (H : (time_before noon <= time_after noon)%Q) by (vm_compute; discriminate).
  split; [exact H |].
  destruct (@C1_run_wraps_every_execution scripted (raising (KeyError "id")) noon
              (script [])) as (e & Hrun & Hres & Hdur & Hpos & Hraise).
  exists e. split; [exact Hrun |]. split; [exact Hres |].
  split; [exact Hdur |]. split; [exact (Hpos H) | exact Hraise].
Defined.

(** C1 as stated fails: with the system clock set back during the
    check, [run] reports a negative duration. *)
Lemma C1_counterexample_negative_duration :
  exists e s',
    @run scripted (returning PASS) clock_set_back (script []) = (Ok e, s')
    /\ Evidence.duration_ms e = -5000
    /\ ~ 0 <= Evidence.duration_ms e.
Proof.
  eexists; eexists. split; [reflexivity |]. split; [reflexivity |].
  vm_compute. intros H. apply H. reflexivity.
Qed.

(** C2, at a concrete input. *)
Lemma C2_witness :
  exists e,
    @run scripted (raising (KeyError "id")) noon (script [])
      = (Ok e, snd (@execute scripted (raising (KeyError "id")) (script [])))
    /\ (Evidence.error_message e <> None
        <-> exists err,
            fst (@execute scripted (raising (KeyError "id")) (script [])) = Raise err)
    /\ (Evidence.error_message e <> None -> Evidence.result e = "ERROR")
    /\ (Evidence.result e <> "ERROR" -> Evidence.error_message e = None)
    /\ (forall r d a,
        fst (@execute scripted (raising (KeyError "id")) (script [])) = Ok (r, d, a) ->
        Evidence.result e = value r /\ Evidence.error_message e = None).
Proof.
  exact (@C2_error_message_iff_execute_raised scripted (raising (KeyError "id")) noon
           (script [])).
Defined.

(** C2 as stated fails: a check whose [execute] returns ERROR yields a
    record with result ERROR and no error message. *)
Lemma C2_counterexample_returned_error :
  exists e s',
    @run scripted (returning ERROR) noon (script []) = (Ok e, s')
    /\ Evidence.result e = "ERROR"
    /\ Evidence.error_message e = None.
Proof.
  eexists; eexists. split; [reflexivity |]. split; reflexivity.
Qed.

(** ** Transport failures in the runtime checks *)

Lemma count_status_le_length (code : Z) (codes : list Z) :
  count_status code codes <= Z.of_nat (List.length codes).
Proof.
  unfold count_status. apply Nat2Z.inj_le. apply filter_length_le.
Qed.

Section TransportFailure.
Context `{Net : Network}.

(** [get] sends exactly one request and ends as that request ends. *)
Lemma get_sends (dp : DataplaneClient) (path : string) (key : option string) (s : Env) :
  get dp path key s
  = (fst (session_request (get_request dp path key) (world s)),
     mkEnv (snd (session_request (get_request dp path key) (world s)))
       (sent s ++ [get_request dp path key])).
Proof.
  unfold get, request, http, get_request.
  destruct key as [[| c k] |]; simpl;
    destruct (session_request _ (world s)); reflexivity.
Qed.

Lemma get_fails (dp : DataplaneClient) (path : string) (key : option string) (s : Env) :
  unreachable (world s) ->
  exists err s',
    fst (session_request (get_request dp path key) (world s)) = Raise err
    /\ get dp path key s = (Raise err, s').
Proof.
  intros Hdown. rewrite get_sends.
  destruct (Hdown (get_request dp path key)) as (err & w' & E).
  rewrite E. simpl. eauto.
Qed.

(** The wrappers swallow the failure and report status code 0. *)
Lemma health_check_unreachable (dp : DataplaneClient) (key : string) (s : Env) :
  unreachable (world s) ->
  exists err s',
    fst (session_request (get_request dp "/api/health" (Some key)) (world s)) = Raise err
    /\ health_check dp key s = (Ok (false, 0, JDict [("error", JStr (str err))]), s').
Proof.
  intros Hdown.
  destruct (get_fails dp "/api/health" (Some key) s Hdown) as (err & s' & Hw & E).
  exists err, s'. split; [exact Hw |].
  unfold health_check, try_except, bind. now rewrite E.
Qed.

Lemma get_whoami_unreachable (dp : DataplaneClient) (key : string) (s : Env) :
  unreachable (world s) ->
  exists err s',
    fst (session_request (get_request dp "/api/whoami" (Some key)) (world s)) = Raise err
    /\ get_whoami dp key s = (Ok (0, JDict [("error", JStr (str err))]), s').
Proof.
  intros Hdown.
  destruct (get_fails dp "/api/whoami" (Some key) s Hdown) as (err & s' & Hw & E).
  exists err, s'. split; [exact Hw |].
  unfold get_whoami, try_except, bind. now rewrite E.
Qed.

(** A burst never raises: it returns one status per request. *)
Lemma test_rate_limit_returns (dp : DataplaneClient) (key path : string) (n : nat) :
  forall s, exists codes s',
    test_rate_limit dp key path n s = (Ok codes, s') /\ List.length codes = n.
Proof.
  induction n as [| n IH]; intros s; simpl.
  - exists [], s. split; reflexivity.
  - unfold bind at 1. unfold try_except, bind at 1.
    destruct (get dp path (Some key) s) as [[response | err] s1]; simpl;
      destruct (IH s1) as (codes & s2 & E & L);
      unfold bind; rewrite E; simpl; eexists; eexists; (split; [reflexivity |]);
      simpl; now rewrite L.
Qed.

Lemma test_rate_limit_unreachable (dp : DataplaneClient) (key path : string)
    (n : nat) (s : Env) :
  unreachable (world s) ->
  exists codes s',
    test_rate_limit dp key path (S n) s = (Ok (0 :: codes), s')
    /\ List.length codes = n.
Proof.
  intros Hdown. destruct (get_fails dp path (Some key) s Hdown) as (err & s1 & _ & E).
  destruct (test_rate_limit_returns dp key path n s1) as (codes & s2 & E2 & L).
  exists codes, s2. split; [| exact L].
  simpl. unfold bind at 1. unfold try_except, bind at 1. rewrite E. simpl.
  unfold bind. rewrite E2. reflexivity.
Qed.

(** C3 (as the code has it).  With the gateway unreachable, [run] turns
    the transport failure into ERROR for the invalid-key and missing-key
    checks, which call [get] themselves: the error message is the text
    of the exception the request raised.  The valid-key-accepted and
    identity-injection checks go through [health_check] and
    [get_whoami], which catch the failure and report status code 0: these
    two checks return normally and their result is FAIL, with no error
    message.  The two rate-limit bursts record 0 for the failed request
    and do not end in ERROR. *)
Theorem C3_transport_failure_by_check (dp : DataplaneClient)
    (key expected : string) (clock : Clock) (s : Env)
    (Hdown : unreachable (world s)) :
  (exists e s' err,
      fst (session_request (get_request dp "/api/hello" (Some "invalid-key-12345"))
             (world s)) = Raise err
      /\ run (RT003_InvalidKeyRejected dp) clock s = (Ok e, s')
      /\ Evidence.result e = "ERROR"
      /\ Evidence.error_message e = Some (str err))
  /\ (exists e s' err,
      fst (session_request (get_request dp "/api/hello" None) (world s)) = Raise err
      /\ run (RT004_MissingKeyRejected dp) clock s = (Ok e, s')
      /\ Evidence.result e = "ERROR"
      /\ Evidence.error_message e = Some (str err))
  /\ (exists e s' err,
      fst (session_request (get_request dp "/api/health" (Some key)) (world s))
        = Raise err
      /\ run (RT005_ValidKeyAccepted dp key) clock s = (Ok e, s')
      /\ Evidence.result e = "FAIL"
      /\ Evidence.error_message e = None
      /\ lookup "actual_status" (Evidence.details e) = Some (PJson (JInt 0))
      /\ lookup "health_response" (Evidence.details e)
         = Some (PJson (JDict [("error", JStr (str err))])))
  /\ (exists e s' err,
      fst (session_request (get_request dp "/api/whoami" (Some key)) (world s))
        = Raise err
      /\ run (RT006_ConsumerIdentityInjected dp key expected) clock s = (Ok e, s')
      /\ Evidence.result e = "FAIL"
      /\ Evidence.error_message e = None
      /\ lookup "actual_custom_id" (Evidence.details e) = Some (PJson (JStr "")))
  /\ (exists e s' codes,
      run (RT001_RateLimitFreeTier dp key) clock s = (Ok e, s')
      /\ (Evidence.result e = "PASS" \/ Evidence.result e = "FAIL")
      /\ Evidence.error_message e = None
      /\ lookup "data" match Evidence.artifacts e with
                       | [JDict a] => a
                       | _ => []
                       end = Some (JList (JInt 0 :: codes)))
  /\ (exists e s' codes,
      run (RT002_RateLimitProTier dp key) clock s = (Ok e, s')
      /\ Evidence.result e = "FAIL"
      /\ Evidence.error_message e = None
      /\ lookup "data" match Evidence.artifacts e with
                       | [JDict a] => a
                       | _ => []
                       end = Some (JList (JInt 0 :: codes))).
Proof.
  split; [| split; [| split; [| split; [| split]]]].
  - destruct (get_fails dp "/api/hello" (Some "invalid-key-12345") s Hdown)
      as (err & s' & Hw & E).
    rewrite run_cases. cbv zeta. simpl execute. unfold RT003_execute, bind.
    rewrite E. eexists; exists s', err. split; [exact Hw |]. repeat split.
  - destruct (get_fails dp "/api/hello" None s Hdown) as (err & s' & Hw & E).
    rewrite run_cases. cbv zeta. simpl execute. unfold RT004_execute, bind.
    rewrite E. eexists; exists s', err. split; [exact Hw |]. repeat split.
  - destruct (health_check_unreachable dp key s Hdown) as (err & s' & Hw & E).
    rewrite run_cases. cbv zeta. simpl execute. unfold RT005_execute, bind.
    rewrite E. eexists; exists s', err. split; [exact Hw |]. repeat split.
  - destruct (get_whoami_unreachable dp key s Hdown) as (err & s' & Hw & E).
    rewrite run_cases. cbv zeta. simpl execute. unfold RT006_execute, bind.
    rewrite E. simpl. eexists; exists s', err. split; [exact Hw |]. repeat split.
  - destruct (test_rate_limit_unreachable dp key "/api/hello" 7 s Hdown)
      as (codes & s' & E & L).
    rewrite run_cases. cbv zeta. simpl execute. unfold RT001_execute, bind.
    rewrite E. eexists; exists s', (map JInt codes). split; [reflexivity |].
    cbn [Evidence.result Evidence.error_message Evidence.artifacts map asdict
         data lookup String.eqb Ascii.eqb Bool.eqb].
    split; [| split; reflexivity].
    unfold verdict. destruct (_ && _); simpl; auto.
  - destruct (test_rate_limit_unreachable dp key "/api/hello" 9 s Hdown)
      as (codes & s' & E & L).
    rewrite run_cases. cbv zeta. simpl execute. unfold RT002_execute, bind.
    rewrite E. eexists; exists s', (map JInt codes). split; [reflexivity |].
    cbn [Evidence.result Evidence.error_message Evidence.artifacts map asdict
         data lookup String.eqb Ascii.eqb Bool.eqb].
    split; [| split; reflexivity].
    assert (Hc : (count_status 200 (0 :: codes) =? Z.of_nat 10) = false).
    { apply Z.eqb_neq. pose proof (count_status_le_length 200 codes) as Hle.
      unfold count_status in *. simpl filter. simpl (200 =? 0). lia. }
    rewrite Hc. reflexivity.
Qed.

End TransportFailure.

Lemma script_empty_unreachable : @unreachable scripted (@world scripted (script [])).
Proof. intros rq. exists ConnectionError, []. reflexivity. Qed.

(** C3, at a concrete input: the scripted network with no answer left. *)
Lemma C3_witness :
  @unreachable scripted (@world scripted (script []))
  /\ (exists e s' err,
        fst (@session_request scripted
               (get_request gateway "/api/hello" (Some "invalid-key-12345"))
               (@world scripted (script []))) = Raise err
        /\ @run scripted (RT003_InvalidKeyRejected gateway) noon (script []) = (Ok e, s')
        /\ Evidence.result e = "ERROR"
        /\ Evidence.error_message e = Some (str err))
  /\ (exists e s' err,
        fst (@session_request scripted
               (get_request gateway "/api/health" (Some "pro-key"))
               (@world scripted (script []))) = Raise err
        /\ @run scripted (RT005_ValidKeyAccepted gateway "pro-key") noon (script [])
          = (Ok e, s')
        /\ Evidence.result e = "FAIL"
        /\ Evidence.error_message e = None
        /\ lookup "actual_status" (Evidence.details e) = Some (PJson (JInt 0))
        /\ lookup "health_response" (Evidence.details e)
           = Some (PJson (JDict [("error", JStr (str err))]))).
Proof.
  split; [exact script_empty_unreachable |].
  destruct (@C3_transport_failure_by_check scripted gateway "pro-key" "tier_pro" noon
              (script []) script_empty_unreachable) as (H3 & _ & H5 & _).
  split; [exact H3 | exact H5].
Defined.

(** C3 as stated fails: with the gateway unreachable, the
    valid-key-accepted check and the identity-injection check end in
    FAIL, not ERROR. *)
Lemma C3_counterexample_wrapped_probes_fail :
  (exists e s',
      @run scripted (RT005_ValidKeyAccepted gateway "pro-key") noon (script [])
        = (Ok e, s')
      /\ Evidence.result e = "FAIL" /\ Evidence.result e <> "ERROR")
  /\ (exists e s',
      @run scripted (RT006_ConsumerIdentityInjected gateway "pro-key" "tier_pro") noon
        (script []) = (Ok e, s')
      /\ Evidence.result e = "FAIL" /\ Evidence.result e <> "ERROR").
Proof.
  split; eexists; eexists; (split; [reflexivity |]); split;
    [reflexivity | discriminate | reflexivity | discriminate].
Qed.

(** ** The sink adapter *)

Section Sink.
Context `{Net : Network}.

(** With [dry_run] off, the mock sink records one entry per evidence
    record, in order, and touches no network. *)
Lemma mock_push_records_each (results : list Evidence.t) :
  forall (m : DrataMockClient) (s : Env),
    push_to_drata results (Mock m) false s
    = (Ok (Mock (mkMock (verbose m)
                   (submitted_evidence m ++ map recorded results)%list)), s).
Proof.
  induction results as [| e results IH]; intros m s; simpl.
  - rewrite app_nil_r. destruct m; reflexivity.
  - unfold bind at 1. unfold try_except. simpl.
    rewrite IH. simpl. rewrite <- app_assoc. reflexivity.
Qed.

Lemma push_to_drata_returns (results : list Evidence.t) (dry : bool) :
  forall (client : drata_client) (s : Env),
    exists client' s', push_to_drata results client dry s = (Ok client', s').
Proof.
  induction results as [| e results IH]; intros client s; simpl.
  - exists client, s. reflexivity.
  - unfold bind at 1. unfold try_except.
    destruct dry.
    + unfold ret at 1. apply IH.
    + destruct (client_submit client (monitor_id_of e) (payload_of e) s)
        as [[c | err] s1]; [| unfold ret at 1]; apply IH.
Qed.

(** What the live sink sends for one submission, whatever the answer. *)
Lemma live_submit_request (c : DrataClient) (monitor_id : string)
    (payload : DrataEvidencePayload.t) (s : Env) :
  sent (snd (submit_external_evidence c monitor_id payload s))
  = app (sent s)
     [mkRequest "POST" (api_base c ++ "/public/monitors/" ++ monitor_id ++ "/evidence")
        [("Authorization", "Bearer " ++ api_key c); ("Content-Type", "application/json")]
        (Some (PDict (DrataEvidencePayload.to_dict payload))) (Some 30)].
Proof.
  unfold submit_external_evidence, _request, bind, http.
  destruct (session_request _ (world s)) as [[r | err] w]; [| reflexivity].
  unfold raise_for_status.
  destruct ((400 <=? status_code r) && (status_code r <? 600)); reflexivity.
Qed.

(** C4 (the code at the claim's input).  With [dry_run] on,
    [push_to_drata] leaves the sink client and the environment as they
    were: no request is sent, and nothing is appended to the mock
    client's [submitted_evidence].  With [dry_run] off the same mock
    client records every would-be submission. *)
Theorem C4_dry_run_push_records_nothing (results : list Evidence.t)
    (client : drata_client) (keys : KongConfig) (key base : string) (v : bool)
    (s : Env) :
  push_to_drata results client true s = (Ok client, s)
  /\ push_to_drata results (main_sink (mkConfig keys key base true v)) true s
     = (Ok (Mock (mkMock v [])), s)
  /\ push_to_drata results (Mock (mkMock v [])) false s
     = (Ok (Mock (mkMock v (map recorded results))), s).
Proof.
  assert (H : forall c, push_to_drata results c true s = (Ok c, s)).
  { induction results as [| e results IH]; intros c; simpl; [reflexivity |].
    unfold bind, try_except, ret. apply IH. }
  split; [apply H | split; [apply H |]].
  apply (mock_push_records_each results (mkMock v []) s).
Qed.

(** C6.  The payload built for an evidence record has status "PASSING"
    when the result is PASS and "FAILING" otherwise, so FAIL, ERROR and
    SKIP all map to "FAILING"; the submission target is "kong-" followed
    by the lower-cased check id, both in what the mock sink records and
    in the URL the live sink posts to; and submitting the same record
    again produces the same target and payload again. *)
Theorem C6_sink_status_and_target (e : Evidence.t) (r : TestResult)
    (m : DrataMockClient) (c : DrataClient) (s : Env) :
  lookup "status" (DrataEvidencePayload.to_dict (payload_of e))
  = Some (PJson (JStr (if String.eqb (Evidence.result e) "PASS"
                       then "PASSING" else "FAILING")))
  /\ lookup "status"
       (DrataEvidencePayload.to_dict
          (payload_of (Evidence.mk (Evidence.test_id e) (Evidence.test_name e)
                         (Evidence.timestamp e) (value r) (Evidence.control_mapping e)
                         (Evidence.duration_ms e) (Evidence.details e)
                         (Evidence.artifacts e) (Evidence.error_message e))))
     = Some (PJson (JStr match r with
                         | PASS => "PASSING"
                         | FAIL | ERROR | SKIP => "FAILING"
                         end))
  /\ monitor_id_of e = "kong-" ++ lower (Evidence.test_id e)
  /\ push_to_drata [e; e] (Mock m) false s
     = (Ok (Mock (mkMock (verbose m)
                    (submitted_evidence m ++ [recorded e; recorded e])%list)), s)
  /\ lookup "monitor_id" (recorded e)
     = Some (PJson (JStr ("kong-" ++ lower (Evidence.test_id e))))
  /\ lookup "payload" (recorded e)
     = Some (PDict (DrataEvidencePayload.to_dict (payload_of e)))
  /\ sent (snd (push_to_drata [e] (Live c) false s))
     = app (sent s)
        [mkRequest "POST"
           (api_base c ++ "/public/monitors/" ++ ("kong-" ++ lower (Evidence.test_id e))
            ++ "/evidence")
           [("Authorization", "Bearer " ++ api_key c);
            ("Content-Type", "application/json")]
           (Some (PDict (DrataEvidencePayload.to_dict (payload_of e)))) (Some 30)].
Proof.
  split; [reflexivity |].
  split; [destruct r; reflexivity |].
  split; [reflexivity |].
  split; [apply (mock_push_records_each [e; e] m s) |].
  split; [reflexivity |].
  split; [reflexivity |].
  pose proof (live_submit_request c (monitor_id_of e) (payload_of e) s) as Hsent.
  simpl. unfold bind at 1. unfold try_except, client_submit. unfold bind at 1.
  destruct (submit_external_evidence c (monitor_id_of e) (payload_of e) s)
    as [[j | err] s1]; simpl in *; exact Hsent.
Qed.

End Sink.

(** C6, at a concrete input: check id "RT-001", each of the four
    outcomes. *)
Lemma C6_examples :
  monitor_id_of (sample_evidence "RT-001" PASS) = "kong-rt-001"
  /\ map (fun r => lookup "status"
                     (DrataEvidencePayload.to_dict (payload_of (sample_evidence "RT-001" r))))
         [PASS; FAIL; ERROR; SKIP]
     = map (fun x => Some (PJson (JStr x))) ["PASSING"; "FAILING"; "FAILING"; "FAILING"].
Proof. split; reflexivity. Qed.

(** C4, at the failing input: one PASS record for RT-001 pushed in
    dry-run mode to a fresh mock client. *)
Lemma C4_failing_input :
  @push_to_drata scripted [sample_evidence "RT-001" PASS] (Mock (mkMock false [])) true
    (script [])
  = (Ok (Mock (mkMock false [])), script []).
Proof. reflexivity. Qed.

(** ** The summary and the exit status *)

Lemma count_partition (results : list Evidence.t) :
  Forall (fun e => In (Evidence.result e) ["PASS"; "FAIL"; "ERROR"; "SKIP"]) results ->
  (count_result "PASS" results + count_result "FAIL" results
   + count_result "ERROR" results + skipped_count results
   = List.length results)%nat.
Proof.
  unfold skipped_count, count_result.
  induction 1 as [| e results He _ IH]; [reflexivity |].
  simpl in He.
  destruct He as [He | [He | [He | [He | []]]]]; simpl; rewrite <- He; simpl; lia.
Qed.

Lemma failed_count_split (results : list Evidence.t) :
  failed_count results
  = (count_result "FAIL" results + count_result "ERROR" results)%nat.
Proof.
  unfold failed_count, count_result.
  induction results as [| e results IH]; [reflexivity |].
  simpl in *.
  destruct (String.eqb (Evidence.result e) "FAIL") eqn:Ef;
    destruct (String.eqb (Evidence.result e) "ERROR") eqn:Ee; simpl; try lia.
  apply String.eqb_eq in Ef. apply String.eqb_eq in Ee. congruence.
Qed.

Section Orchestrator.
Context `{Net : Network}.

Lemma run_tests_returns (tests : list (BaseTest * Clock)) :
  forall s, exists results s',
    run_tests tests s = (Ok results, s')
    /\ List.length results = List.length tests
    /\ Forall (fun e => In (Evidence.result e) ["PASS"; "FAIL"; "ERROR"; "SKIP"])
         results.
Proof.
  induction tests as [| [t clock] tests IH]; intros s; simpl.
  - exists [], s. repeat split. constructor.
  - destruct (run_returns t clock s) as (e & E & He).
    destruct (IH (snd (execute t s))) as (results & s' & E' & L & F).
    exists (e :: results), s'. unfold bind. rewrite E, E'. simpl.
    repeat split; [now rewrite L | now constructor].
Qed.

Lemma summary_of_outcomes (results : list Evidence.t) :
  Forall (fun e => In (Evidence.result e) ["PASS"; "FAIL"; "ERROR"; "SKIP"]) results ->
  let '(total, passed, failed, errors) := summary_stats results in
  (passed + failed + errors + skipped_count results = total)%nat
  /\ (exit_status results = 1 <-> (0 < failed + errors)%nat)
  /\ (exit_status results = 0 <-> (failed + errors = 0)%nat).
Proof.
  intros F. unfold summary_stats, exit_status.
  rewrite failed_count_split.
  split; [now apply count_partition |].
  destruct (0 <? Z.of_nat _) eqn:E;
    [apply Z.ltb_lt in E | apply Z.ltb_ge in E]; split; split; intros; lia.
Qed.

Lemma main_run_returns (config : Config) (konnect : KonnectClient)
    (dataplane : DataplaneClient) (clocks : nat -> Clock) (s : Env) :
  exists results sink s',
    main_run config konnect dataplane clocks s
    = (Ok (results, sink, exit_status results), s')
    /\ List.length results = 9%nat
    /\ Forall (fun e => In (Evidence.result e) ["PASS"; "FAIL"; "ERROR"; "SKIP"])
         results.
Proof.
  unfold main_run.
  destruct (run_tests_returns
              (combine (create_tests (kong config) konnect dataplane)
                 (map clocks
                    (seq 0 (List.length (create_tests (kong config) konnect dataplane)))))
              s) as (results & s1 & E & L & F).
  destruct (push_to_drata_returns results (dry_run config) (main_sink config) s1)
    as (sink & s2 & E2).
  exists results, sink, s2. unfold bind. rewrite E, E2.
  split; [reflexivity |]. split; [exact L | exact F].
Qed.

(** C5 (as the code has it).  The results list of a run has one record
    per check; the counts of PASS, FAIL and ERROR that [print_summary]
    computes, together with the number of SKIP records, add up to the
    total; and the status [main] hands to [sys.exit] is 1 exactly when
    FAIL plus ERROR is not zero, and 0 otherwise.  The process of [main]
    ends with status 1 whenever FAIL plus ERROR is not zero.  When no
    export is asked for, or the export is written, it ends with 1
    exactly when FAIL plus ERROR is not zero and with 0 otherwise; when
    writing the export raises, nothing catches the exception and the
    process ends with status 1 whatever the results are. *)
Theorem C5_counts_partition_and_process_status (tests : list (BaseTest * Clock))
    (config : Config) (konnect : KonnectClient) (dataplane : DataplaneClient)
    (clocks : nat -> Clock) (output : option string) (now : string)
    (write_json : string -> string * list (pydict pyval) -> M unit) (s : Env) :
  (exists results s',
      run_tests tests s = (Ok results, s')
      /\ List.length results = List.length tests
      /\ let '(total, passed, failed, errors) := summary_stats results in
         (passed + failed + errors + skipped_count results = total)%nat
         /\ (exit_status results = 1 <-> (0 < failed + errors)%nat)
         /\ (exit_status results = 0 <-> (failed + errors = 0)%nat))
  /\ (exists results sink s',
      main_run config konnect dataplane clocks s
      = (Ok (results, sink, exit_status results), s')
      /\ List.length results = 9%nat
      /\ let status :=
           process_status
             (main_process config konnect dataplane clocks output now write_json) s in
         let '(total, passed, failed, errors) := summary_stats results in
         (passed + failed + errors + skipped_count results = total)%nat
         /\ (status = 0 \/ status = 1)
         /\ ((0 < failed + errors)%nat -> status = 1)
         /\ match output with
            | Some (String c path) =>
                match fst (write_json (String c path) (output_data now results) s') with
                | Ok _ => (status = 1 <-> (0 < failed + errors)%nat)
                          /\ (status = 0 <-> (failed + errors = 0)%nat)
                | Raise _ => status = 1
                end
            | _ => (status = 1 <-> (0 < failed + errors)%nat)
                   /\ (status = 0 <-> (failed + errors = 0)%nat)
            end).
Proof.
  split.
  - destruct (run_tests_returns tests s) as (results & s' & E & L & F).
    exists results, s'. split; [exact E |]. split; [exact L |].
    now apply summary_of_outcomes.
  - destruct (main_run_returns config konnect dataplane clocks s)
      as (results & sink & s' & E & L & F).
    exists results, sink, s'. split; [exact E |]. split; [exact L |].
    pose proof (summary_of_outcomes results F) as Hsum.
    assert (Hst :
      process_status
        (main_process config konnect dataplane clocks output now write_json) s
      = match output with
        | Some (String c path) =>
            match fst (write_json (String c path) (output_data now results) s') with
            | Ok _ => exit_status results
            | Raise _ => 1
            end
        | _ => exit_status results
        end).
    { unfold process_status, main_process, bind at 1. rewrite E. cbn [fst].
      destruct output as [[| c path] |]; [reflexivity | | reflexivity].
      unfold bind.
      destruct (write_json (String c path) (output_data now results) s')
        as [[[] | err] s2]; reflexivity. }
    cbv zeta. rewrite Hst. clear Hst. unfold summary_stats in *.
    destruct Hsum as (Hpart & H1 & H0).
    assert (H01 : exit_status results = 0 \/ exit_status results = 1).
    { unfold exit_status. destruct (0 <? _); auto. }
    split; [exact Hpart |].
    destruct output as [[| c path] |].
    + split; [exact H01 |]. split; [apply H1 | split; [exact H1 | exact H0]].
    + destruct (fst (write_json (String c path) (output_data now results) s'))
        as [[] | err].
      * split; [exact H01 |]. split; [apply H1 | split; [exact H1 | exact H0]].
      * split; [auto |]. split; [auto | reflexivity].
    + split; [exact H01 |]. split; [apply H1 | split; [exact H1 | exact H0]].
Qed.

End Orchestrator.

(** C5, at a concrete input: one check that passes, one that fails, one
    that raises, one that is skipped. *)
Lemma C5_example :
  exists results s',
    @run_tests scripted
      [(returning PASS, noon); (returning FAIL, noon);
       (raising (KeyError "id"), noon); (returning SKIP, noon)] (script [])
    = (Ok results, s')
    /\ summary_stats results = (4, 1, 1, 1)%nat
    /\ skipped_count results = 1%nat
    /\ exit_status results = 1.
Proof. eexists; eexists. split; [reflexivity |]. repeat split. Qed.

(** C5 as stated fails: all nine checks pass, so FAIL plus ERROR is
    zero, but the file given to [--output] cannot be opened; the
    exception is not caught and the process ends with status 1. *)
Lemma C5_counterexample_export_fails :
  exists results sink s',
    @main_run scripted dry_run_config admin gateway (fun _ => noon)
      (script passing_answers) = (Ok (results, sink, 0), s')
    /\ map Evidence.result results
       = ["PASS"; "PASS"; "PASS"; "PASS"; "PASS"; "PASS"; "PASS"; "PASS"; "PASS"]
    /\ (count_result "FAIL" results + count_result "ERROR" results = 0)%nat
    /\ @process_status scripted
         (@main_process scripted dry_run_config admin gateway (fun _ => noon)
            (Some "/missing/results.json") "2024-01-01T12:00:05+00:00" write_fails)
         (script passing_answers) = 1
    /\ @process_status scripted
         (@main_process scripted dry_run_config admin gateway (fun _ => noon)
            (Some "/tmp/results.json") "2024-01-01T12:00:05+00:00" write_succeeds)
         (script passing_answers) = 0.
Proof.
  do 3 eexists. split; [vm_compute; reflexivity |].
  split; [reflexivity |]. split; [reflexivity |]. split; vm_compute; reflexivity.
Qed.

(** ** The free-tier rate-limit check *)

Lemma value_verdict_pass (b : bool) : value (verdict b) = "PASS" <-> b = true.
Proof. destruct b; simpl; split; intros H; try reflexivity; discriminate. Qed.

Lemma value_verdict_fail (b : bool) : value (verdict b) = "FAIL" <-> b = false.
Proof. destruct b; simpl; split; intros H; try reflexivity; discriminate. Qed.

Lemma count_status_pos (code : Z) (codes : list Z) :
  0 < count_status code codes <-> In code codes.
Proof.
  unfold count_status. induction codes as [| c codes IH]; simpl.
  - split; [lia | tauto].
  - destruct (code =? c) eqn:E.
    + apply Z.eqb_eq in E. subst c. simpl. split; [auto | lia].
    + apply Z.eqb_neq in E. rewrite IH. split; [auto | intros [H | H]; congruence].
Qed.

Lemma free_tier_decision (codes : list Z) :
  (0 <? count_status 429 codes) && (count_status 200 codes <=? 5) = true
  <-> In 429 codes /\ count_status 200 codes <= 5.
Proof.
  rewrite andb_true_iff, Z.ltb_lt, Z.leb_le, count_status_pos. tauto.
Qed.

(** The scripted data plane shows the burst exactly the codes it was
    given. *)
Lemma answering_observed (dp : DataplaneClient) (key path : string) (codes : list Z) :
  forall log, exists s',
    @test_rate_limit scripted dp key path (List.length codes)
      (@mkEnv scripted (map burst_answer codes) log)
    = (Ok codes, s').
Proof.
  induction codes as [| c codes IH]; intros log; simpl.
  - eexists. reflexivity.
  - unfold bind at 1. unfold try_except, bind at 1.
    unfold get, request, http. simpl. unfold burst_answer at 1.
    destruct (c =? 0) eqn:Ec; simpl;
      match goal with
      | |- context [@mkEnv scripted _ ?l] => destruct (IH l) as (s' & E)
      end;
      unfold bind; rewrite E; eexists.
    + apply Z.eqb_eq in Ec. subst c. reflexivity.
    + reflexivity.
Qed.

(** C7.  The free-tier check sends eight requests and its result is
    PASS exactly when at least one observed status is 429 and at most
    five are 200; otherwise it is FAIL.  Any list of eight status codes
    can be observed; the codes 200 x5, 429 x3 give PASS and eight 200s
    give FAIL. *)
Theorem C7_free_tier_pass_iff (Net : Network) (dp : DataplaneClient)
    (key : string) (clock : Clock) (s : Env) :
  (exists codes e s',
      test_rate_limit dp key "/api/hello" 8 s = (Ok codes, s')
      /\ List.length codes = 8%nat
      /\ run (RT001_RateLimitFreeTier dp key) clock s = (Ok e, s')
      /\ (Evidence.result e = "PASS" <-> In 429 codes /\ count_status 200 codes <= 5)
      /\ (Evidence.result e = "FAIL" <-> ~ (In 429 codes /\ count_status 200 codes <= 5)))
  /\ (forall codes, List.length codes = 8%nat ->
      exists e s',
        @run scripted (RT001_RateLimitFreeTier dp key) clock (answering codes)
          = (Ok e, s')
        /\ lookup "data" match Evidence.artifacts e with
                         | [JDict a] => a
                         | _ => []
                         end = Some (JList (map JInt codes))
        /\ (Evidence.result e = "PASS"
            <-> In 429 codes /\ count_status 200 codes <= 5)
        /\ (Evidence.result e = "FAIL"
            <-> ~ (In 429 codes /\ count_status 200 codes <= 5)))
  /\ (exists e s',
        @run scripted (RT001_RateLimitFreeTier dp key) clock
          (answering [200; 200; 200; 200; 200; 429; 429; 429]) = (Ok e, s')
        /\ Evidence.result e = "PASS")
  /\ (exists e s',
        @run scripted (RT001_RateLimitFreeTier dp key) clock
          (answering [200; 200; 200; 200; 200; 200; 200; 200]) = (Ok e, s')
        /\ Evidence.result e = "FAIL").
Proof.
  assert (Hfail : forall codes,
    value (verdict ((0 <? count_status 429 codes) && (count_status 200 codes <=? 5)))
      = "FAIL" <-> ~ (In 429 codes /\ count_status 200 codes <= 5)).
  { intros codes. rewrite value_verdict_fail, <- free_tier_decision.
    destruct (_ && _); split; intros H; try reflexivity; try discriminate;
      try (intros H'; discriminate); now elim H. }
  split; [| split; [| split]].
  - destruct (test_rate_limit_returns dp key "/api/hello" 8 s) as (codes & s' & E & L).
    eexists codes, _, s'. split; [exact E |]. split; [exact L |].
    rewrite run_cases. cbv zeta. simpl execute. unfold RT001_execute, bind.
    rewrite E. split; [reflexivity |]. simpl Evidence.result. split.
    + rewrite value_verdict_pass. apply free_tier_decision.
    + apply Hfail.
  - intros codes L.
    destruct (answering_observed dp key "/api/hello" codes []) as (s' & E).
    rewrite L in E.
    rewrite run_cases. cbv zeta. simpl execute. unfold RT001_execute, bind.
    unfold answering, script. rewrite E.
    eexists; exists s'. split; [reflexivity |].
    split; [reflexivity |]. simpl Evidence.result. split.
    + rewrite value_verdict_pass. apply free_tier_decision.
    + apply Hfail.
  - eexists; eexists. split; reflexivity.
  - eexists; eexists. split; reflexivity.
Qed.

(** C7, at a concrete input: a burst in which one request is answered
    with status 0. *)
Lemma C7_witness :
  exists e s',
    @run scripted (RT001_RateLimitFreeTier gateway "free-trial-key") noon
      (answering [200; 0; 200; 429; 200; 200; 429; 200]) = (Ok e, s')
    /\ lookup "data" match Evidence.artifacts e with
                     | [JDict a] => a
                     | _ => []
                     end
       = Some (JList (map JInt [200; 0; 200; 429; 200; 200; 429; 200]))
    /\ (Evidence.result e = "PASS"
        <-> In 429 [200; 0; 200; 429; 200; 200; 429; 200]
            /\ count_status 200 [200; 0; 200; 429; 200; 200; 429; 200] <= 5)
    /\ (Evidence.result e = "FAIL"
        <-> ~ (In 429 [200; 0; 200; 429; 200; 200; 429; 200]
               /\ count_status 200 [200; 0; 200; 429; 200; 200; 429; 200] <= 5)).
Proof.
  destruct (C7_free_tier_pass_iff scripted gateway "free-trial-key" noon (script []))
    as (_ & H & _).
  exact (H [200; 0; 200; 429; 200; 200; 429; 200] eq_refl).
Defined.

(** ** The identity-injection check *)

Section Identity.
Context `{Net : Network}.

Lemma get_whoami_returns (dp : DataplaneClient) (key : string) (s : Env) :
  exists st body s', get_whoami dp key s = (Ok (st, body), s').
Proof.
  unfold get_whoami, try_except, bind.
  destruct (get dp "/api/whoami" (Some key) s) as [[r | err] s']; simpl;
    do 3 eexists; reflexivity.
Qed.

(** C9 (as the code has it).  The identity check never lets the probe
    raise; its result is PASS exactly when the status is 200 and the
    custom id read from the body, with the empty string standing in for
    a missing consumer or custom_id, is the expected string, compared
    exactly.  For a body with no consumer field the compared value is
    the empty string, and the result is FAIL whenever the expected
    identity is not empty. *)
Theorem C9_identity_pass_iff (dp : DataplaneClient) (key expected : string)
    (clock : Clock) (s : Env) :
  exists st body e s',
    get_whoami dp key s = (Ok (st, body), s')
    /\ run (RT006_ConsumerIdentityInjected dp key expected) clock s = (Ok e, s')
    /\ (Evidence.result e = "PASS"
        <-> st = 200 /\ nested_custom_id body = Ok (JStr expected))
    /\ (forall d, body = JDict d -> lookup "consumer" d = None ->
        nested_custom_id body = Ok (JStr "")
        /\ lookup "actual_custom_id" (Evidence.details e) = Some (PJson (JStr ""))
        /\ (expected <> "" -> Evidence.result e = "FAIL")).
Proof.
  destruct (get_whoami_returns dp key s) as (st & body & s' & E).
  exists st, body. rewrite run_cases. cbv zeta. simpl execute.
  unfold RT006_execute, bind at 1. rewrite E. unfold nested_custom_id.
  unfold bind, lift, ret.
  destruct (py_get body "consumer" (JDict [])) as [info | err] eqn:Ec; simpl.
  - destruct (py_get info "custom_id" (JStr "")) as [actual | err] eqn:Ea; simpl.
    + eexists; exists s'. split; [reflexivity |]. split; [reflexivity |].
      simpl. split.
      * rewrite value_verdict_pass, andb_true_iff, Z.eqb_eq.
        split.
        -- intros [Hs Hq]. split; [exact Hs |].
           destruct actual; simpl in Hq; try discriminate.
           apply String.eqb_eq in Hq. now subst.
        -- intros [Hs Hq]. split; [exact Hs |].
           injection Hq as ->. simpl. apply String.eqb_refl.
      * intros d -> Hd. simpl in Ec. rewrite Hd in Ec. injection Ec as <-.
        simpl in Ea. injection Ea as <-.
        split; [reflexivity |]. split; [reflexivity |].
        intros Hne. rewrite value_verdict_fail. simpl.
        apply andb_false_iff. right.
        destruct expected; [now elim Hne | reflexivity].
    + eexists; exists s'. split; [reflexivity |]. split; [reflexivity |].
      simpl. split.
      * split; [discriminate | intros [_ H]; discriminate].
      * intros d -> Hd. simpl in Ec. rewrite Hd in Ec. injection Ec as <-.
        simpl in Ea. discriminate.
  - eexists; exists s'. split; [reflexivity |]. split; [reflexivity |].
    simpl. split.
    + split; [discriminate | intros [_ H]; discriminate].
    + intros d -> Hd. simpl in Ec. discriminate.
Qed.

End Identity.

(** C9, at a concrete input: status 200, a body without a consumer
    field, expected identity "tier_pro". *)
Lemma C9_witness :
  exists st body e s',
    @get_whoami scripted gateway "pro-key"
      (script [answer 200 (JDict [("path", JStr "/api/whoami")])])
      = (Ok (st, body), s')
    /\ @run scripted (RT006_ConsumerIdentityInjected gateway "pro-key" "tier_pro") noon
         (script [answer 200 (JDict [("path", JStr "/api/whoami")])]) = (Ok e, s')
    /\ (Evidence.result e = "PASS"
        <-> st = 200 /\ nested_custom_id body = Ok (JStr "tier_pro"))
    /\ (forall d, body = JDict d -> lookup "consumer" d = None ->
        nested_custom_id body = Ok (JStr "")
        /\ lookup "actual_custom_id" (Evidence.details e) = Some (PJson (JStr ""))
        /\ ("tier_pro" <> "" -> Evidence.result e = "FAIL")).
Proof.
  exact (@C9_identity_pass_iff scripted gateway "pro-key" "tier_pro" noon
           (script [answer 200 (JDict [("path", JStr "/api/whoami")])])).
Defined.

(** The comparison is exact: a custom id that differs only in case does
    not pass. *)
Lemma identity_examples :
  (exists e s',
      @run scripted (RT006_ConsumerIdentityInjected gateway "pro-key" "tier_pro") noon
        (script [answer 200 (JDict [("consumer", JDict [("custom_id", JStr "tier_pro")])])])
      = (Ok e, s') /\ Evidence.result e = "PASS")
  /\ (exists e s',
      @run scripted (RT006_ConsumerIdentityInjected gateway "pro-key" "tier_pro") noon
        (script [answer 200 (JDict [("consumer", JDict [("custom_id", JStr "Tier_Pro")])])])
      = (Ok e, s') /\ Evidence.result e = "FAIL")
  /\ (exists e s',
      @run scripted (RT006_ConsumerIdentityInjected gateway "pro-key" "tier_pro") noon
        (script [answer 403 (JDict [("consumer", JDict [("custom_id", JStr "tier_pro")])])])
      = (Ok e, s') /\ Evidence.result e = "FAIL")
  /\ (exists e s',
      @run scripted (RT006_ConsumerIdentityInjected gateway "pro-key" "tier_pro") noon
        (script [answer 200 (JDict [("consumer", JStr "tier_pro")])])
      = (Ok e, s') /\ Evidence.result e = "ERROR").
Proof. repeat split; eexists; eexists; split; reflexivity. Qed.

(** C9 as stated fails: with the empty string as expected identity, a
    200 answer whose body has no consumer field passes. *)
Lemma C9_counterexample_empty_expected_identity :
  exists e s',
    @run scripted (RT006_ConsumerIdentityInjected gateway "pro-key" "") noon
      (script [answer 200 (JDict [("path", JStr "/api/whoami")])]) = (Ok e, s')
    /\ lookup "consumer" [("path", JStr "/api/whoami")] = None
    /\ Evidence.result e = "PASS"
    /\ Evidence.result e <> "FAIL".
Proof.
  eexists; eexists. split; [reflexivity |].
  split; [reflexivity |]. split; [reflexivity | discriminate].
Qed.

(** ** The all-consumers-have-limits check *)

Lemma consumers_with_limits_spec (plugins : list KongPlugin.t) :
  forall limits, consumers_with_limits plugins = Ok limits ->
  forall x, In x limits <->
    exists p, In p plugins /\ KongPlugin.consumer_id p = x
              /\ truthy x = true /\ truthy (KongPlugin.enabled p) = true.
Proof.
  induction plugins as [| p ps IH]; simpl; intros limits H x.
  - injection H as <-. simpl. split; [tauto | intros (p & [] & _)].
  - destruct (truthy (KongPlugin.consumer_id p) && truthy (KongPlugin.enabled p)) eqn:Et.
    + destruct (hashable (KongPlugin.consumer_id p)); [| discriminate].
      destruct (consumers_with_limits ps) as [l |]; [| discriminate].
      injection H as <-. apply andb_true_iff in Et. destruct Et as [Ec Ee].
      simpl. rewrite (IH l eq_refl x). split.
      * intros [Hx | (q & Hq & Hrest)].
        -- exists p. subst x. auto.
        -- exists q. auto.
      * intros (q & [Hq | Hq] & Hc & Hrest).
        -- subst q. auto.
        -- right. exists q. auto.
    + rewrite (IH limits H x). split.
      * intros (q & Hq & Hrest). exists q. auto.
      * intros (q & [Hq | Hq] & Hc & Hx & He).
        -- subst q x. rewrite Hx, He in Et. discriminate.
        -- exists q. auto.
Qed.

Lemma coverage_returns (limits : list json) (consumers : list KongConsumer.t) :
  Forall (fun c => hashable (KongConsumer.id c) = true) consumers ->
  exists rows,
    coverage limits consumers
    = Ok (rows, map KongConsumer.username (filter (uncovered limits) consumers)).
Proof.
  induction 1 as [| c cs Hc _ IH]; simpl.
  - exists []. reflexivity.
  - destruct IH as (rows & E). unfold set_mem. rewrite Hc. simpl. rewrite E. simpl.
    unfold uncovered.
    destruct (existsb (scalar_eq (KongConsumer.id c)) limits); simpl;
      eexists; reflexivity.
Qed.

Lemma set_mem_hashable (x : json) (s : list json) (b : bool) :
  set_mem x s = Ok b -> hashable x = true /\ existsb (scalar_eq x) s = b.
Proof.
  unfold set_mem. destruct (hashable x); [| discriminate].
  intros H. injection H as <-. auto.
Qed.

Lemma CF003_body_decision (consumers : list KongConsumer.t)
    (plugins : list KongPlugin.t) (limits : list json) :
  consumers_with_limits plugins = Ok limits ->
  Forall (fun c => hashable (KongConsumer.id c) = true) consumers ->
  exists d a,
    CF003_body consumers plugins
    = Ok (verdict ((Z.of_nat (List.length (filter (uncovered limits) consumers)) =? 0)
                   && (0 <? Z.of_nat (List.length consumers))), d, a)
    /\ lookup "missing_limits" d
       = Some (PJson (JList (map KongConsumer.username
                                 (filter (uncovered limits) consumers)))).
Proof.
  intros Hl Hh. destruct (coverage_returns limits consumers Hh) as (rows & E).
  unfold CF003_body. rewrite Hl. simpl. rewrite E. simpl.
  rewrite length_map. eexists; eexists. split; reflexivity.
Qed.

(** The decision of CF-003 on the two listings, case by case. *)
Lemma CF003_body_cases (plugins : list KongPlugin.t)
    (limits : list json) (Hlimits : consumers_with_limits plugins = Ok limits) :
  (forall x, In x limits <->
      exists p, In p plugins /\ KongPlugin.consumer_id p = x
                /\ truthy x = true /\ truthy (KongPlugin.enabled p) = true)
  /\ (exists d a, CF003_body [] plugins = Ok (FAIL, d, a))
  /\ (forall consumers,
      consumers <> [] ->
      (forall c, In c consumers -> set_mem (KongConsumer.id c) limits = Ok true) ->
      exists d a, CF003_body consumers plugins = Ok (PASS, d, a))
  /\ (forall consumers c,
      Forall (fun c => hashable (KongConsumer.id c) = true) consumers ->
      In c consumers ->
      set_mem (KongConsumer.id c) limits = Ok false ->
      exists d a missing,
        CF003_body consumers plugins = Ok (FAIL, d, a)
        /\ lookup "missing_limits" d = Some (PJson (JList missing))
        /\ In (KongConsumer.username c) missing).
Proof.
  split; [now apply consumers_with_limits_spec |].
  split; [| split].
  - destruct (CF003_body_decision [] plugins limits Hlimits (Forall_nil _))
      as (d & a & E & _).
    exists d, a. exact E.
  - intros consumers Hne Hall.
    assert (Hh : Forall (fun c => hashable (KongConsumer.id c) = true) consumers).
    { apply Forall_forall. intros c Hc. now destruct (set_mem_hashable _ _ _ (Hall c Hc)). }
    destruct (CF003_body_decision consumers plugins limits Hlimits Hh) as (d & a & E & _).
    exists d, a. rewrite E.
    assert (Hf : filter (uncovered limits) consumers = []).
    { clear E Hh Hne. induction consumers as [| c cs IH]; [reflexivity |]. simpl.
      destruct (set_mem_hashable _ _ _ (Hall c (or_introl eq_refl))) as [_ Hc].
      unfold uncovered at 1. rewrite Hc. simpl. apply IH.
      intros c' Hc'. apply Hall. now right. }
    rewrite Hf. destruct consumers; [now elim Hne | reflexivity].
  - intros consumers c Hh Hin Hmiss.
    destruct (CF003_body_decision consumers plugins limits Hlimits Hh) as (d & a & E & Hm).
    exists d, a, (map KongConsumer.username (filter (uncovered limits) consumers)).
    assert (Hc : In c (filter (uncovered limits) consumers)).
    { apply filter_In. split; [exact Hin |].
      destruct (set_mem_hashable _ _ _ Hmiss) as [_ Hx]. unfold uncovered. now rewrite Hx. }
    split; [| split; [exact Hm | now apply in_map]].
    rewrite E. destruct (filter (uncovered limits) consumers); [now elim Hc | reflexivity].
Qed.

Section ConfigurationRuns.
Context `{Net : Network}.

(** CF-003 is its decision applied to the two listings it fetches. *)
Lemma CF003_execute_after_listing (konnect : KonnectClient) (s s1 s2 : Env)
    (consumers : list KongConsumer.t) (plugins : list KongPlugin.t) :
  get_consumers konnect s = (Ok consumers, s1) ->
  get_plugins konnect (Some "rate-limiting") s1 = (Ok plugins, s2) ->
  CF003_execute konnect s = (CF003_body consumers plugins, s2).
Proof.
  intros E1 E2. unfold CF003_execute, bind. rewrite E1, E2. reflexivity.
Qed.

Lemma get_plugins_items (konnect : KonnectClient) (plugin_name : option string)
    (s s' : Env) (plugins : list KongPlugin.t) :
  get_plugins konnect plugin_name s = (Ok plugins, s') ->
  exists items, plugins_of_items plugin_name items = Ok plugins.
Proof.
  unfold get_plugins. unfold bind at 1.
  destruct (_admin_url konnect "/plugins" s) as [[url | err] s1]; [| discriminate].
  unfold bind at 1.
  destruct (konnect_session_get konnect url s1) as [[r | err] s2]; [| discriminate].
  unfold bind, lift.
  destruct (raise_for_status r s2) as [[[] | err] s3]; [| discriminate].
  destruct (json_body r) as [body | err]; simpl; [| discriminate].
  destruct (py_get body "data" (JList [])) as [data | err]; simpl; [| discriminate].
  destruct (py_iter data) as [items | err]; simpl; [| discriminate].
  intros H. exists items. now injection H as -> _.
Qed.

(** C8.  Let CF-003 fetch the consumers and then the plugins named
    rate-limiting, and let the enabled, consumer-scoped ones among these
    give the set [limits] of covered consumer ids (ids are strings,
    hence hashable, as the dataclasses declare).  Then the check, run
    through [run], gives: FAIL on an empty consumer list; PASS on a
    non-empty list all of whose ids are in [limits]; and FAIL, with the
    consumer's username in [details.missing_limits], as soon as some
    consumer's id is not in [limits]. *)
Theorem C8_check_all_consumers_have_limits (konnect : KonnectClient) (clock : Clock)
    (s s1 s2 : Env) (consumers : list KongConsumer.t) (plugins : list KongPlugin.t)
    (limits : list json)
    (Hconsumers : get_consumers konnect s = (Ok consumers, s1))
    (Hplugins : get_plugins konnect (Some "rate-limiting") s1 = (Ok plugins, s2))
    (Hlimits : consumers_with_limits plugins = Ok limits) :
  (forall x, In x limits <->
      exists p, In p plugins /\ KongPlugin.name p = JStr "rate-limiting"
                /\ KongPlugin.consumer_id p = x
                /\ truthy x = true /\ truthy (KongPlugin.enabled p) = true)
  /\ exists e,
      run (CF003_AllConsumersHaveLimits konnect) clock s = (Ok e, s2)
      /\ (consumers = [] ->
          Evidence.result e = "FAIL" /\ Evidence.error_message e = None)
      /\ (consumers <> [] ->
          (forall c, In c consumers -> set_mem (KongConsumer.id c) limits = Ok true) ->
          Evidence.result e = "PASS" /\ Evidence.error_message e = None)
      /\ (forall c,
          Forall (fun c => hashable (KongConsumer.id c) = true) consumers ->
          In c consumers ->
          set_mem (KongConsumer.id c) limits = Ok false ->
          Evidence.result e = "FAIL"
          /\ Evidence.error_message e = None
          /\ exists missing,
               lookup "missing_limits" (Evidence.details e)
               = Some (PJson (JList missing))
               /\ In (KongConsumer.username c) missing).
Proof.
  destruct (CF003_body_cases plugins limits Hlimits) as (Hset & Ha & Hb & Hc).
  split.
  - intros x. rewrite (Hset x).
    destruct (get_plugins_items _ _ _ _ _ Hplugins) as (items & Hitems).
    assert (Hn : forall ps, plugins_of_items (Some "rate-limiting") items = Ok ps ->
                 Forall (fun p => KongPlugin.name p = JStr "rate-limiting") ps).
    { clear. induction items as [| item items IH]; intros ps H.
      - simpl in H. injection H as <-. constructor.
      - cbn [plugins_of_items] in H.
        destruct (py_get item "name" JNull) as [nm | e] eqn:En; cbn [and_then] in H;
          [| discriminate].
        destruct (eq_str nm "rate-limiting") eqn:Eq; cbn [negb] in H;
          [| apply (IH ps H)].
        destruct (plugin_of_item item) as [p | e] eqn:E; cbn [and_then] in H;
          [| discriminate].
        destruct (plugins_of_items (Some "rate-limiting") items) as [ps' | e];
          cbn [and_then] in H; [| discriminate].
        injection H as <-. constructor; [| now apply IH].
        unfold plugin_of_item in E.
        destruct item as [| b | z | s0 | l | d]; simpl in En; try discriminate.
        injection En as <-. simpl in E.
        destruct (lookup "id" d) as [i |]; simpl in E; [| discriminate].
        destruct (lookup "name" d) as [nm |] eqn:Enm; simpl in E, Eq;
          [| discriminate].
        destruct nm; simpl in Eq; try discriminate.
        apply String.eqb_eq in Eq. subst.
        destruct (entity_id (JDict d) "consumer"); simpl in E; [| discriminate].
        destruct (entity_id (JDict d) "service"); simpl in E; [| discriminate].
        destruct (entity_id (JDict d) "route"); simpl in E; [| discriminate].
        injection E as <-. reflexivity. }
    pose proof (Hn plugins Hitems) as Hnames. rewrite Forall_forall in Hnames.
    split.
    + intros (p & Hp & Hrest). exists p. split; [exact Hp |]. split; auto.
    + intros (p & Hp & _ & Hrest). exists p. auto.
  - rewrite run_cases. cbv zeta. simpl execute.
    rewrite (CF003_execute_after_listing konnect s s1 s2 consumers plugins
               Hconsumers Hplugins).
    destruct (CF003_body consumers plugins) as [[[r d] a] | err] eqn:Eb.
    + eexists. split; [reflexivity |]. cbn [Evidence.result Evidence.error_message
                                             Evidence.details].
      split; [| split].
      * intros ->. destruct Ha as (d' & a' & E'). rewrite E' in Eb.
        injection Eb as <- _ _. auto.
      * intros Hne Hall. destruct (Hb consumers Hne Hall) as (d' & a' & E').
        rewrite E' in Eb. injection Eb as <- _ _. auto.
      * intros c Hh Hin Hmiss.
        destruct (Hc consumers c Hh Hin Hmiss) as (d' & a' & missing & E' & Hm & Hu).
        rewrite E' in Eb. injection Eb as <- <- _.
        split; [reflexivity |]. split; [reflexivity |]. exists missing. auto.
    + eexists. split; [reflexivity |]. split; [| split].
      * intros ->. destruct Ha as (d' & a' & E'). congruence.
      * intros Hne Hall. destruct (Hb consumers Hne Hall) as (d' & a' & E').
        congruence.
      * intros c Hh Hin Hmiss.
        destruct (Hc consumers c Hh Hin Hmiss) as (d' & a' & missing & E' & _).
        congruence.
Qed.

End ConfigurationRuns.

(** C8, at concrete inputs: the scripted admin API with one limit, on
    consumer c1, and a listing of no consumer, of c1 alone, and of c1 and
    c2. *)
Lemma C8_witness :
  (exists e s',
      @run scripted (CF003_AllConsumersHaveLimits admin) noon
        (script [answer 200 no_consumers_listing; answer 200 plugins_listing])
      = (Ok e, s')
      /\ Evidence.result e = "FAIL")
  /\ (exists e s',
      @run scripted (CF003_AllConsumersHaveLimits admin) noon
        (script [answer 200 covered_consumers_listing; answer 200 plugins_listing])
      = (Ok e, s')
      /\ Evidence.result e = "PASS")
  /\ (exists e s' missing,
      @run scripted (CF003_AllConsumersHaveLimits admin) noon
        (script [answer 200 consumers_listing; answer 200 plugins_listing])
      = (Ok e, s')
      /\ Evidence.result e = "FAIL"
      /\ lookup "missing_limits" (Evidence.details e) = Some (PJson (JList missing))
      /\ In (JStr "pro-user") missing).
Proof.
  split; [| split].
  - destruct (@C8_check_all_consumers_have_limits scripted admin noon
                (script [answer 200 no_consumers_listing; answer 200 plugins_listing])
                _ _ [] [free_limit] [JStr "c1"] eq_refl eq_refl eq_refl)
      as (_ & e & Hrun & Hempty & _).
    exists e. eexists. split; [exact Hrun |]. apply Hempty. reflexivity.
  - destruct (@C8_check_all_consumers_have_limits scripted admin noon
                (script [answer 200 covered_consumers_listing; answer 200 plugins_listing])
                _ _ [free_user] [free_limit] [JStr "c1"] eq_refl eq_refl eq_refl)
      as (_ & e & Hrun & _ & Hall & _).
    exists e. eexists. split; [exact Hrun |]. apply Hall; [discriminate |].
    intros c [<- | []]. reflexivity.
  - destruct (@C8_check_all_consumers_have_limits scripted admin noon
                (script [answer 200 consumers_listing; answer 200 plugins_listing])
                _ _ [free_user; pro_user] [free_limit] [JStr "c1"]
                eq_refl eq_refl eq_refl)
      as (_ & e & Hrun & _ & _ & Hmiss).
    assert (Hh : Forall (fun c => hashable (KongConsumer.id c) = true)
                   [free_user; pro_user]) by (repeat constructor).
    assert (Hin : In pro_user [free_user; pro_user]) by (simpl; auto).
    destruct (Hmiss pro_user Hh Hin eq_refl) as (Hr & _ & missing & Hm & Hu).
    exists e. eexists. exists missing.
    split; [exact Hrun |]. split; [exact Hr |]. split; [exact Hm | exact Hu].
Defined.


(** The whole check on the scripted admin API: both listings fetched,
    consumer c2 without a limit. *)
Lemma CF003_run_example :
  exists e s',
    @run scripted (CF003_AllConsumersHaveLimits admin) noon
      (script [answer 200 consumers_listing; answer 200 plugins_listing]) = (Ok e, s')
    /\ Evidence.result e = "FAIL"
    /\ lookup "missing_limits" (Evidence.details e)
       = Some (PJson (JList [JStr "pro-user"]))
    /\ lookup "coverage_percent" (Evidence.details e)
       = Some (PFloat (round1_percent 1 2)).
Proof. eexists; eexists. split; [reflexivity |]. repeat split. Qed.

(** ** Plugins that do not declare [enabled] *)

Lemma plugins_of_items_keeps (c : ascii) (n : string) (items : list json) :
  forall ps item,
    plugins_of_items (Some (String c n)) items = Ok ps ->
    In item items ->
    py_get item "name" JNull = Ok (JStr (String c n)) ->
    exists p, plugin_of_item item = Ok p /\ In p ps.
Proof.
  induction items as [| i items IH]; intros ps item H Hin Hname; [destruct Hin |].
  simpl in H.
  destruct (py_get i "name" JNull) as [nm | err] eqn:En; simpl in H; [| discriminate].
  destruct Hin as [-> | Hin].
  - rewrite Hname in En. injection En as <-.
    simpl in H. rewrite Ascii.eqb_refl, String.eqb_refl in H. simpl in H.
    destruct (plugin_of_item item) as [p | err]; simpl in H; [| discriminate].
    destruct (plugins_of_items _ items) as [ps' | err]; simpl in H; [| discriminate].
    injection H as <-. exists p. simpl. auto.
  - destruct (negb (eq_str nm (String c n))).
    + apply (IH ps item H Hin Hname).
    + destruct (plugin_of_item i) as [q | err]; simpl in H; [| discriminate].
      destruct (plugins_of_items _ items) as [ps' | err] eqn:E; simpl in H;
        [| discriminate].
      injection H as <-.
      destruct (IH ps' item eq_refl Hin Hname) as (p & Hp & Hin').
      exists p. simpl. auto.
Qed.

Lemma plugin_of_item_default_enabled (d : pydict json) (p : KongPlugin.t) :
  lookup "enabled" d = None ->
  plugin_of_item (JDict d) = Ok p ->
  KongPlugin.enabled p = JBool true.
Proof.
  intros Hd H. unfold plugin_of_item in H.
  destruct (py_getitem (JDict d) "id") as [i |]; cbn [and_then] in H; [| discriminate].
  destruct (py_getitem (JDict d) "name") as [nm |]; cbn [and_then] in H;
    [| discriminate].
  cbn [py_get and_then] in H. rewrite Hd in H.
  destruct (entity_id (JDict d) "consumer") as [cid |]; cbn [and_then] in H;
    [| discriminate].
  destruct (entity_id (JDict d) "service") as [sid |]; cbn [and_then] in H;
    [| discriminate].
  destruct (entity_id (JDict d) "route") as [rid |]; cbn [and_then] in H;
    [| discriminate].
  injection H as <-. reflexivity.
Qed.

(** C10.  A plugin object of the admin listing that has no ["enabled"]
    key is recorded by [get_plugins] with [enabled] true.  So the
    auth-plugin check passes as soon as the listing holds one key-auth
    plugin without that key, and on the scripted listing, where no
    plugin declares ["enabled"], both the auth-plugin check and the
    rate-limit-plugin check pass. *)
Theorem C10_missing_enabled_defaults_to_true :
  (forall d p,
      lookup "enabled" d = None ->
      plugin_of_item (JDict d) = Ok p ->
      KongPlugin.enabled p = JBool true)
  /\ (forall items ps d,
      plugins_of_items (Some "key-auth") items = Ok ps ->
      In (JDict d) items ->
      lookup "name" d = Some (JStr "key-auth") ->
      lookup "enabled" d = None ->
      fst (fst (CF001_body ps)) = PASS)
  /\ (exists e s',
      @run scripted (CF001_AuthPluginEnabled admin) noon
        (script [answer 200 plugins_listing]) = (Ok e, s')
      /\ Evidence.result e = "PASS"
      /\ lookup "enabled_count" (Evidence.details e) = Some (PJson (JInt 1)))
  /\ (exists e s',
      @run scripted (CF002_RateLimitPluginEnabled admin) noon
        (script [answer 200 plugins_listing]) = (Ok e, s')
      /\ Evidence.result e = "PASS"
      /\ lookup "consumer_scoped_count" (Evidence.details e) = Some (PJson (JInt 1))).
Proof.
  split; [exact plugin_of_item_default_enabled |].
  split; [| split; eexists; eexists; (split; [reflexivity |]); split; reflexivity].
  intros items ps d Hps Hin Hname Hen.
  assert (Hn : py_get (JDict d) "name" JNull = Ok (JStr "key-auth")).
  { simpl. now rewrite Hname. }
  destruct (plugins_of_items_keeps _ _ items ps (JDict d) Hps Hin Hn) as (p & Hp & Hinp).
  pose proof (plugin_of_item_default_enabled d p Hen Hp) as He.
  unfold CF001_body. simpl.
  assert (Hf : In p (filter (fun p => truthy (KongPlugin.enabled p)) ps)).
  { apply filter_In. split; [exact Hinp | now rewrite He]. }
  destruct (filter _ ps); [destruct Hf | reflexivity].
Qed.

(** C10, at a concrete input: the key-auth object of the scripted
    listing. *)
Lemma C10_witness :
  lookup "enabled" [("id", JStr "p1"); ("name", JStr "key-auth");
                    ("service", JDict [("id", JStr "s1")])] = None
  /\ KongPlugin.enabled
       (KongPlugin.mk (JStr "p1") (JStr "key-auth") (JBool true) (JDict []) JNull
          (JStr "s1") JNull) = JBool true.
Proof.
  split; [reflexivity |].
  destruct C10_missing_enabled_defaults_to_true as (H & _).
  apply (H [("id", JStr "p1"); ("name", JStr "key-auth");
            ("service", JDict [("id", JStr "s1")])]); reflexivity.
Defined.

(** * Further properties of the harness *)

(** ** The data-plane client *)

Lemma lookup_dict_set_same {V : Type} (k : string) (v : V) (d : pydict V) :
  lookup k (dict_set k v d) = Some v.
Proof.
  induction d as [| [k' v'] d IH]; simpl.
  - now rewrite String.eqb_refl.
  - destruct (String.eqb k k') eqn:E; simpl; rewrite E; [reflexivity | exact IH].
Qed.

Lemma lookup_dict_set_other {V : Type} (k k' : string) (v : V) (d : pydict V) :
  k' <> k -> lookup k' (dict_set k v d) = lookup k' d.
Proof.
  intros Hne. induction d as [| [k0 v0] d IH]; simpl.
  - apply String.eqb_neq in Hne. now rewrite Hne.
  - destruct (String.eqb k k0) eqn:E; simpl.
    + apply String.eqb_eq in E. subst k0.
      apply String.eqb_neq in Hne. now rewrite Hne.
    + destruct (String.eqb k' k0); [reflexivity | exact IH].
Qed.

Section DataplaneRequests.
Context `{Net : Network}.

(** [DataplaneClient.request] sends exactly one request, to
    [base_url + path] with the client's timeout and no body.  A
    non-empty key is sent as the [X-API-Key] header, replacing one the
    caller gave; every other header of the caller is kept; with no key,
    or an empty one, the caller's headers go out as they are. *)
Theorem request_sets_api_key_header (dp : DataplaneClient) (method path : string)
    (api_key : option string) (given : option (pydict string)) (s : Env) :
  exists rq,
    sent (snd (request dp method path api_key given s)) = app (sent s) [rq]
    /\ request dp method path api_key given s
       = (fst (session_request rq (world s)),
          mkEnv (snd (session_request rq (world s))) (app (sent s) [rq]))
    /\ req_method rq = method
    /\ req_url rq = base_url dp ++ path
    /\ req_timeout rq = Some (timeout dp)
    /\ req_json rq = None
    /\ match api_key with
       | Some (String c k) =>
           lookup "X-API-Key" (req_headers rq) = Some (String c k)
           /\ forall h, h <> "X-API-Key" ->
                lookup h (req_headers rq)
                = lookup h match given with Some d => d | None => [] end
       | _ => req_headers rq = match given with Some d => d | None => [] end
       end.
Proof.
  unfold request, http.
  match goal with
  | |- context [session_request ?r (world s)] => exists r
  end.
  destruct (session_request _ (world s)) as [o w] eqn:E. simpl.
  repeat (split; [reflexivity |]).
  destruct api_key as [[| c k] |]; simpl.
  - destruct given as [[| h hs] |]; reflexivity.
  - split; [apply lookup_dict_set_same |].
    intros h Hh. rewrite lookup_dict_set_other by exact Hh.
    destruct given as [[| h0 hs] |]; reflexivity.
  - destruct given as [[| h hs] |]; reflexivity.
Qed.

Lemma bind_ret_env {A B : Type} (m : M A) (f : A -> B) (s : Env) :
  snd (bind m (fun x => ret (f x)) s) = snd (m s).
Proof. unfold bind, ret. destruct (m s) as [[a | e] s']; reflexivity. Qed.

(** A burst of [n] requests sends all [n] of them, each the same GET
    with the key, whatever the answers are: a 429, or a request that
    fails, does not cut the burst short. *)
Theorem test_rate_limit_sends_every_request (dp : DataplaneClient)
    (key path : string) (n : nat) :
  forall s,
    sent (snd (test_rate_limit dp key path n s))
    = app (sent s) (repeat (get_request dp path (Some key)) n).
Proof.
  induction n as [| n IH]; intros s; simpl.
  - now rewrite app_nil_r.
  - unfold bind at 1. unfold try_except, bind at 1. rewrite get_sends.
    destruct (session_request _ (world s)) as [[r | err] w]; simpl;
      rewrite bind_ret_env, IH; simpl; rewrite <- app_assoc; reflexivity.
Qed.

End DataplaneRequests.

(** ** The runtime checks *)

Lemma count_status_all (code : Z) (codes : list Z) :
  count_status code codes = Z.of_nat (List.length codes)
  <-> Forall (fun c => c = code) codes.
Proof.
  unfold count_status. induction codes as [| c codes IH]; simpl.
  - split; [constructor | reflexivity].
  - pose proof (filter_length_le (Z.eqb code) codes) as Hle.
    destruct (code =? c) eqn:E; simpl.
    + apply Z.eqb_eq in E. subst c. split.
      * intros H. constructor; [reflexivity |]. apply IH. lia.
      * intros H. inversion H; subst. apply IH in H3. lia.
    + apply Z.eqb_neq in E. split; [intros H; exfalso; lia |].
      intros H. inversion H; subst. congruence.
Qed.

Lemma count_status_two (a b : Z) (codes : list Z) :
  a <> b ->
  count_status a codes + count_status b codes <= Z.of_nat (List.length codes).
Proof.
  intros Hab. unfold count_status.
  induction codes as [| c codes IH]; cbn [filter List.length]; [lia |].
  destruct (a =? c) eqn:Ea; destruct (b =? c) eqn:Eb; cbn [List.length]; lia.
Qed.

Lemma numbered_nth (codes : list Z) :
  forall i k,
    nth_error (numbered i codes) k
    = option_map (fun r => JDict [("request", JInt (i + Z.of_nat k + 1));
                                  ("status", JInt r)])
                 (nth_error codes k).
Proof.
  induction codes as [| c codes IH]; intros i k.
  - destruct k; reflexivity.
  - destruct k as [| k]; cbn [numbered nth_error option_map].
    + now rewrite Z.add_0_r.
    + rewrite IH.
      replace (i + Z.of_nat (S k) + 1) with (i + 1 + Z.of_nat k + 1) by lia.
      reflexivity.
Qed.

Section RuntimeChecks.
Context `{Net : Network}.

(** The pro-tier check sends ten requests and passes exactly when every
    one of them is answered 200; a single other status, a 429 or the 0 of
    a failed request included, makes it FAIL.  It never ends in ERROR. *)
Theorem RT002_pass_iff_all_200 (dp : DataplaneClient) (key : string)
    (clock : Clock) (s : Env) :
  exists codes e s',
    test_rate_limit dp key "/api/hello" 10 s = (Ok codes, s')
    /\ List.length codes = 10%nat
    /\ run (RT002_RateLimitProTier dp key) clock s = (Ok e, s')
    /\ Evidence.error_message e = None
    /\ (Evidence.result e = "PASS" <-> Forall (fun c => c = 200) codes)
    /\ (Evidence.result e = "FAIL" <-> exists c, In c codes /\ c <> 200).
Proof.
  destruct (test_rate_limit_returns dp key "/api/hello" 10 s) as (codes & s' & E & L).
  eexists codes, _, s'. split; [exact E |]. split; [exact L |].
  rewrite run_cases. cbv zeta. simpl execute. unfold RT002_execute, bind.
  rewrite E. split; [reflexivity |]. split; [reflexivity |].
  simpl Evidence.result.
  change 10 with (Z.of_nat 10). rewrite <- L.
  rewrite value_verdict_pass, value_verdict_fail, <- count_status_all.
  split; [apply Z.eqb_eq |].
  rewrite Z.eqb_neq, count_status_all. split.
  - intros H. apply neg_Forall_Exists_neg in H.
    + apply Exists_exists in H. destruct H as (c & Hin & Hc). eauto.
    + intros c. destruct (Z.eq_dec c 200); auto.
  - intros (c & Hin & Hc) H. rewrite Forall_forall in H. auto.
Qed.

(** What a single-request check makes of the way its request ends. *)
Lemma single_get_check (dp : DataplaneClient) (path : string)
    (key : option string) (s : Env)
    (k : Response -> execution) (t : BaseTest) (clock : Clock) :
  execute t = bind (get dp path key) (fun response => ret (k response)) ->
  exists e,
    run t clock s
    = (Ok e, mkEnv (snd (session_request (get_request dp path key) (world s)))
               (app (sent s) [get_request dp path key]))
    /\ match fst (session_request (get_request dp path key) (world s)) with
       | Ok r => Evidence.result e = value (fst (fst (k r)))
                 /\ Evidence.details e = snd (fst (k r))
                 /\ Evidence.error_message e = None
       | Raise err => Evidence.result e = "ERROR"
                      /\ Evidence.error_message e = Some (str err)
       end.
Proof.
  intros Hex. rewrite run_cases. cbv zeta. rewrite Hex. unfold bind.
  rewrite get_sends.
  destruct (session_request _ (world s)) as [[r | err] w]; simpl.
  - unfold ret. destruct (k r) as [[res d] a]. eexists. split; [reflexivity |].
    simpl. auto.
  - eexists. split; [reflexivity |]. simpl. auto.
Qed.

(** The invalid-key check sends one GET of [/api/hello] with the key
    [invalid-key-12345], the missing-key check one GET with no
    [X-API-Key] header.  Each passes exactly when the answer has status
    401 and fails on every other status, 403 and 200 included; the
    observed status is in the details.  A request that fails in transport
    gives ERROR with the text of the exception. *)
Theorem RT003_RT004_pass_iff_401 (dp : DataplaneClient) (clock : Clock) (s : Env) :
  let rq3 := get_request dp "/api/hello" (Some "invalid-key-12345") in
  let rq4 := get_request dp "/api/hello" None in
  lookup "X-API-Key" (req_headers rq3) = Some "invalid-key-12345"
  /\ req_headers rq4 = []
  /\ (exists e,
      run (RT003_InvalidKeyRejected dp) clock s
      = (Ok e, mkEnv (snd (session_request rq3 (world s))) (app (sent s) [rq3]))
      /\ match fst (session_request rq3 (world s)) with
         | Ok r =>
             (Evidence.result e = "PASS" <-> status_code r = 401)
             /\ (Evidence.result e = "FAIL" <-> status_code r <> 401)
             /\ lookup "actual_status" (Evidence.details e)
                = Some (PJson (JInt (status_code r)))
             /\ Evidence.error_message e = None
         | Raise err =>
             Evidence.result e = "ERROR" /\ Evidence.error_message e = Some (str err)
         end)
  /\ (exists e,
      run (RT004_MissingKeyRejected dp) clock s
      = (Ok e, mkEnv (snd (session_request rq4 (world s))) (app (sent s) [rq4]))
      /\ match fst (session_request rq4 (world s)) with
         | Ok r =>
             (Evidence.result e = "PASS" <-> status_code r = 401)
             /\ (Evidence.result e = "FAIL" <-> status_code r <> 401)
             /\ lookup "actual_status" (Evidence.details e)
                = Some (PJson (JInt (status_code r)))
             /\ Evidence.error_message e = None
         | Raise err =>
             Evidence.result e = "ERROR" /\ Evidence.error_message e = Some (str err)
         end).
Proof.
  cbv zeta. split; [reflexivity |]. split; [reflexivity |].
  split.
  - destruct (single_get_check dp "/api/hello" (Some "invalid-key-12345") s _
                (RT003_InvalidKeyRejected dp) clock eq_refl) as (e & Hrun & Hm).
    exists e. split; [exact Hrun |].
    destruct (fst (session_request _ (world s))) as [r | err]; [| exact Hm].
    destruct Hm as (Hr & Hd & Hmsg). rewrite Hr, Hd. simpl.
    rewrite value_verdict_pass, value_verdict_fail, Z.eqb_eq, Z.eqb_neq. tauto.
  - destruct (single_get_check dp "/api/hello" None s _
                (RT004_MissingKeyRejected dp) clock eq_refl) as (e & Hrun & Hm).
    exists e. split; [exact Hrun |].
    destruct (fst (session_request _ (world s))) as [r | err]; [| exact Hm].
    destruct Hm as (Hr & Hd & Hmsg). rewrite Hr, Hd. simpl.
    rewrite value_verdict_pass, value_verdict_fail, Z.eqb_eq, Z.eqb_neq. tauto.
Qed.

(** The valid-key check never ends in ERROR.  It sends one GET of
    [/api/health]; answered, it passes exactly when the status is 200
    and records the parsed body, or an empty object when the body is not
    JSON; when the request fails it records status 0 and fails. *)
Theorem RT005_pass_iff_200 (dp : DataplaneClient) (key : string)
    (clock : Clock) (s : Env) :
  let rq := get_request dp "/api/health" (Some key) in
  exists e,
    run (RT005_ValidKeyAccepted dp key) clock s
    = (Ok e, mkEnv (snd (session_request rq (world s))) (app (sent s) [rq]))
    /\ Evidence.error_message e = None
    /\ (Evidence.result e = "PASS" \/ Evidence.result e = "FAIL")
    /\ match fst (session_request rq (world s)) with
       | Ok r =>
           (Evidence.result e = "PASS" <-> status_code r = 200)
           /\ lookup "actual_status" (Evidence.details e)
              = Some (PJson (JInt (status_code r)))
           /\ lookup "health_response" (Evidence.details e)
              = Some (PJson match json_body r with
                            | Ok body => body
                            | Raise _ => JDict []
                            end)
       | Raise err =>
           Evidence.result e = "FAIL"
           /\ lookup "actual_status" (Evidence.details e) = Some (PJson (JInt 0))
       end.
Proof.
  cbv zeta. rewrite run_cases. cbv zeta. simpl execute.
  unfold RT005_execute, bind at 1. unfold health_check, try_except, bind.
  rewrite get_sends.
  destruct (session_request _ (world s)) as [[r | err] w]; simpl.
  - eexists. split; [reflexivity |]. simpl. split; [reflexivity |].
    split; [destruct (status_code r =? 200); auto |].
    rewrite value_verdict_pass, Z.eqb_eq. repeat split; auto.
  - eexists. split; [reflexivity |]. simpl. auto.
Qed.

(** The identity check ends in ERROR exactly when reading the custom id
    raises: the answer's JSON is not an object, or its ["consumer"] is
    present and not an object ([null], a string, a list).  The error
    message is then the text of that exception; in every other case the
    result is PASS or FAIL. *)
Theorem RT006_error_iff_body_malformed (dp : DataplaneClient)
    (key expected : string) (clock : Clock) (s : Env) :
  exists st body e s',
    get_whoami dp key s = (Ok (st, body), s')
    /\ run (RT006_ConsumerIdentityInjected dp key expected) clock s = (Ok e, s')
    /\ match nested_custom_id body with
       | Raise err =>
           Evidence.result e = "ERROR" /\ Evidence.error_message e = Some (str err)
       | Ok actual =>
           (Evidence.result e = "PASS" \/ Evidence.result e = "FAIL")
           /\ Evidence.error_message e = None
           /\ lookup "actual_custom_id" (Evidence.details e) = Some (PJson actual)
       end
    /\ ((exists err, nested_custom_id body = Raise err)
        <-> match body with
            | JDict d => match lookup "consumer" d with
                         | Some (JDict _) | None => False
                         | Some _ => True
                         end
            | _ => True
            end).
Proof.
  destruct (get_whoami_returns dp key s) as (st & body & s' & E).
  exists st, body. rewrite run_cases. cbv zeta. simpl execute.
  unfold RT006_execute, bind at 1. rewrite E. unfold nested_custom_id.
  unfold bind, lift, ret.
  assert (Hshape : (exists err,
             and_then (py_get body "consumer" (JDict []))
               (fun info => py_get info "custom_id" (JStr "")) = Raise err)
          <-> match body with
              | JDict d => match lookup "consumer" d with
                           | Some (JDict _) | None => False
                           | Some _ => True
                           end
              | _ => True
              end).
  { destruct body as [| b | z | str0 | l | d]; simpl;
      try (split; [auto | intros _; eexists; reflexivity]).
    destruct (lookup "consumer" d) as [[| b | z | str0 | l | d'] |]; simpl;
      try (split; [auto | intros _; eexists; reflexivity]);
      split; try tauto; intros [err H]; discriminate. }
  destruct (py_get body "consumer" (JDict [])) as [info | err]; simpl in *.
  - destruct (py_get info "custom_id" (JStr "")) as [actual | err]; simpl.
    + eexists; exists s'. split; [reflexivity |]. split; [reflexivity |].
      simpl. split; [| exact Hshape].
      split; [| split; reflexivity].
      destruct ((st =? 200) && eq_str actual expected); auto.
    + eexists; exists s'. split; [reflexivity |]. split; [reflexivity |].
      simpl. split; [auto | exact Hshape].
  - eexists; exists s'. split; [reflexivity |]. split; [reflexivity |].
    simpl. split; [auto | exact Hshape].
Qed.

(** The free-tier check keeps its decision reconstructible: the details
    list the eight requests numbered 1 to 8 with the status each one
    got, in the order of the artifact's codes; [success_count] and
    [rate_limited_count] are the numbers of 200s and 429s among them and
    together do not exceed 8; [rate_limit_triggered] says whether a 429
    was seen. *)
Theorem RT001_details_agree_with_codes (dp : DataplaneClient) (key : string)
    (clock : Clock) (s : Env) :
  exists codes rows e s',
    run (RT001_RateLimitFreeTier dp key) clock s = (Ok e, s')
    /\ List.length codes = 8%nat
    /\ Evidence.artifacts e
       = [JDict [("type", JStr "test_results");
                 ("description", JStr "HTTP status codes for rate limit test");
                 ("data", JList (map JInt codes))]]
    /\ lookup "results" (Evidence.details e) = Some (PJson (JList rows))
    /\ (forall k, nth_error rows k
                  = option_map (fun r => JDict [("request", JInt (Z.of_nat k + 1));
                                                ("status", JInt r)])
                               (nth_error codes k))
    /\ lookup "success_count" (Evidence.details e)
       = Some (PJson (JInt (count_status 200 codes)))
    /\ lookup "rate_limited_count" (Evidence.details e)
       = Some (PJson (JInt (count_status 429 codes)))
    /\ count_status 200 codes + count_status 429 codes <= 8
    /\ (lookup "rate_limit_triggered" (Evidence.details e) = Some (PJson (JBool true))
        <-> In 429 codes).
Proof.
  destruct (test_rate_limit_returns dp key "/api/hello" 8 s) as (codes & s' & E & L).
  exists codes, (numbered 0 codes). rewrite run_cases. cbv zeta. simpl execute.
  unfold RT001_execute, bind. rewrite E. eexists; exists s'.
  split; [reflexivity |]. split; [exact L |]. split; [reflexivity |].
  split; [reflexivity |]. split; [intros k; apply numbered_nth |].
  split; [reflexivity |]. split; [reflexivity |]. split.
  - pose proof (count_status_two 200 429 codes) as H. rewrite L in H.
    apply H. discriminate.
  - simpl. rewrite <- count_status_pos.
    destruct (0 <? count_status 429 codes) eqn:Hc.
    + apply Z.ltb_lt in Hc. tauto.
    + apply Z.ltb_ge in Hc. split; [discriminate | lia].
Qed.

End RuntimeChecks.

(** ** The admin client *)


Lemma map_outcome_total {A B : Type} (f : A -> outcome B) (l : list A) :
  (forall x, In x l -> exists y, f x = Ok y) ->
  exists ys, map_outcome f l = Ok ys.
Proof.
  induction l as [| x l IH]; simpl; intros H; [eauto |].
  destruct (H x (or_introl eq_refl)) as (y & E). rewrite E. simpl.
  destruct IH as (ys & E'); [intros x' Hx'; apply H; now right |].
  rewrite E'. simpl. eauto.
Qed.

Lemma map_outcome_raises {A B : Type} (f : A -> outcome B) (l : list A) (x : A) :
  In x l -> (exists e, f x = Raise e) -> exists e, map_outcome f l = Raise e.
Proof.
  induction l as [| x' l IH]; simpl; intros Hin Hx; [destruct Hin |].
  destruct (f x') as [y | e] eqn:E; simpl; [| eauto].
  destruct Hin as [-> | Hin].
  - destruct Hx as (e & He). congruence.
  - destruct (IH Hin Hx) as (e & He). rewrite He. simpl. eauto.
Qed.


(** The loop of [get_plugins] keeps the order of the listing.  With a
    non-empty name filter it returns exactly the listed objects whose
    ["name"] is that string: every plugin returned has that name, and
    their number is the number of such objects.  With no filter, or the
    empty string, every listed object is returned. *)
Theorem plugins_filtered_by_name (plugin_name : option string) (items : list json)
    (ps : list KongPlugin.t)
    (Hps : plugins_of_items plugin_name items = Ok ps) :
  match plugin_name with
  | Some (String c n) =>
      Forall (fun p => KongPlugin.name p = JStr (String c n)) ps
      /\ Forall2 (fun item p => plugin_of_item item = Ok p)
           (filter (named (String c n)) items) ps
  | _ => Forall2 (fun item p => plugin_of_item item = Ok p) items ps
  end.
Proof.
  destruct plugin_name as [[| c n] |].
  - revert ps Hps. induction items as [| item items IH]; simpl; intros ps H.
    + injection H as <-. constructor.
    + destruct (plugin_of_item item) as [p | e] eqn:E; simpl in H; [| discriminate].
      destruct (plugins_of_items (Some "") items) as [ps' | e]; simpl in H;
        [| discriminate].
      injection H as <-. constructor; auto.
  - revert ps Hps. induction items as [| item items IH]; intros ps H.
    + simpl in H. injection H as <-. split; constructor.
    + cbn [plugins_of_items] in H. cbn [filter]. unfold named at 1.
      destruct (py_get item "name" JNull) as [nm | e] eqn:En; cbn [and_then] in H;
        [| discriminate].
      destruct (eq_str nm (String c n)) eqn:Eq; cbn [negb] in H.
      * destruct (plugin_of_item item) as [p | e] eqn:E; cbn [and_then] in H;
          [| discriminate].
        destruct (plugins_of_items (Some (String c n)) items) as [ps' | e];
          cbn [and_then] in H; [| discriminate].
        injection H as <-. destruct (IH ps' eq_refl) as [Hn Hf].
        split; constructor; auto.
        unfold plugin_of_item in E.
        destruct item as [| b | z | s0 | l | d]; simpl in En; try discriminate.
        injection En as <-. simpl in E.
        destruct (lookup "id" d) as [i |]; simpl in E; [| discriminate].
        destruct (lookup "name" d) as [nm |] eqn:Enm; simpl in E, Eq;
          [| discriminate].
        destruct nm; simpl in Eq; try discriminate.
        apply String.eqb_eq in Eq. subst.
        destruct (entity_id (JDict d) "consumer"); simpl in E; [| discriminate].
        destruct (entity_id (JDict d) "service"); simpl in E; [| discriminate].
        destruct (entity_id (JDict d) "route"); simpl in E; [| discriminate].
        injection E as <-. reflexivity.
      * apply (IH ps H).
  - revert ps Hps. induction items as [| item items IH]; simpl; intros ps H.
    + injection H as <-. constructor.
    + destruct (plugin_of_item item) as [p | e] eqn:E; simpl in H; [| discriminate].
      destruct (plugins_of_items None items) as [ps' | e]; simpl in H;
        [| discriminate].
      injection H as <-. constructor; auto.
Qed.

(** [plugins_filtered_by_name], on the scripted listing. *)
Lemma plugins_filtered_by_name_witness :
  plugins_of_items (Some "rate-limiting")
    [JDict [("id", JStr "p1"); ("name", JStr "key-auth")];
     JDict [("id", JStr "p2"); ("name", JStr "rate-limiting")];
     JDict [("id", JStr "p3")]]
  = Ok [KongPlugin.mk (JStr "p2") (JStr "rate-limiting") (JBool true) (JDict [])
          JNull JNull JNull]
  /\ Forall (fun p => KongPlugin.name p = JStr "rate-limiting")
       [KongPlugin.mk (JStr "p2") (JStr "rate-limiting") (JBool true) (JDict [])
          JNull JNull JNull].
Proof.
  assert (H : plugins_of_items (Some "rate-limiting")
    [JDict [("id", JStr "p1"); ("name", JStr "key-auth")];
     JDict [("id", JStr "p2"); ("name", JStr "rate-limiting")];
     JDict [("id", JStr "p3")]]
  = Ok [KongPlugin.mk (JStr "p2") (JStr "rate-limiting") (JBool true) (JDict [])
          JNull JNull JNull]) by reflexivity.
  split; [exact H |].
  exact (proj1 (plugins_filtered_by_name (Some "rate-limiting") _ _ H)).
Defined.

(** ** The configuration checks *)

Lemma filter_nonempty_iff {A : Type} (f : A -> bool) (l : list A) :
  (0 <? Z.of_nat (List.length (filter f l))) = true <-> exists x, In x l /\ f x = true.
Proof.
  rewrite Z.ltb_lt. split.
  - destruct (filter f l) as [| x l'] eqn:E; simpl; [lia |].
    intros _. exists x. apply filter_In. rewrite E. now left.
  - intros (x & Hx). apply filter_In in Hx.
    destruct (filter f l); [destruct Hx | simpl; lia].
Qed.

Lemma CF002_plugin_config_dict (p : KongPlugin.t) :
  (exists c, CF002_plugin_config p = Ok c) <-> is_dict (KongPlugin.config p) = true.
Proof.
  unfold CF002_plugin_config.
  destruct (KongPlugin.config p); simpl; split; intros H;
    try discriminate; try (destruct H; discriminate); eauto.
Qed.

Section ConfigurationChecks.
Context `{Net : Network}.

(** A check that fetches, then decides without touching the network. *)
Lemma run_after_fetch {A : Type} (fetch : M A) (decide : A -> outcome execution)
    (t : BaseTest) (clock : Clock) (s : Env) :
  execute t = bind fetch (fun x => lift (decide x)) ->
  exists e,
    run t clock s = (Ok e, snd (fetch s))
    /\ match fst (fetch s) with
       | Ok x =>
           match decide x with
           | Ok (r, d, a) =>
               Evidence.result e = value r /\ Evidence.details e = d
               /\ Evidence.artifacts e = map asdict a
               /\ Evidence.error_message e = None
           | Raise err =>
               Evidence.result e = "ERROR" /\ Evidence.error_message e = Some (str err)
           end
       | Raise err =>
           Evidence.result e = "ERROR" /\ Evidence.error_message e = Some (str err)
       end.
Proof.
  intros Hex. rewrite run_cases. cbv zeta. rewrite Hex. unfold bind, lift.
  destruct (fetch s) as [[x | err] s']; simpl.
  - destruct (decide x) as [[[r d] a] | err]; eexists; (split; [reflexivity |]);
      simpl; auto.
  - eexists. split; [reflexivity |]. simpl. auto.
Qed.

(** The auth-plugin check passes exactly when [get_plugins("key-auth")]
    returns at least one plugin whose [enabled] is true, and fails
    otherwise, on an empty listing too; its details count the plugins
    found and the enabled ones.  When the listing cannot be fetched or
    parsed the result is ERROR, with the text of the exception. *)
Theorem CF001_pass_iff_some_enabled (konnect : KonnectClient) (clock : Clock) (s : Env) :
  exists e,
    run (CF001_AuthPluginEnabled konnect) clock s
    = (Ok e, snd (get_plugins konnect (Some "key-auth") s))
    /\ match fst (get_plugins konnect (Some "key-auth") s) with
       | Ok ps =>
           (Evidence.result e = "PASS"
            <-> exists p, In p ps /\ truthy (KongPlugin.enabled p) = true)
           /\ (Evidence.result e = "FAIL"
               <-> forall p, In p ps -> truthy (KongPlugin.enabled p) = false)
           /\ lookup "total_found" (Evidence.details e)
              = Some (PJson (JInt (Z.of_nat (List.length ps))))
           /\ lookup "enabled_count" (Evidence.details e)
              = Some (PJson (JInt (Z.of_nat
                   (List.length (filter (fun p => truthy (KongPlugin.enabled p)) ps)))))
           /\ Evidence.error_message e = None
       | Raise err =>
           Evidence.result e = "ERROR" /\ Evidence.error_message e = Some (str err)
       end.
Proof.
  destruct (run_after_fetch (get_plugins konnect (Some "key-auth"))
              (fun ps => Ok (CF001_body ps)) (CF001_AuthPluginEnabled konnect) clock s
              eq_refl) as (e & Hrun & Hm).
  exists e. split; [exact Hrun |].
  destruct (fst (get_plugins konnect (Some "key-auth") s)) as [ps | err]; [| exact Hm].
  unfold CF001_body in Hm. destruct Hm as (Hr & Hd & _ & Hmsg).
  rewrite Hr, Hd. split; [| split; [| repeat split; auto]].
  - rewrite value_verdict_pass. apply filter_nonempty_iff.
  - rewrite value_verdict_fail. split.
    + intros H p Hp. destruct (truthy (KongPlugin.enabled p)) eqn:E; [| reflexivity].
      assert (Ht : (0 <? Z.of_nat (List.length
                      (filter (fun p => truthy (KongPlugin.enabled p)) ps))) = true)
        by (apply filter_nonempty_iff; eauto).
      congruence.
    + intros H.
      destruct (0 <? Z.of_nat (List.length
                  (filter (fun p => truthy (KongPlugin.enabled p)) ps))) eqn:E;
        [| reflexivity].
      apply filter_nonempty_iff in E. destruct E as (p & Hp & Ht).
      rewrite (H p Hp) in Ht. discriminate.
Qed.

(** The rate-limit-plugin check reads [config.get(...)] of every plugin
    returned, so it ends in ERROR as soon as one of them has a [config]
    that is not an object, whatever the others are.  When every [config]
    is an object it passes exactly when some plugin has both a consumer
    id and [enabled] true, and fails otherwise. *)
Theorem CF002_pass_iff_some_consumer_scoped (konnect : KonnectClient)
    (clock : Clock) (s : Env) :
  exists e,
    run (CF002_RateLimitPluginEnabled konnect) clock s
    = (Ok e, snd (get_plugins konnect (Some "rate-limiting") s))
    /\ match fst (get_plugins konnect (Some "rate-limiting") s) with
       | Ok ps =>
           if forallb (fun p => is_dict (KongPlugin.config p)) ps
           then (Evidence.result e = "PASS"
                 <-> exists p, In p ps /\ consumer_scoped p = true)
                /\ (Evidence.result e = "PASS" \/ Evidence.result e = "FAIL")
                /\ lookup "consumer_scoped_count" (Evidence.details e)
                   = Some (PJson (JInt (Z.of_nat
                        (List.length (filter consumer_scoped ps)))))
                /\ Evidence.error_message e = None
           else Evidence.result e = "ERROR" /\ Evidence.error_message e <> None
       | Raise err =>
           Evidence.result e = "ERROR" /\ Evidence.error_message e = Some (str err)
       end.
Proof.
  destruct (run_after_fetch (get_plugins konnect (Some "rate-limiting")) CF002_body
              (CF002_RateLimitPluginEnabled konnect) clock s eq_refl)
    as (e & Hrun & Hm).
  exists e. split; [exact Hrun |].
  destruct (fst (get_plugins konnect (Some "rate-limiting") s)) as [ps | err];
    [| exact Hm].
  unfold CF002_body in Hm.
  destruct (forallb (fun p => is_dict (KongPlugin.config p)) ps) eqn:Ef.
  - rewrite forallb_forall in Ef.
    destruct (map_outcome_total CF002_plugin_config ps) as (configs & Ec).
    { intros p Hp. apply CF002_plugin_config_dict. now apply Ef. }
    rewrite Ec in Hm. simpl in Hm. destruct Hm as (Hr & Hd & _ & Hmsg).
    rewrite Hr, Hd. split; [| split; [| split; [reflexivity | exact Hmsg]]].
    + rewrite value_verdict_pass. apply filter_nonempty_iff.
    + destruct (0 <? _); simpl; auto.
  - assert (Hbad : exists p, In p ps /\ is_dict (KongPlugin.config p) = false).
    { clear Hm. induction ps as [| p ps IH]; simpl in Ef; [discriminate |].
      apply andb_false_iff in Ef. destruct Ef as [Ef | Ef].
      - exists p. simpl. auto.
      - destruct (IH Ef) as (q & Hq & Hc). exists q. simpl. auto. }
    destruct Hbad as (p & Hp & Hc).
    destruct (map_outcome_raises CF002_plugin_config ps p Hp) as (err & Ec).
    { destruct (CF002_plugin_config p) as [c | err] eqn:E; [| eauto].
      assert (Hd : is_dict (KongPlugin.config p) = true)
        by (apply CF002_plugin_config_dict; eauto).
      congruence. }
    rewrite Ec in Hm. simpl in Hm. destruct Hm as (Hr & Hmsg).
    split; [exact Hr | rewrite Hmsg; discriminate].
Qed.

End ConfigurationChecks.

Lemma coverage_counts (limits : list json) (consumers : list KongConsumer.t) :
  forall rows missing,
    coverage limits consumers = Ok (rows, missing) ->
    List.length rows = List.length consumers
    /\ (List.length (filter has_rate_limit rows) + List.length missing
        = List.length consumers)%nat
    /\ map (fun row => py_getitem row "id") rows
       = map (fun c => Ok (KongConsumer.id c)) consumers.
Proof.
  induction consumers as [| c cs IH]; simpl; intros rows missing H.
  - injection H as <- <-. repeat split.
  - destruct (set_mem (KongConsumer.id c) limits) as [b | e]; simpl in H;
      [| discriminate].
    destruct (coverage limits cs) as [[rows' missing'] | e]; simpl in H;
      [| discriminate].
    destruct (IH rows' missing' eq_refl) as (Hl & Hc & Hi).
    injection H as <- <-. cbn [map List.length filter].
    split; [now rewrite Hl |]. split.
    + unfold has_rate_limit at 1. simpl. destruct b; simpl; lia.
    + rewrite Hi. reflexivity.
Qed.

(** The numbers of the coverage check on the two listings. *)
Lemma CF003_body_counts (consumers : list KongConsumer.t)
    (plugins : list KongPlugin.t) (r : TestResult) (d : pydict pyval)
    (a : list EvidenceArtifact)
    (Hbody : CF003_body consumers plugins = Ok (r, d, a)) :
  exists rows missing covered,
    a = [mkArtifact "config_snapshot" "Consumer rate limit coverage" (JList rows)]
    /\ map (fun row => py_getitem row "id") rows
       = map (fun c => Ok (KongConsumer.id c)) consumers
    /\ lookup "total_consumers" d
       = Some (PJson (JInt (Z.of_nat (List.length consumers))))
    /\ lookup "consumers_with_limits" d = Some (PJson (JInt (Z.of_nat covered)))
    /\ lookup "missing_limits" d = Some (PJson (JList missing))
    /\ (covered + List.length missing = List.length consumers)%nat
    /\ (r = PASS <-> consumers <> [] /\ missing = []).
Proof.
  unfold CF003_body in Hbody.
  destruct (consumers_with_limits plugins) as [limits | e]; simpl in Hbody;
    [| discriminate].
  destruct (coverage limits consumers) as [[rows missing] | e] eqn:Ec;
    simpl in Hbody; [| discriminate].
  destruct (coverage_counts limits consumers rows missing Ec) as (Hl & Hc & Hi).
  injection Hbody as <- <- <-.
  exists rows, missing, (List.length (filter has_rate_limit rows)).
  split; [reflexivity |]. split; [exact Hi |].
  split; [reflexivity |]. split; [reflexivity |]. split; [reflexivity |].
  split; [exact Hc |].
  destruct consumers as [| c cs]; destruct missing as [| m ms]; simpl;
    split; intros H; try discriminate; try reflexivity;
    try (destruct H; congruence).
  split; [discriminate | reflexivity].
Qed.

Lemma value_PASS (r : TestResult) : value r = "PASS" <-> r = PASS.
Proof. destruct r; simpl; split; intros H; try reflexivity; discriminate. Qed.

Section CoverageCounts.
Context `{Net : Network}.

(** The coverage check, run through [run], always gives an evidence
    record.  When the record carries no error message, the check has
    fetched the consumers and then the rate-limiting plugins, and its
    numbers add up: the rows of the artifact are one per consumer, in
    the order of the listing, and [consumers_with_limits] plus the
    number of usernames in [missing_limits] is [total_consumers]; the
    result is PASS exactly when there is at least one consumer and none
    is missing.  With an error message the result is ERROR. *)
Theorem CF003_counts_add_up (konnect : KonnectClient) (clock : Clock) (s : Env) :
  exists e,
    run (CF003_AllConsumersHaveLimits konnect) clock s
    = (Ok e, snd (CF003_execute konnect s))
    /\ (Evidence.error_message e <> None -> Evidence.result e = "ERROR")
    /\ (Evidence.error_message e = None ->
        exists consumers s1 plugins rows missing covered,
          get_consumers konnect s = (Ok consumers, s1)
          /\ get_plugins konnect (Some "rate-limiting") s1
             = (Ok plugins, snd (CF003_execute konnect s))
          /\ Evidence.artifacts e
             = [asdict (mkArtifact "config_snapshot" "Consumer rate limit coverage"
                          (JList rows))]
          /\ map (fun row => py_getitem row "id") rows
             = map (fun c => Ok (KongConsumer.id c)) consumers
          /\ lookup "total_consumers" (Evidence.details e)
             = Some (PJson (JInt (Z.of_nat (List.length consumers))))
          /\ lookup "consumers_with_limits" (Evidence.details e)
             = Some (PJson (JInt (Z.of_nat covered)))
          /\ lookup "missing_limits" (Evidence.details e)
             = Some (PJson (JList missing))
          /\ (covered + List.length missing = List.length consumers)%nat
          /\ (Evidence.result e = "PASS" <-> consumers <> [] /\ missing = [])).
Proof.
  destruct (get_consumers konnect s) as [[consumers | err] s1] eqn:Ec.
  2:{ assert (Hex : CF003_execute konnect s = (Raise err, s1))
        by (unfold CF003_execute, bind; now rewrite Ec).
      rewrite run_cases. cbv zeta. simpl execute. rewrite Hex.
      eexists. split; [reflexivity |].
      cbn [Evidence.error_message Evidence.result].
      split; [reflexivity | discriminate]. }
  destruct (get_plugins konnect (Some "rate-limiting") s1)
    as [[plugins | err] s2] eqn:Ep.
  2:{ assert (Hex : CF003_execute konnect s = (Raise err, s2))
        by (unfold CF003_execute, bind; rewrite Ec; now rewrite Ep).
      rewrite run_cases. cbv zeta. simpl execute. rewrite Hex.
      eexists. split; [reflexivity |].
      cbn [Evidence.error_message Evidence.result].
      split; [reflexivity | discriminate]. }
  assert (Hex : CF003_execute konnect s = (CF003_body consumers plugins, s2))
    by (unfold CF003_execute, bind, lift; rewrite Ec; now rewrite Ep).
  rewrite run_cases. cbv zeta. simpl execute. rewrite Hex. cbn [snd].
  destruct (CF003_body consumers plugins) as [[[r d] a] | err] eqn:Eb.
  2:{ eexists. split; [reflexivity |].
      cbn [Evidence.error_message Evidence.result].
      split; [reflexivity | discriminate]. }
  eexists. split; [reflexivity |].
  cbn [Evidence.error_message Evidence.result Evidence.details Evidence.artifacts].
  split; [congruence |]. intros _.
  destruct (CF003_body_counts consumers plugins r d a Eb)
    as (rows & missing & covered & Ha & Hi & Ht & Hc & Hm & Hsum & Hpass).
  exists consumers, s1, plugins, rows, missing, covered.
  split; [reflexivity |]. split; [exact Ep |].
  split; [now rewrite Ha |]. split; [exact Hi |]. split; [exact Ht |].
  split; [exact Hc |]. split; [exact Hm |]. split; [exact Hsum |].
  rewrite value_PASS. exact Hpass.
Qed.

End CoverageCounts.

(** [CF003_counts_add_up] on the scripted admin API, with one limit on
    c1 and consumers c1, c2. *)
Lemma CF003_counts_add_up_witness :
  exists e rows missing covered,
    fst (@run scripted (CF003_AllConsumersHaveLimits admin) noon
           (script [answer 200 consumers_listing; answer 200 plugins_listing]))
    = Ok e
    /\ Evidence.result e = "FAIL"
    /\ Evidence.artifacts e
       = [asdict (mkArtifact "config_snapshot" "Consumer rate limit coverage"
                    (JList rows))]
    /\ lookup "missing_limits" (Evidence.details e) = Some (PJson (JList missing))
    /\ lookup "consumers_with_limits" (Evidence.details e)
       = Some (PJson (JInt (Z.of_nat covered)))
    /\ (covered + List.length missing = 2)%nat.
Proof.
  destruct (@CF003_counts_add_up scripted admin noon
              (script [answer 200 consumers_listing; answer 200 plugins_listing]))
    as (e & Hrun & _ & H).
  apply (f_equal fst) in Hrun. cbn [fst] in Hrun.
  assert (He : Evidence.error_message e = None /\ Evidence.result e = "FAIL").
  { vm_compute in Hrun. injection Hrun as <-. split; reflexivity. }
  destruct He as (He & Hr).
  destruct (H He)
    as (consumers & s1 & plugins & rows & missing & covered
        & Hc & _ & Ha & _ & _ & Hcv & Hm & Hsum & _).
  apply (f_equal fst) in Hc. vm_compute in Hc. injection Hc as <-.
  exists e, rows, missing, covered.
  split; [exact Hrun |]. split; [exact Hr |]. split; [exact Ha |].
  split; [exact Hm |]. split; [exact Hcv |]. exact Hsum.
Defined.

(** ** Error statuses from the admin API *)

Section AdminErrors.
Context `{Net : Network}.

Lemma admin_fetch_rejected {A : Type} (konnect : KonnectClient) (path : string)
    (k : Response -> M A) (s : Env) (msg : string) :
  admin_rejects konnect s msg ->
  exists s',
    bind (_admin_url konnect path)
      (fun url => bind (konnect_session_get konnect url)
         (fun response => bind (raise_for_status response) (fun _ => k response))) s
    = (Raise (Exn "HTTPError" msg), s').
Proof.
  intros H. destruct (H path) as (url & s1 & r & w & Eu & Er & Hs & Hm).
  unfold bind at 1. rewrite Eu. unfold bind at 1.
  unfold konnect_session_get, http. unfold admin_request in Er. rewrite Er.
  unfold bind, raise_for_status.
  assert (Hb : (400 <=? status_code r) && (status_code r <? 600) = true).
  { apply andb_true_iff. split; [apply Z.leb_le | apply Z.ltb_lt]; lia. }
  rewrite Hb. unfold raise. rewrite Hm. eauto.
Qed.

(** When the admin API answers with a 4xx or 5xx status, each of
    [get_consumers], [get_plugins], [get_services] and [get_routes]
    raises the [HTTPError] of [raise_for_status] without reading the
    body, and the three configuration checks end in ERROR with that
    error's text as message. *)
Theorem admin_error_status_raises (konnect : KonnectClient) (clock : Clock)
    (s : Env) (msg : string) (Hrej : admin_rejects konnect s msg) :
  fst (get_consumers konnect s) = Raise (Exn "HTTPError" msg)
  /\ (forall plugin_name,
        fst (get_plugins konnect plugin_name s) = Raise (Exn "HTTPError" msg))
  /\ fst (get_services konnect s) = Raise (Exn "HTTPError" msg)
  /\ fst (get_routes konnect s) = Raise (Exn "HTTPError" msg)
  /\ (forall t,
        In t [CF001_AuthPluginEnabled konnect; CF002_RateLimitPluginEnabled konnect;
              CF003_AllConsumersHaveLimits konnect] ->
        exists e s',
          run t clock s = (Ok e, s')
          /\ Evidence.result e = "ERROR"
          /\ Evidence.error_message e = Some msg).
Proof.
  assert (Hc : fst (get_consumers konnect s) = Raise (Exn "HTTPError" msg)).
  { unfold get_consumers.
    destruct (admin_fetch_rejected konnect "/consumers"
                (fun response => lift
                   (and_then (json_body response) (fun body =>
                    and_then (py_get body "data" (JList [])) (fun data =>
                    and_then (py_iter data) (fun items =>
                    map_outcome consumer_of_item items))))) s msg Hrej) as (s' & E).
    now rewrite E. }
  assert (Hp : forall plugin_name,
             fst (get_plugins konnect plugin_name s) = Raise (Exn "HTTPError" msg)).
  { intros plugin_name. unfold get_plugins.
    destruct (admin_fetch_rejected konnect "/plugins"
                (fun response => lift
                   (and_then (json_body response) (fun body =>
                    and_then (py_get body "data" (JList [])) (fun data =>
                    and_then (py_iter data) (fun items =>
                    plugins_of_items plugin_name items))))) s msg Hrej) as (s' & E).
    now rewrite E. }
  split; [exact Hc |]. split; [exact Hp |]. split; [| split].
  - unfold get_services.
    destruct (admin_fetch_rejected konnect "/services"
                (fun response => lift
                   (and_then (json_body response) (fun body =>
                    py_get body "data" (JList [])))) s msg Hrej) as (s' & E).
    now rewrite E.
  - unfold get_routes.
    destruct (admin_fetch_rejected konnect "/routes"
                (fun response => lift
                   (and_then (json_body response) (fun body =>
                    py_get body "data" (JList [])))) s msg Hrej) as (s' & E).
    now rewrite E.
  - intros t [<- | [<- | [<- | []]]]; rewrite run_cases; cbv zeta; simpl execute.
    + unfold CF001_execute, bind. specialize (Hp (Some "key-auth")).
      destruct (get_plugins konnect (Some "key-auth") s) as [[ps | err] s'];
        simpl in Hp; [discriminate |]. injection Hp as ->.
      eexists; eexists. split; [reflexivity |]. split; reflexivity.
    + unfold CF002_execute, bind. specialize (Hp (Some "rate-limiting")).
      destruct (get_plugins konnect (Some "rate-limiting") s) as [[ps | err] s'];
        simpl in Hp; [discriminate |]. injection Hp as ->.
      eexists; eexists. split; [reflexivity |]. split; reflexivity.
    + unfold CF003_execute, bind.
      destruct (get_consumers konnect s) as [[cs | err] s'];
        simpl in Hc; [discriminate |]. injection Hc as ->.
      eexists; eexists. split; [reflexivity |]. split; reflexivity.
Qed.

End AdminErrors.

Lemma scripted_admin_rejects :
  @admin_rejects scripted admin
    (script [error_answer 503 "503 Server Error: Service Unavailable"])
    "503 Server Error: Service Unavailable".
Proof.
  intros path. do 4 eexists. split; [reflexivity |]. split; [reflexivity |].
  split; [simpl; lia | reflexivity].
Qed.

(** [admin_error_status_raises], on an admin API that answers 503. *)
Lemma admin_error_status_raises_witness :
  fst (@get_consumers scripted admin
         (script [error_answer 503 "503 Server Error: Service Unavailable"]))
  = Raise (Exn "HTTPError" "503 Server Error: Service Unavailable")
  /\ exists e s',
       @run scripted (CF003_AllConsumersHaveLimits admin) noon
         (script [error_answer 503 "503 Server Error: Service Unavailable"])
       = (Ok e, s')
       /\ Evidence.result e = "ERROR"
       /\ Evidence.error_message e = Some "503 Server Error: Service Unavailable".
Proof.
  destruct (@admin_error_status_raises scripted admin noon _ _ scripted_admin_rejects)
    as (Hc & _ & _ & _ & Ht).
  split; [exact Hc |]. apply Ht. simpl. auto.
Defined.

(** ** The live sink *)

Section LiveSink.
Context `{Net : Network}.

Lemma client_submit_live (c : DrataClient) (e : Evidence.t) (s : Env) :
  exists o,
    client_submit (Live c) (monitor_id_of e) (payload_of e) s
    = (o, mkEnv (snd (session_request (submit_request c e) (world s)))
            (app (sent s) [submit_request c e]))
    /\ match o with Ok c' => c' = Live c | Raise _ => True end.
Proof.
  unfold client_submit, bind at 1.
  unfold submit_external_evidence, _request, bind, http. fold (submit_request c e).
  destruct (session_request (submit_request c e) (world s)) as [[r | err] w];
    [| eexists; split; [reflexivity | exact I]].
  unfold raise_for_status.
  destruct ((400 <=? status_code r) && (status_code r <? 600));
    [eexists; split; [reflexivity | exact I] |].
  unfold ret, lift.
  destruct (json_body r); eexists; (split; [reflexivity |]); simpl; auto.
Qed.

Lemma push_live_trace (results : list Evidence.t) (c : DrataClient) :
  forall s, exists s',
    push_to_drata results (Live c) false s = (Ok (Live c), s')
    /\ sent s' = app (sent s) (map (submit_request c) results).
Proof.
  induction results as [| e results IH]; intros s.
  - exists s. split; [reflexivity | simpl; now rewrite app_nil_r].
  - cbn [push_to_drata map]. unfold bind at 1. unfold try_except.
    destruct (client_submit_live c e s) as (o & Eo & Ho). rewrite Eo.
    destruct o as [c' | err]; [subst c' | unfold ret at 1];
      match goal with
      | |- context [push_to_drata results (Live c) false ?s1] =>
          destruct (IH s1) as (s' & E & Hs)
      end;
      exists s'; (split; [exact E |]); rewrite Hs; simpl;
      now rewrite <- app_assoc.
Qed.

(** Pushing to the live sink never raises and never stops early: one
    POST is sent for every evidence record, in the order of the results,
    each to its own monitor with its own payload, whether earlier
    submissions were refused, failed in transport or answered with a body
    that is not JSON; and the client comes back unchanged. *)
Theorem push_to_drata_live_submits_each (results : list Evidence.t) (c : DrataClient)
    (s : Env) :
  exists s',
    push_to_drata results (Live c) false s = (Ok (Live c), s')
    /\ sent s' = app (sent s) (map (submit_request c) results)
    /\ map req_url (map (submit_request c) results)
       = map (fun e => api_base c ++ "/public/monitors/kong-"
                       ++ lower (Evidence.test_id e) ++ "/evidence") results.
Proof.
  destruct (push_live_trace results c s) as (s' & E & Hs).
  exists s'. split; [exact E |]. split; [exact Hs |].
  rewrite map_map. apply map_ext. intros e. reflexivity.
Qed.

(** [DrataClient.health_check] never raises: it sends one GET of
    [/public/monitors] and answers true exactly when the request is
    answered with status 200, 401 or 403, false for any other status and
    false when the request fails. *)
Theorem DrataClient_health_check_reachable (c : DrataClient) (s : Env) :
  let rq := mkRequest "GET" (api_base c ++ "/public/monitors")
              [("Authorization", "Bearer " ++ api_key c);
               ("Content-Type", "application/json")] None (Some 30) in
  exists b,
    DrataClient_health_check c s
    = (Ok b, mkEnv (snd (session_request rq (world s))) (app (sent s) [rq]))
    /\ (b = true
        <-> exists r, fst (session_request rq (world s)) = Ok r
                      /\ (status_code r = 200 \/ status_code r = 401
                          \/ status_code r = 403)).
Proof.
  cbv zeta. unfold DrataClient_health_check, try_except, bind, _request, http.
  destruct (session_request _ (world s)) as [[r | err] w]; simpl.
  - eexists. split; [reflexivity |].
    rewrite !orb_true_iff, !Z.eqb_eq. split.
    + intros [H | [H | [H | H]]]; [| | | discriminate]; exists r; auto.
    + intros (r' & Hr & H). injection Hr as <-. tauto.
  - exists false. split; [reflexivity |]. split; [discriminate |].
    intros (r & Hr & _). discriminate.
Qed.

(** When the platform answers whatever it is sent with a 4xx or 5xx
    status, every call of the live client that checks the status raises
    the [HTTPError] of [raise_for_status]: [submit_external_evidence],
    [get_controls], [get_monitors] and [update_monitor_status]. *)
Theorem drata_calls_raise_on_error_status (c : DrataClient)
    (monitor_id status : string) (evidence : DrataEvidencePayload.t)
    (evidence_data : option (pydict pyval)) (s : Env) (msg : string)
    (Hrej : forall rq, exists r w,
        session_request rq (world s) = (Ok r, w)
        /\ 400 <= status_code r < 600 /\ status_error r = msg) :
  fst (submit_external_evidence c monitor_id evidence s) = Raise (Exn "HTTPError" msg)
  /\ fst (get_controls c s) = Raise (Exn "HTTPError" msg)
  /\ fst (get_monitors c s) = Raise (Exn "HTTPError" msg)
  /\ fst (update_monitor_status c monitor_id status evidence_data s)
     = Raise (Exn "HTTPError" msg).
Proof.
  assert (H : forall A method path data (k : Response -> M A),
    fst (bind (_request c method path data)
           (fun response => bind (raise_for_status response) (fun _ => k response)) s)
    = Raise (Exn "HTTPError" msg)).
  { intros A method path data k. unfold bind at 1. unfold _request, http.
    match goal with
    | |- context [session_request ?rq (world s)] =>
        destruct (Hrej rq) as (r & w & E & Hs & Hm); rewrite E
    end.
    unfold bind, raise_for_status.
    assert (Hb : (400 <=? status_code r) && (status_code r <? 600) = true).
    { apply andb_true_iff. split; [apply Z.leb_le | apply Z.ltb_lt]; lia. }
    rewrite Hb. unfold raise. now rewrite Hm. }
  repeat split.
  - apply (H json "POST" _ _ (fun response => lift (json_body response))).
  - apply (H json "GET" "/public/controls" None
             (fun response => lift (and_then (json_body response)
                                      (fun body => py_get body "data" (JList []))))).
  - apply (H json "GET" "/public/monitors" None
             (fun response => lift (and_then (json_body response)
                                      (fun body => py_get body "data" (JList []))))).
  - apply (H json "PATCH" _ _ (fun response => lift (json_body response))).
Qed.

(** [update_monitor_status] sends one PATCH to the monitor; its body
    holds the status, and the evidence only when evidence data is given
    and not empty. *)
Theorem update_monitor_status_body (c : DrataClient) (monitor_id status : string)
    (evidence_data : option (pydict pyval)) (s : Env) :
  exists body,
    sent (snd (update_monitor_status c monitor_id status evidence_data s))
    = app (sent s)
        [mkRequest "PATCH" (api_base c ++ "/public/monitors/" ++ monitor_id)
           [("Authorization", "Bearer " ++ api_key c);
            ("Content-Type", "application/json")]
           (Some (PDict body)) (Some 30)]
    /\ lookup "status" body = Some (PJson (JStr status))
    /\ lookup "evidence" body
       = match evidence_data with
         | Some (kv :: d) => Some (PDict (kv :: d))
         | _ => None
         end.
Proof.
  unfold update_monitor_status, bind at 1. unfold _request, http.
  match goal with
  | |- context [Some (PDict ?b)] => exists b
  end.
  split.
  - destruct (session_request _ (world s)) as [[r | err] w]; [| reflexivity].
    unfold bind, raise_for_status.
    destruct ((400 <=? status_code r) && (status_code r <? 600)); [reflexivity |].
    unfold ret, lift. destruct (json_body r); reflexivity.
  - destruct evidence_data as [[| kv d] |]; simpl; auto.
Qed.

End LiveSink.

(** [drata_calls_raise_on_error_status], on a platform that answers 401. *)
Lemma drata_calls_raise_on_error_status_witness :
  fst (@submit_external_evidence scripted (mkDrata "key" "https://drata.test")
         "kong-rt-001" (payload_of (sample_evidence "RT-001" PASS))
         (script [error_answer 401 "401 Client Error: Unauthorized"]))
  = Raise (Exn "HTTPError" "401 Client Error: Unauthorized")
  /\ fst (@get_monitors scripted (mkDrata "key" "https://drata.test")
            (script [error_answer 401 "401 Client Error: Unauthorized"]))
     = Raise (Exn "HTTPError" "401 Client Error: Unauthorized").
Proof.
  assert (H : forall rq, exists r w,
    @session_request scripted rq
      (@world scripted (script [error_answer 401 "401 Client Error: Unauthorized"]))
    = (Ok r, w)
    /\ 400 <= status_code r < 600
    /\ status_error r = "401 Client Error: Unauthorized").
  { intros rq. do 2 eexists. split; [reflexivity |]. split; [simpl; lia | reflexivity]. }
  destruct (@drata_calls_raise_on_error_status scripted (mkDrata "key" "https://drata.test")
              "kong-rt-001" "FAILING" (payload_of (sample_evidence "RT-001" PASS)) None
              _ _ H) as (Hs & _ & Hm & _).
  split; [exact Hs | exact Hm].
Defined.

(** ** The orchestrator *)

Section Order.
Context `{Net : Network}.

(** [run_tests] returns one record per check, in the order of the
    checks: each record carries the id, the name and the control mapping
    of its check and the timestamp read for it, whatever the checks did. *)
Theorem run_tests_keeps_order (tests : list (BaseTest * Clock)) :
  forall s, exists results s',
    run_tests tests s = (Ok results, s')
    /\ map Evidence.test_id results = map (fun tc => test_id (fst tc)) tests
    /\ map Evidence.test_name results = map (fun tc => test_name (fst tc)) tests
    /\ map Evidence.control_mapping results
       = map (fun tc => control_mapping (fst tc)) tests
    /\ map Evidence.timestamp results = map (fun tc => now_iso (snd tc)) tests.
Proof.
  induction tests as [| [t clock] tests IH]; intros s; simpl.
  - exists [], s. repeat split.
  - unfold bind at 1. rewrite run_cases. cbv zeta.
    destruct (execute t s) as [[[[r d] a] | err] s1];
      destruct (IH s1) as (results & s' & E & Hi & Hn & Hc & Ht);
      unfold bind; rewrite E; eexists; exists s'; (split; [reflexivity |]);
      simpl; rewrite Hi, Hn, Hc, Ht; repeat split.
Qed.

Lemma run_tests_ids_stamps (tests : list (BaseTest * Clock)) :
  forall s, exists results s',
    run_tests tests s = (Ok results, s')
    /\ map Evidence.test_id results = map (fun tc => test_id (fst tc)) tests
    /\ map Evidence.timestamp results = map (fun tc => now_iso (snd tc)) tests.
Proof.
  induction tests as [| [t clock] tests IH]; intros s; simpl.
  - exists [], s. repeat split.
  - destruct (run_returns t clock s) as (e & E & _).
    pose proof (run_cases t clock s) as Hc. cbv zeta in Hc. rewrite E in Hc.
    destruct (IH (snd (execute t s))) as (results & s' & E' & Hi & Ht).
    exists (e :: results), s'. unfold bind. rewrite E, E'.
    split; [reflexivity |]. simpl. rewrite Hi, Ht.
    destruct (execute t s) as [[[[r d] a] | err] s1]; injection Hc as ->; split;
      reflexivity.
Qed.

(** A run of [main]'s checks always yields nine records, with the ids
    RT-001 to RT-006 and CF-001 to CF-003 in that order, no id twice,
    whatever the configuration, the clocks and the network do. *)
Theorem main_run_ids (config : Config) (konnect : KonnectClient)
    (dataplane : DataplaneClient) (clocks : nat -> Clock) (s : Env) :
  exists results sink s',
    main_run config konnect dataplane clocks s
    = (Ok (results, sink, exit_status results), s')
    /\ map Evidence.test_id results
       = ["RT-001"; "RT-002"; "RT-003"; "RT-004"; "RT-005"; "RT-006";
          "CF-001"; "CF-002"; "CF-003"]
    /\ NoDup (map Evidence.test_id results)
    /\ map Evidence.timestamp results = map (fun i => now_iso (clocks i)) (seq 0 9).
Proof.
  unfold main_run.
  destruct (run_tests_ids_stamps
              (combine (create_tests (kong config) konnect dataplane)
                 (map clocks
                    (seq 0 (List.length (create_tests (kong config) konnect dataplane)))))
              s) as (results & s1 & E & Hi & Ht).
  destruct (push_to_drata_returns results (dry_run config) (main_sink config) s1)
    as (sink & s2 & E2).
  exists results, sink, s2. unfold bind. rewrite E, E2.
  split; [reflexivity |].
  simpl in Hi, Ht. rewrite Hi, Ht. split; [reflexivity |]. split; [| reflexivity].
  repeat constructor; simpl; intuition discriminate.
Qed.

End Order.

(** ** Configuration *)

(** [load_config] needs KONNECT_TOKEN, DATAPLANE_URL and DRATA_API_KEY:
    it raises [KeyError] for the first of them that is not set, in that
    order, and succeeds when all three are set, taking every other
    setting from the environment or from its default.  The dry-run and
    verbose flags are on exactly when the variable, lower-cased, is
    ["true"]. *)
Theorem load_config_required_variables (environ : pydict string) :
  match lookup "KONNECT_TOKEN" environ, lookup "DATAPLANE_URL" environ,
        lookup "DRATA_API_KEY" environ with
  | None, _, _ => config.load_config environ = Raise (KeyError "KONNECT_TOKEN")
  | Some _, None, _ => config.load_config environ = Raise (KeyError "DATAPLANE_URL")
  | Some _, Some _, None => config.load_config environ = Raise (KeyError "DRATA_API_KEY")
  | Some token, Some url, Some key =>
      config.load_config environ
      = Ok (config.mk
              (config.mkKong token (getenv environ "KONNECT_REGION" "us")
                 (getenv environ "CONTROL_PLANE_NAME" "kong-hybrid-rate-limit-demo")
                 url (getenv environ "FREE_TRIAL_KEY" "free-trial-key")
                 (getenv environ "PRO_KEY" "pro-key"))
              (config.mkDrataConfig key
                 (getenv environ "DRATA_API_BASE" "https://public-api.drata.com"))
              (config.mkGCP (getenv environ "GCP_PROJECT_ID" "drata-kong-tests")
                 (getenv environ "GCP_REGION" "us-east1"))
              (env_flag environ "DRY_RUN") (env_flag environ "VERBOSE"))
  end
  /\ ((exists c, config.load_config environ = Ok c)
      <-> forall k, In k required_variables -> lookup k environ <> None).
Proof.
  unfold config.load_config, config.Config_from_env, config.KongConfig_from_env,
    config.DrataConfig_from_env, environ_item, required_variables.
  destruct (lookup "KONNECT_TOKEN" environ) as [token |] eqn:Et;
    destruct (lookup "DATAPLANE_URL" environ) as [url |] eqn:Eu;
    destruct (lookup "DRATA_API_KEY" environ) as [key |] eqn:Ek;
    cbn [and_then]; (split; [reflexivity |]);
    (split;
     [ intros [c Hc]; try discriminate; intros k [<- | [<- | [<- | []]]]; congruence
     | intros H; try (eexists; reflexivity) ]).
  all: exfalso.
  - apply (H "DRATA_API_KEY"); simpl; auto.
  - apply (H "DATAPLANE_URL"); simpl; auto.
  - apply (H "DATAPLANE_URL"); simpl; auto.
  - apply (H "KONNECT_TOKEN"); simpl; auto.
  - apply (H "KONNECT_TOKEN"); simpl; auto.
  - apply (H "KONNECT_TOKEN"); simpl; auto.
  - apply (H "KONNECT_TOKEN"); simpl; auto.
Qed.

(** The API base follows the region for ["us"], ["eu"] and ["au"],
    spelled exactly so; any other region, ["US"] or a misspelling
    included, silently gets the US base. *)
Theorem konnect_api_base_falls_back_to_us (c : config.KongConfig) :
  (In (config.konnect_region c) ["us"; "eu"; "au"] ->
   config.konnect_api_base c
   = "https://" ++ config.konnect_region c ++ ".api.konghq.com")
  /\ (~ In (config.konnect_region c) ["us"; "eu"; "au"] ->
      config.konnect_api_base c = "https://us.api.konghq.com").
Proof.
  unfold config.konnect_api_base, config.region_map. split.
  - intros [<- | [<- | [<- | []]]]; reflexivity.
  - intros H. cbn [lookup].
    destruct (String.eqb (config.konnect_region c) "us") eqn:E1;
      [apply String.eqb_eq in E1; elim H; simpl; auto |].
    destruct (String.eqb (config.konnect_region c) "eu") eqn:E2;
      [apply String.eqb_eq in E2; elim H; simpl; auto |].
    destruct (String.eqb (config.konnect_region c) "au") eqn:E3;
      [apply String.eqb_eq in E3; elim H; simpl; auto |].
    reflexivity.
Qed.

(** [konnect_api_base_falls_back_to_us], for the regions "eu" and "EU". *)
Lemma konnect_api_base_falls_back_to_us_witness :
  config.konnect_api_base (config.mkKong "t" "eu" "cp" "http://gw" "f" "p")
  = "https://eu.api.konghq.com"
  /\ config.konnect_api_base (config.mkKong "t" "EU" "cp" "http://gw" "f" "p")
     = "https://us.api.konghq.com".
Proof.
  split.
  - apply (proj1 (konnect_api_base_falls_back_to_us
                    (config.mkKong "t" "eu" "cp" "http://gw" "f" "p"))).
    simpl. auto.
  - apply (proj2 (konnect_api_base_falls_back_to_us
                    (config.mkKong "t" "EU" "cp" "http://gw" "f" "p"))).
    simpl. intros [H | [H | [H | []]]]; discriminate.
Defined.

Lemma rstrip_slash_split (s : string) :
  exists k, s = rstrip_slash s ++ slashes k.
Proof.
  induction s as [| c s IH]; [exists 0%nat; reflexivity |].
  destruct IH as (k & Hk). cbn [rstrip_slash].
  destruct (rstrip_slash s) as [| d r] eqn:Er.
  - simpl in Hk. destruct (Ascii.eqb c "/") eqn:Ec.
    + apply Ascii.eqb_eq in Ec. subst c. exists (S k). simpl. now rewrite Hk.
    + exists k. simpl. now rewrite Hk.
  - exists k. simpl. simpl in Hk. now rewrite <- Hk.
Qed.

Lemma rstrip_slash_no_trailing (s : string) :
  forall t, rstrip_slash s <> t ++ "/".
Proof.
  induction s as [| c s IH]; intros t.
  - destruct t; discriminate.
  - cbn [rstrip_slash]. destruct (rstrip_slash s) as [| d r] eqn:Er.
    + destruct (Ascii.eqb c "/") eqn:Ec.
      * destruct t; discriminate.
      * destruct t as [| c' t]; simpl.
        -- intros H. injection H as ->. discriminate.
        -- intros H. injection H as _ H. destruct t; discriminate.
    + destruct t as [| c' t]; simpl.
      * discriminate.
      * intros H. injection H as _ H. apply (IH t H).
Qed.

(** The clients keep their base URL without trailing slashes:
    [rstrip("/")] removes every slash at the end and nothing else, so the
    stored URL never ends in a slash and stripping it again changes
    nothing. *)
Theorem rstrip_slash_removes_trailing_slashes (s : string) :
  (exists k, s = rstrip_slash s ++ slashes k)
  /\ (forall t, rstrip_slash s <> t ++ "/")
  /\ rstrip_slash (rstrip_slash s) = rstrip_slash s
  /\ ((forall t, s <> t ++ "/") -> rstrip_slash s = s).
Proof.
  assert (Hfix : forall u, (forall t, u <> t ++ "/") -> rstrip_slash u = u).
  { intros u Hu. destruct (rstrip_slash_split u) as ([| k] & Hk).
    - simpl in Hk. rewrite Hk at 2.
      clear. induction (rstrip_slash u); simpl; congruence.
    - exfalso. assert (Hs : forall j, slashes (S j) = slashes j ++ "/").
      { clear. induction j as [| j IHj]; [reflexivity |].
        simpl in *. now rewrite <- IHj. }
      apply (Hu (rstrip_slash u ++ slashes k)). rewrite Hk at 1. rewrite Hs.
      clear. induction (rstrip_slash u); simpl; congruence. }
  split; [apply rstrip_slash_split |].
  split; [apply rstrip_slash_no_trailing |].
  split; [apply Hfix, rstrip_slash_no_trailing | apply Hfix].
Qed.

(** [rstrip_slash_removes_trailing_slashes], on a URL without and one
    with trailing slashes. *)
Lemma rstrip_slash_removes_trailing_slashes_witness :
  rstrip_slash "http://gateway:8000" = "http://gateway:8000"
  /\ rstrip_slash "http://gateway:8000//" = "http://gateway:8000".
Proof.
  split; [| reflexivity].
  apply (rstrip_slash_removes_trailing_slashes "http://gateway:8000").
  intros t H. revert H.
  do 19 (destruct t as [| ? t]; [discriminate | intros H; injection H as _ H; revert H]).
  destruct t; discriminate.
Defined.

(** ** The control plane lookup *)

Lemma find_control_plane_none (name : string) (cps : list json) :
  Forall (fun cp => is_dict cp = true /\ named name cp = false) cps ->
  find_control_plane name cps = Ok None.
Proof.
  induction 1 as [| cp cps [Hd Hn] _ IH]; [reflexivity |].
  simpl. unfold named in Hn. destruct cp; try discriminate. simpl in *.
  rewrite Hn. exact IH.
Qed.

Lemma find_control_plane_first (name : string) (before after : list json)
    (d : pydict json) (id : json) :
  Forall (fun cp => is_dict cp = true /\ named name cp = false) before ->
  lookup "name" d = Some (JStr name) ->
  lookup "id" d = Some id ->
  find_control_plane name (before ++ JDict d :: after) = Ok (Some id).
Proof.
  intros Hb Hn Hi. induction Hb as [| cp cps [Hd Hnm] _ IH]; simpl.
  - rewrite Hn. simpl. rewrite String.eqb_refl. simpl. now rewrite Hi.
  - unfold named in Hnm. destruct cp; try discriminate. simpl in *.
    rewrite Hnm. exact IH.
Qed.

Section ControlPlane.
Context `{Net : Network}.

(** Once [_get_control_plane_id] has returned a non-empty id, the client
    holds it: every later call returns the same id at once, with no
    request, whatever the network would answer.  The other attributes of
    the client are never touched.  (An id that is empty is returned but
    looked up again by the next call.) *)
Theorem control_plane_id_is_cached (self self' : Konnect.t) (id : json) (s s' : Env)
    (Hcall : _get_control_plane_id self s = (Ok (id, self'), s')) :
  Konnect.control_plane_id self' = id
  /\ Konnect.token self' = Konnect.token self
  /\ Konnect.api_base self' = Konnect.api_base self
  /\ Konnect.control_plane_name self' = Konnect.control_plane_name self
  /\ (truthy (Konnect.control_plane_id self) = true -> s' = s /\ self' = self)
  /\ (truthy id = true ->
      forall s2, _get_control_plane_id self' s2 = (Ok (id, self'), s2)).
Proof.
  unfold _get_control_plane_id in Hcall.
  destruct (truthy (Konnect.control_plane_id self)) eqn:Ec.
  - unfold ret in Hcall. injection Hcall as <- <- <-.
    repeat split; auto.
    intros _ s2. unfold _get_control_plane_id. rewrite Ec. reflexivity.
  - unfold bind at 1 in Hcall.
    destruct (http (control_planes_request self) s) as [[r | err] s1];
      [| discriminate].
    unfold bind at 1 in Hcall.
    destruct (raise_for_status r s1) as [[[] | err] s2]; [| discriminate].
    unfold bind, lift in Hcall.
    destruct (and_then (json_body r) _) as [[found |] | err]; try discriminate.
    unfold ret in Hcall. injection Hcall as <- <- <-.
    repeat split; try reflexivity; try discriminate.
    intros Ht s3. unfold _get_control_plane_id. simpl. rewrite Ht. reflexivity.
Qed.

(** A client with no id yet sends one GET of [/v2/control-planes].
    From an answer that lists control planes it takes the id of the
    first one whose name is the configured name, even when a later one
    has the same name, and keeps it; when no listed control plane has
    that name it raises [ValueError] with the name in the message. *)
Theorem control_plane_lookup_first_match (self : Konnect.t) (s : Env)
    (r : Response) (w : World) (d : pydict json) (cps : list json)
    (Hfresh : truthy (Konnect.control_plane_id self) = false)
    (Hanswer : session_request (control_planes_request self) (world s) = (Ok r, w))
    (Hstatus : status_ok r = true)
    (Hbody : json_body r = Ok (JDict d))
    (Hdata : lookup "data" d = Some (JList cps)) :
  let s' := mkEnv w (app (sent s) [control_planes_request self]) in
  (Forall (fun cp => is_dict cp = true
                     /\ named (Konnect.control_plane_name self) cp = false) cps ->
   _get_control_plane_id self s
   = (Raise (ValueError ("Control plane '" ++ Konnect.control_plane_name self
                         ++ "' not found")), s'))
  /\ (forall before cd after id,
        cps = (before ++ JDict cd :: after)%list ->
        Forall (fun cp => is_dict cp = true
                          /\ named (Konnect.control_plane_name self) cp = false)
               before ->
        lookup "name" cd = Some (JStr (Konnect.control_plane_name self)) ->
        lookup "id" cd = Some id ->
        _get_control_plane_id self s
        = (Ok (id, Konnect.mk (Konnect.token self) (Konnect.api_base self)
                     (Konnect.control_plane_name self) id), s')).
Proof.
  cbv zeta.
  assert (Hpre : forall found,
    find_control_plane (Konnect.control_plane_name self) cps = Ok found ->
    _get_control_plane_id self s
    = match found with
      | Some id =>
          (Ok (id, Konnect.mk (Konnect.token self) (Konnect.api_base self)
                     (Konnect.control_plane_name self) id),
           mkEnv w (app (sent s) [control_planes_request self]))
      | None =>
          (Raise (ValueError ("Control plane " ++ quote (Konnect.control_plane_name self)
                              ++ " not found")),
           mkEnv w (app (sent s) [control_planes_request self]))
      end).
  { intros found Hf. unfold _get_control_plane_id. rewrite Hfresh.
    unfold bind at 1. unfold http. rewrite Hanswer.
    unfold bind at 1. unfold raise_for_status.
    unfold status_ok in Hstatus. apply negb_true_iff in Hstatus. rewrite Hstatus.
    unfold ret at 1. unfold bind, lift. rewrite Hbody. simpl. rewrite Hdata.
    simpl. rewrite Hf. destruct found; reflexivity. }
  split.
  - intros Hnone. rewrite (Hpre None (find_control_plane_none _ _ Hnone)).
    assert (Ha : forall n, (n ++ "'") ++ " not found" = n ++ "' not found").
    { induction n as [| c n IHn]; simpl; [reflexivity | now rewrite IHn]. }
    unfold ValueError, quote. simpl. now rewrite Ha.
  - intros before cd after id -> Hb Hn Hi.
    apply (Hpre (Some id)). now apply find_control_plane_first.
Qed.

End ControlPlane.

(** [control_plane_lookup_first_match], on the scripted listing, where
    the second and the third control plane both have the name. *)
Lemma control_plane_lookup_first_match_witness :
  @_get_control_plane_id scripted fresh_konnect (script [answer 200 control_planes_listing])
  = (Ok (JStr "cp-2",
         Konnect.mk "token" "https://us.api.konghq.com" "kong-hybrid-rate-limit-demo"
           (JStr "cp-2")),
     @mkEnv scripted [] [control_planes_request fresh_konnect]).
Proof.
  refine (proj2 (@control_plane_lookup_first_match scripted fresh_konnect
                   (script [answer 200 control_planes_listing])
                   (mkResponse 200 [] (Ok control_planes_listing) "") []
                   [("data", JList
                      [JDict [("id", JStr "cp-1"); ("name", JStr "staging")];
                       JDict [("id", JStr "cp-2");
                              ("name", JStr "kong-hybrid-rate-limit-demo")];
                       JDict [("id", JStr "cp-3");
                              ("name", JStr "kong-hybrid-rate-limit-demo")]])]
                   _ eq_refl eq_refl eq_refl eq_refl eq_refl)
            [JDict [("id", JStr "cp-1"); ("name", JStr "staging")]]
            [("id", JStr "cp-2"); ("name", JStr "kong-hybrid-rate-limit-demo")]
            [JDict [("id", JStr "cp-3"); ("name", JStr "kong-hybrid-rate-limit-demo")]]
            (JStr "cp-2") eq_refl _ eq_refl eq_refl).
  repeat constructor.
Defined.

(** [control_plane_id_is_cached], after the lookup on the scripted
    listing: the next call, made with the network down, still answers. *)
Lemma control_plane_id_is_cached_witness :
  @_get_control_plane_id scripted fresh_konnect (script [answer 200 control_planes_listing])
  = (Ok (JStr "cp-2",
         Konnect.mk "token" "https://us.api.konghq.com" "kong-hybrid-rate-limit-demo"
           (JStr "cp-2")),
     @mkEnv scripted [] [control_planes_request fresh_konnect])
  /\ @_get_control_plane_id scripted
       (Konnect.mk "token" "https://us.api.konghq.com" "kong-hybrid-rate-limit-demo"
          (JStr "cp-2")) (script [])
     = (Ok (JStr "cp-2",
            Konnect.mk "token" "https://us.api.konghq.com" "kong-hybrid-rate-limit-demo"
              (JStr "cp-2")), script []).
Proof.
  assert (H : @_get_control_plane_id scripted fresh_konnect
                (script [answer 200 control_planes_listing])
              = (Ok (JStr "cp-2",
                     Konnect.mk "token" "https://us.api.konghq.com"
                       "kong-hybrid-rate-limit-demo" (JStr "cp-2")),
                 @mkEnv scripted [] [control_planes_request fresh_konnect]))
    by reflexivity.
  split; [exact H |].
  destruct (@control_plane_id_is_cached scripted _ _ _ _ _ H) as (_ & _ & _ & _ & _ & Hc).
  apply Hc. reflexivity.
Defined.

(** ** The export and the summary table *)

Lemma map_JStr_injective (l1 l2 : list string) : map JStr l1 = map JStr l2 -> l1 = l2.
Proof.
  revert l2. induction l1 as [| x l1 IH]; intros [| y l2] H; try discriminate.
  - reflexivity.
  - simpl in H. injection H as -> H. f_equal. now apply IH.
Qed.

(** [Evidence.to_dict] loses nothing: the exported tree has the nine
    fields in declaration order, and two records with the same export
    are the same record. *)
Theorem Evidence_to_dict_lossless (e1 e2 : Evidence.t) :
  map fst (Evidence_to_dict e1)
  = ["test_id"; "test_name"; "timestamp"; "result"; "control_mapping";
     "duration_ms"; "details"; "artifacts"; "error_message"]
  /\ (Evidence_to_dict e1 = Evidence_to_dict e2 <-> e1 = e2).
Proof.
  split; [reflexivity |]. split; [| now intros ->].
  destruct e1 as [i1 n1 t1 r1 c1 d1 dt1 a1 m1], e2 as [i2 n2 t2 r2 c2 d2 dt2 a2 m2].
  unfold Evidence_to_dict. simpl. intros H.
  injection H as Hi Hn Ht Hr Hc Hd Hdt Ha Hm.
  apply map_JStr_injective in Hc. subst.
  f_equal. destruct m1, m2; simpl in Hm; congruence.
Qed.

Lemma length_substring_prefix (n : nat) (s : string) :
  (n <= String.length s)%nat -> String.length (substring 0 n s) = n.
Proof.
  revert s. induction n as [| n IH]; intros s H.
  - destruct s; reflexivity.
  - destruct s as [| c s]; simpl in *; [lia |]. rewrite IH; lia.
Qed.

Lemma length_append (s1 s2 : string) :
  String.length (s1 ++ s2) = (String.length s1 + String.length s2)%nat.
Proof. induction s1 as [| c s1 IH]; simpl; [reflexivity | now rewrite IH]. Qed.

(** The name cell of the summary table is the check's name when it has
    at most 40 characters; a longer name is cut to its first 40
    characters followed by three dots, 43 characters in all.  The
    controls cell shows at most the first three controls. *)
Theorem summary_row_truncates (evidence : Evidence.t) :
  exists name_shown result_shown duration_shown,
    summary_row evidence
    = [Evidence.test_id evidence; name_shown; result_shown; duration_shown;
       String.concat ", " (firstn 3 (Evidence.control_mapping evidence))]
    /\ (String.length name_shown <= 43)%nat
    /\ ((String.length (Evidence.test_name evidence) <= 40)%nat ->
        name_shown = Evidence.test_name evidence)
    /\ ((40 < String.length (Evidence.test_name evidence))%nat ->
        name_shown = substring 0 40 (Evidence.test_name evidence) ++ "..."
        /\ String.length name_shown = 43%nat)
    /\ (List.length (firstn 3 (Evidence.control_mapping evidence)) <= 3)%nat.
Proof.
  unfold summary_row. do 3 eexists. split; [reflexivity |].
  unfold name_cell.
  destruct (Nat.ltb 40 (String.length (Evidence.test_name evidence))) eqn:E.
  - apply Nat.ltb_lt in E.
    assert (Hl : String.length (substring 0 40 (Evidence.test_name evidence) ++ "...")
                 = 43%nat).
    { rewrite length_append, length_substring_prefix by lia. reflexivity. }
    split; [lia |]. split; [lia |]. split; [auto |]. apply firstn_le_length.
  - apply Nat.ltb_ge in E.
    split; [lia |]. split; [reflexivity |]. split; [lia |]. apply firstn_le_length.
Qed.

(** ** The entry point *)

Section EntryPointProperties.
Context `{Net : Network}.

Lemma push_dry_run_unchanged (results : list Evidence.t) :
  forall client s, push_to_drata results client true s = (Ok client, s).
Proof.
  induction results as [| e results IH]; intros client s; simpl; [reflexivity |].
  unfold bind, try_except, ret. apply IH.
Qed.

(** After the checks, [main] talks to the sink only when not in dry-run
    mode: then exactly one POST per record follows the checks' own
    requests, sent by the live client built from the configured key and
    base URL.  In dry-run mode the push sends nothing and leaves the
    environment as the checks left it. *)
Theorem main_run_sink_traffic (config : Config) (konnect : KonnectClient)
    (dataplane : DataplaneClient) (clocks : nat -> Clock) (s : Env) :
  exists results s1 sink s',
    run_tests (combine (create_tests (kong config) konnect dataplane)
                 (map clocks (seq 0 9))) s = (Ok results, s1)
    /\ main_run config konnect dataplane clocks s
       = (Ok (results, sink, exit_status results), s')
    /\ if dry_run config
       then s' = s1 /\ sink = Mock (mkMock (config_verbose config) [])
       else sink = Live (mkDrata (drata_api_key config)
                           (rstrip_slash (drata_api_base config)))
            /\ sent s' = app (sent s1)
                 (map (submit_request (mkDrata (drata_api_key config)
                                         (rstrip_slash (drata_api_base config))))
                      results).
Proof.
  unfold main_run, main_sink.
  change (List.length (create_tests (kong config) konnect dataplane)) with 9%nat.
  destruct (run_tests_ids_stamps
              (combine (create_tests (kong config) konnect dataplane)
                 (map clocks (seq 0 9))) s) as (results & s1 & E & _ & _).
  exists results, s1. unfold bind at 1. rewrite E. unfold bind.
  destruct (dry_run config).
  - rewrite push_dry_run_unchanged. eexists; eexists.
    split; [reflexivity |]. split; [reflexivity |]. split; reflexivity.
  - destruct (push_live_trace results
                (mkDrata (drata_api_key config) (rstrip_slash (drata_api_base config)))
                s1) as (s' & E' & Hs).
    rewrite E'. eexists; exists s'.
    split; [reflexivity |]. split; [reflexivity |]. split; [reflexivity | exact Hs].
Qed.

(** When one of the required variables is not set, [main] exits with
    status 1 before any check runs: the environment is untouched and no
    request is sent.  Otherwise it runs the nine checks and exits with
    the status the results give: 1 when some result is FAIL or ERROR,
    else 0. *)
Theorem main_exit_status (args : Args) (environ : pydict string)
    (admin_url : string -> M string) (clocks : nat -> Clock) (s : Env) :
  match config.load_config environ with
  | Raise _ => main args environ admin_url clocks s = (Ok 1, s)
  | Ok loaded =>
      exists results s',
        main args environ admin_url clocks s = (Ok (exit_status results), s')
        /\ List.length results = 9%nat
        /\ fst (run_tests
                  (combine
                     (create_tests
                        (kong (run_config (cli_override args loaded)))
                        (mkKonnect (config.konnect_token (config.kong loaded)) admin_url)
                        (mkDataplane
                           (rstrip_slash (config.dataplane_url (config.kong loaded))) 30))
                     (map clocks (seq 0 9))) s) = Ok results
        /\ (exit_status results = 1
            <-> exists e, In e results
                  /\ (Evidence.result e = "FAIL" \/ Evidence.result e = "ERROR"))
        /\ (exit_status results = 0 \/ exit_status results = 1)
  end
  /\ ((exists k, In k required_variables /\ lookup k environ = None) ->
      main args environ admin_url clocks s = (Ok 1, s)).
Proof.
  assert (Hmissing : (exists k, In k required_variables /\ lookup k environ = None) ->
                     exists err, config.load_config environ = Raise err).
  { intros (k & Hk & Hn).
    unfold config.load_config, config.Config_from_env, config.KongConfig_from_env,
      config.DrataConfig_from_env, environ_item.
    destruct (lookup "KONNECT_TOKEN" environ) eqn:Et; cbn [and_then]; [| eauto].
    destruct (lookup "DATAPLANE_URL" environ) eqn:Eu; cbn [and_then]; [| eauto].
    destruct (lookup "DRATA_API_KEY" environ) eqn:Ek; cbn [and_then]; [| eauto].
    destruct Hk as [<- | [<- | [<- | []]]]; congruence. }
  split.
  - unfold main. destruct (config.load_config environ) as [loaded | err];
      [| reflexivity].
    assert (Hk : config.kong (cli_override args loaded) = config.kong loaded)
      by (unfold cli_override; destruct (args_dry_run args); reflexivity).
    rewrite Hk.
    set (cfg := run_config (cli_override args loaded)).
    set (konnect := mkKonnect (config.konnect_token (config.kong loaded)) admin_url).
    set (dataplane :=
           mkDataplane (rstrip_slash (config.dataplane_url (config.kong loaded))) 30).
    unfold main_run.
    change (List.length (create_tests (kong cfg) konnect dataplane)) with 9%nat.
    destruct (run_tests_returns
                (combine (create_tests (kong cfg) konnect dataplane)
                   (map clocks (seq 0 9))) s) as (results & s1 & E & L & F).
    destruct (push_to_drata_returns results (dry_run cfg) (main_sink cfg) s1)
      as (sink & s2 & E2).
    exists results, s2. unfold bind. rewrite E, E2. simpl.
    split; [reflexivity |]. split; [exact L |]. split; [reflexivity |].
    unfold exit_status, failed_count. split.
    + destruct (0 <? Z.of_nat _) eqn:Ef.
      * apply filter_nonempty_iff in Ef. destruct Ef as (e & He & Hr).
        split; [| reflexivity]. intros _. exists e. split; [exact He |].
        simpl in Hr. rewrite orb_false_r in Hr. apply orb_true_iff in Hr.
        destruct Hr as [Hr | Hr]; apply String.eqb_eq in Hr; auto.
      * split; [discriminate |]. intros (e & He & Hr).
        assert (Ht : (0 <? Z.of_nat (List.length
                   (filter (fun r => existsb (String.eqb (Evidence.result r))
                                       ["FAIL"; "ERROR"]) results))) = true).
        { apply filter_nonempty_iff. exists e. split; [exact He |].
          destruct Hr as [-> | ->]; reflexivity. }
        congruence.
    + destruct (0 <? Z.of_nat _); auto.
  - intros Hm. destruct (Hmissing Hm) as (err & E). unfold main. now rewrite E.
Qed.

(** How the flags combine.  The run is a dry run when DRY_RUN,
    lower-cased, is ["true"] or [--dry-run] is given, and only then is
    the mock sink used.  It is verbose when VERBOSE, lower-cased, is
    ["true"], or when [--dry-run] and [--verbose] are given together:
    [--verbose] without [--dry-run] changes nothing.  The flags never
    change the keys or the URLs. *)
Theorem main_effective_flags (args : Args) (environ : pydict string)
    (loaded : config.Config) (Hload : config.load_config environ = Ok loaded) :
  let c := cli_override args loaded in
  config.dry_run c = env_flag environ "DRY_RUN" || args_dry_run args
  /\ config.verbose c
     = env_flag environ "VERBOSE" || (args_dry_run args && args_verbose args)
  /\ config.kong c = config.kong loaded
  /\ config.drata c = config.drata loaded
  /\ main_sink (run_config c)
     = if env_flag environ "DRY_RUN" || args_dry_run args
       then Mock (mkMock (env_flag environ "VERBOSE"
                          || (args_dry_run args && args_verbose args)) [])
       else Live (mkDrata (config.api_key (config.drata loaded))
                    (rstrip_slash (config.api_base (config.drata loaded)))).
Proof.
  cbv zeta.
  assert (Hf : config.dry_run loaded = env_flag environ "DRY_RUN"
               /\ config.verbose loaded = env_flag environ "VERBOSE").
  { unfold config.load_config, config.Config_from_env in Hload.
    destruct (config.KongConfig_from_env environ); cbn [and_then] in Hload;
      [| discriminate].
    destruct (config.DrataConfig_from_env environ); cbn [and_then] in Hload;
      [| discriminate].
    injection Hload as <-. split; reflexivity. }
  destruct Hf as [Hd Hv]. unfold cli_override, main_sink, run_config.
  rewrite <- Hd, <- Hv.
  destruct (args_dry_run args); simpl.
  - rewrite orb_true_r.
    split; [reflexivity |]. split; [apply orb_comm |].
    split; [reflexivity |]. split; [reflexivity |].
    now rewrite orb_comm.
  - rewrite !orb_false_r.
    split; [reflexivity |]. split; [reflexivity |].
    split; [reflexivity |]. split; reflexivity.
Qed.

End EntryPointProperties.

(** [main_effective_flags], with only the required variables set and
    [--verbose] alone on the command line. *)
Lemma main_effective_flags_witness :
  exists loaded,
    config.load_config [("KONNECT_TOKEN", "t"); ("DATAPLANE_URL", "http://gw/");
                        ("DRATA_API_KEY", "k"); ("DRY_RUN", "True")] = Ok loaded
    /\ config.dry_run (cli_override (mkArgs false true) loaded) = true
    /\ config.verbose (cli_override (mkArgs false true) loaded) = false.
Proof.
  eexists. split; [reflexivity |].
  destruct (main_effective_flags (mkArgs false true)
              [("KONNECT_TOKEN", "t"); ("DATAPLANE_URL", "http://gw/");
               ("DRATA_API_KEY", "k"); ("DRY_RUN", "True")] _ eq_refl)
    as (Hd & Hv & _).
  split; [exact Hd | exact Hv].
Defined.
